(** * Identity and session security core of the Indian Railways Smart Platform

    A shallow embedding of the [User] model (models/User.js) and of the
    authentication routes (routes/authRoutes.js): credential lookup, the
    failed-login counter with its temporary lock, access and refresh
    tokens, and the password-reset token flow.

    Conventions.
    - Instants ([Date], [Date.now()]) are integers, milliseconds since
      the epoch.  One request observes one reading [now] of the clock.
    - JavaScript strings are modelled as [string]; the character classes
      of the regular expressions are read on ASCII ([\s] is the ASCII
      white space, [\d] is [0-9]).
    - The [users] collection is a finite map from [_id] to document, so
      that [_id] is unique as MongoDB enforces it.
    - bcrypt, SHA-256 and the e-mail helpers of validator.js are external
      libraries; they are the fields of the class [Externals]. *)

From Stdlib Require Import ZArith String Ascii List Bool Lia.
From stdpp Require Import base option gmap list fin_maps.
Import ListNotations.

Local Open Scope Z_scope.
Local Open Scope string_scope.

(* ===================================================================== *)
(** ** Strings and the regular expressions of the source                 *)
(* ===================================================================== *)

Module Str.

Definition code (c : ascii) : N := N_of_ascii c.

Definition between (lo hi : N) (c : ascii) : bool :=
  (N.leb lo (code c) && N.leb (code c) hi)%bool.

(** [[A-Z]], [[a-z]], [[a-zA-Z]] and [\d]. *)
Definition isUpper : ascii -> bool := between 65 90.
Definition isLower : ascii -> bool := between 97 122.
Definition isLetter (c : ascii) : bool := (isUpper c || isLower c)%bool.
Definition isDigit : ascii -> bool := between 48 57.

(** [\s]: tab, line feed, vertical tab, form feed, carriage return, space. *)
Definition isSpace (c : ascii) : bool :=
  (between 9 13 c || N.eqb (code c) 32)%bool.

(** Line terminators, which [.] does not match. *)
Definition isLineTerminator (c : ascii) : bool :=
  (N.eqb (code c) 10 || N.eqb (code c) 13)%bool.

Definition isOneOf (set : string) (c : ascii) : bool :=
  existsb (Ascii.eqb c) (list_ascii_of_string set).

Definition lowerChar (c : ascii) : ascii :=
  if isUpper c then ascii_of_N (code c + 32) else c.

Fixpoint map (f : ascii -> ascii) (s : string) : string :=
  match s with
  | EmptyString => EmptyString
  | String c r => String (f c) (map f r)
  end.

Fixpoint filter (keep : ascii -> bool) (s : string) : string :=
  match s with
  | EmptyString => EmptyString
  | String c r => if keep c then String c (filter keep r) else filter keep r
  end.

Fixpoint all (p : ascii -> bool) (s : string) : bool :=
  match s with
  | EmptyString => true
  | String c r => (p c && all p r)%bool
  end.

Fixpoint any (p : ascii -> bool) (s : string) : bool :=
  match s with
  | EmptyString => false
  | String c r => (p c || any p r)%bool
  end.

Fixpoint dropWhile (p : ascii -> bool) (s : string) : string :=
  match s with
  | EmptyString => EmptyString
  | String c r => if p c then dropWhile p r else s
  end.

Fixpoint takeWhile (p : ascii -> bool) (s : string) : string :=
  match s with
  | EmptyString => EmptyString
  | String c r => if p c then String c (takeWhile p r) else EmptyString
  end.

Fixpoint rev_onto (s acc : string) : string :=
  match s with
  | EmptyString => acc
  | String c r => rev_onto r (String c acc)
  end.

Definition rev (s : string) : string := rev_onto s EmptyString.

Definition len (s : string) : Z := Z.of_nat (String.length s).

(** [s.toLowerCase()] *)
Definition toLowerCase : string -> string := map lowerChar.

(** [s.trim()] *)
Definition trim (s : string) : string :=
  rev (dropWhile isSpace (rev (dropWhile isSpace s))).

(** [s.startsWith(p)] *)
Definition startsWith (p s : string) : bool := String.prefix p s.

(** [s.replace(/[\s-]/g, '')] *)
Definition removeSpacesAndHyphens : string -> string :=
  filter (fun c => negb (isSpace c || isOneOf "-" c)).

(** [s.replace(/\s+/g, '')] *)
Definition removeSpaces : string -> string :=
  filter (fun c => negb (isSpace c)).

(** [s.replace(/^\+91/, '')] *)
Definition removeLeadingPlus91 (s : string) : string :=
  match s with
  | String "+" (String "9" (String "1" r)) => r
  | _ => s
  end.

(** The part of [s] before the first occurrence of [c], and the part after
    it; [None] when [c] does not occur. *)
Fixpoint splitFirst (c : ascii) (s : string) : option (string * string) :=
  match s with
  | EmptyString => None
  | String d r =>
      if Ascii.eqb c d then Some (EmptyString, r)
      else match splitFirst c r with
           | Some (a, b) => Some (String d a, b)
           | None => None
           end
  end.

(** The same for the last occurrence of [c]. *)
Definition splitLast (c : ascii) (s : string) : option (string * string) :=
  match splitFirst c (rev s) with
  | Some (a, b) => Some (rev b, rev a)
  | None => None
  end.

Definition nonEmpty (s : string) : bool :=
  match s with EmptyString => false | _ => true end.

End Str.

Module Regex.
Import Str.

(** [/^[a-zA-Z0-9._%+-]+@[a-zA-Z0-9.-]+\.[a-zA-Z]{2,}$/].
    Neither class contains [@], so the subject has exactly one [@]; the
    final label holds letters only, so the dot before it is the last dot
    of the domain. *)
Definition emailLocalChar (c : ascii) : bool :=
  (isLetter c || isDigit c || isOneOf "._%+-" c)%bool.
Definition emailDomainChar (c : ascii) : bool :=
  (isLetter c || isDigit c || isOneOf ".-" c)%bool.

Definition email (s : string) : bool :=
  match splitFirst "@" s with
  | None => false
  | Some (loc, rest) =>
      (nonEmpty loc && all emailLocalChar loc &&
       match splitLast "." rest with
       | None => false
       | Some (dom, tld) =>
           nonEmpty dom && all emailDomainChar dom &&
           all isLetter tld && Z.leb 2 (len tld)
       end)%bool
  end.

(** [/^[6-9]\d{9}$/], the tail of the phone pattern. *)
Definition tenDigits (s : string) : bool :=
  match s with
  | String c r => (between 54 57 c && all isDigit r && Z.eqb (len r) 9)%bool
  | EmptyString => false
  end.

(** [/^(\+91[-\s]?)?[6-9]\d{9}$/] *)
Definition phone (s : string) : bool :=
  (tenDigits s ||
   match s with
   | String "+" (String "9" (String "1" r)) =>
       tenDigits r ||
       match r with
       | String c r' => (isSpace c || isOneOf "-" c) && tenDigits r'
       | EmptyString => false
       end
   | _ => false
   end)%bool.

(** [/^[a-zA-Z\s'-]+$/] *)
Definition name (s : string) : bool :=
  (nonEmpty s && all (fun c => isLetter c || isSpace c || isOneOf "'-" c) s)%bool.

(** [/^(?=.*[A-Za-z])(?=.*\d)/]: a letter and a digit, both before the
    first line terminator. *)
Definition letterAndDigit (s : string) : bool :=
  let line := takeWhile (fun c => negb (isLineTerminator c)) s in
  (any isLetter line && any isDigit line)%bool.

(** [/^(?=.*[A-Za-z])(?=.*\d)[A-Za-z\d@$!%*#?&]{8,}$/] *)
Definition strongPassword (s : string) : bool :=
  (any isLetter s && any isDigit s &&
   all (fun c => isLetter c || isDigit c || isOneOf "@$!%*#?&" c) s &&
   Z.leb 8 (len s))%bool.

End Regex.

(* ===================================================================== *)
(** ** Data model (models/User.js)                                       *)
(* ===================================================================== *)

Inductive Role := passenger | staff | admin | moderator.
Inductive Status := active | suspended | pending_verification | deactivated.

Definition Role_str (r : Role) : string :=
  match r with
  | passenger => "passenger" | staff => "staff"
  | admin => "admin" | moderator => "moderator"
  end.

Definition Status_str (s : Status) : string :=
  match s with
  | active => "active" | suspended => "suspended"
  | pending_verification => "pending_verification"
  | deactivated => "deactivated"
  end.

Definition Status_eqb (a b : Status) : bool :=
  match a, b with
  | active, active | suspended, suspended
  | pending_verification, pending_verification
  | deactivated, deactivated => true
  | _, _ => false
  end.

(** A time span as [jsonwebtoken] takes it for [expiresIn]: the text of the
    configuration and the number of seconds it stands for. *)
Record Timespan := { text : string; seconds : Z }.

Definition span_1h : Timespan := {| text := "1h"; seconds := 60 * 60 |}.
Definition span_7d : Timespan := {| text := "7d"; seconds := 7 * 24 * 60 * 60 |}.

(** [process.env], as far as the core reads it. *)
Record Env := {
  JWT_SECRET : string;
  JWT_REFRESH_SECRET : string;
  JWT_EXPIRE : option Timespan;
  JWT_REFRESH_EXPIRE : option Timespan;
  NODE_ENV : option string
}.

(** [x || d] on an optional setting. *)
Definition or_default {A} (x : option A) (d : A) : A :=
  match x with Some v => v | None => d end.

(** *** Signed tokens

    A token records its payload, the secret it was signed with, and the
    [iat] and [exp] claims in seconds.  Verification accepts a token signed
    with the verifier's secret whose [exp] lies after the clock. *)
Inductive Claims :=
| AuthClaims (id : N) (email : string) (role : Role) (verified : bool)
| RefreshClaims (id : N).

Definition claims_id (c : Claims) : N :=
  match c with AuthClaims i _ _ _ => i | RefreshClaims i => i end.

Record Jwt := { claims : Claims; key : string; iat : Z; exp : Z }.

Definition jwt_sign (payload : Claims) (secret : string)
    (expiresIn : Timespan) (now : Z) : Jwt :=
  let t := now / 1000 in
  {| claims := payload; key := secret; iat := t; exp := t + seconds expiresIn |}.

(** [None] stands for the exception [jwt.verify] throws. *)
Definition jwt_verify (token : Jwt) (secret : string) (now : Z) : option Claims :=
  if (String.eqb (key token) secret && Z.ltb (now / 1000) (exp token))%bool
  then Some (claims token) else None.

(** *** JSON values of request and response bodies *)
#[local] Unset Elimination Schemes.
Inductive Json :=
| JNull
| JBool (b : bool)
| JNum (n : Z)
| JStr (s : string)
| JDate (t : Z)
| JId (i : N)
| JJwt (t : Jwt)
| JArr (l : list Json)
| JObj (fields : list (string * Json)).
#[local] Set Elimination Schemes.

(** A field whose value is [undefined] is left out of the object. *)
Definition field {A} (k : string) (f : A -> Json) (v : option A)
    : list (string * Json) :=
  match v with Some x => [(k, f x)] | None => [] end.

Fixpoint assoc (k : string) (l : list (string * Json)) : option Json :=
  match l with
  | [] => None
  | (k', v) :: r => if String.eqb k k' then Some v else assoc k r
  end.

(** [obj.k], [None] when the member is absent or [obj] is not an object. *)
Definition member (k : string) (j : Json) : option Json :=
  match j with JObj l => assoc k l | _ => None end.

(** *** The user document *)
Record LoginAttempts := {
  count : Z;
  lockUntil : option Z;
  resetAt : option Z
}.

Record Location := { city : string; country : string }.

Record LastLogin := {
  timestamp : option Z;
  ipAddress : option string;
  userAgent : option string;
  location : option Location
}.

(** The fields the core reads or writes.  [count] is the value a loaded
    document shows: a stored document without the field reads as the
    schema default 0, and [$inc] on a missing field stores the increment,
    so a missing counter and a stored 0 are not told apart.  [password]
    holds the bcrypt hash.  The profile fields no route of the core touches
    (avatar, dateOfBirth, gender, address, twoFactorAuth, the phone code)
    are left out; [preferences] is carried as a JSON value. *)
Record User := {
  name : string;
  email : string;
  phone : string;
  password : string;
  role : Role;
  status : Status;
  isEmailVerified : bool;
  isPhoneVerified : bool;
  loginAttempts : LoginAttempts;
  lastLogin : LastLogin;
  preferences : Json;
  emailVerificationToken : option string;
  emailVerificationExpires : option Z;
  passwordResetToken : option string;
  passwordResetExpires : option Z
}.

(** A document in memory: its [_id] and its fields. *)
Definition Doc : Type := N * User.

Definition with_loginAttempts (f : LoginAttempts -> LoginAttempts) (u : User) : User :=
  {| name := name u; email := email u; phone := phone u;
     password := password u; role := role u; status := status u;
     isEmailVerified := isEmailVerified u; isPhoneVerified := isPhoneVerified u;
     loginAttempts := f (loginAttempts u); lastLogin := lastLogin u;
     preferences := preferences u;
     emailVerificationToken := emailVerificationToken u;
     emailVerificationExpires := emailVerificationExpires u;
     passwordResetToken := passwordResetToken u;
     passwordResetExpires := passwordResetExpires u |}.

Definition with_lastLogin (f : LastLogin -> LastLogin) (u : User) : User :=
  {| name := name u; email := email u; phone := phone u;
     password := password u; role := role u; status := status u;
     isEmailVerified := isEmailVerified u; isPhoneVerified := isPhoneVerified u;
     loginAttempts := loginAttempts u; lastLogin := f (lastLogin u);
     preferences := preferences u;
     emailVerificationToken := emailVerificationToken u;
     emailVerificationExpires := emailVerificationExpires u;
     passwordResetToken := passwordResetToken u;
     passwordResetExpires := passwordResetExpires u |}.

Definition with_password (h : string) (u : User) : User :=
  {| name := name u; email := email u; phone := phone u;
     password := h; role := role u; status := status u;
     isEmailVerified := isEmailVerified u; isPhoneVerified := isPhoneVerified u;
     loginAttempts := loginAttempts u; lastLogin := lastLogin u;
     preferences := preferences u;
     emailVerificationToken := emailVerificationToken u;
     emailVerificationExpires := emailVerificationExpires u;
     passwordResetToken := passwordResetToken u;
     passwordResetExpires := passwordResetExpires u |}.

Definition with_phone (p : string) (u : User) : User :=
  {| name := name u; email := email u; phone := p;
     password := password u; role := role u; status := status u;
     isEmailVerified := isEmailVerified u; isPhoneVerified := isPhoneVerified u;
     loginAttempts := loginAttempts u; lastLogin := lastLogin u;
     preferences := preferences u;
     emailVerificationToken := emailVerificationToken u;
     emailVerificationExpires := emailVerificationExpires u;
     passwordResetToken := passwordResetToken u;
     passwordResetExpires := passwordResetExpires u |}.

Definition with_emailVerification (tok : option string) (e : option Z) (u : User) : User :=
  {| name := name u; email := email u; phone := phone u;
     password := password u; role := role u; status := status u;
     isEmailVerified := isEmailVerified u; isPhoneVerified := isPhoneVerified u;
     loginAttempts := loginAttempts u; lastLogin := lastLogin u;
     preferences := preferences u;
     emailVerificationToken := tok;
     emailVerificationExpires := e;
     passwordResetToken := passwordResetToken u;
     passwordResetExpires := passwordResetExpires u |}.

Definition with_passwordResetToken (tok : option string) (u : User) : User :=
  {| name := name u; email := email u; phone := phone u;
     password := password u; role := role u; status := status u;
     isEmailVerified := isEmailVerified u; isPhoneVerified := isPhoneVerified u;
     loginAttempts := loginAttempts u; lastLogin := lastLogin u;
     preferences := preferences u;
     emailVerificationToken := emailVerificationToken u;
     emailVerificationExpires := emailVerificationExpires u;
     passwordResetToken := tok;
     passwordResetExpires := passwordResetExpires u |}.

Definition with_passwordResetExpires (e : option Z) (u : User) : User :=
  {| name := name u; email := email u; phone := phone u;
     password := password u; role := role u; status := status u;
     isEmailVerified := isEmailVerified u; isPhoneVerified := isPhoneVerified u;
     loginAttempts := loginAttempts u; lastLogin := lastLogin u;
     preferences := preferences u;
     emailVerificationToken := emailVerificationToken u;
     emailVerificationExpires := emailVerificationExpires u;
     passwordResetToken := passwordResetToken u;
     passwordResetExpires := e |}.

(* ===================================================================== *)
(** ** The credential store                                              *)
(* ===================================================================== *)

(** One entry of a MongoDB update document, for the paths the core
    updates: [$inc], [$set] and [$unset]. *)
Inductive UpdateOp :=
| Inc_count (n : Z)
| Set_count (n : Z)
| Unset_count
| Set_lockUntil (t : Z)
| Unset_lockUntil
| Set_resetAt (t : Z)
| Set_lastLogin_timestamp (t : Z)
| Set_lastLogin_ipAddress (ip : option string)
| Set_lastLogin_userAgent (ua : option string)
| Set_lastLogin_location (l : Location)
| Set_password (h : string)
| Set_passwordResetToken (h : string)
| Unset_passwordResetToken
| Set_passwordResetExpires (t : Z)
| Unset_passwordResetExpires.

Definition Update : Type := list UpdateOp.

Definition apply_op (o : UpdateOp) (u : User) : User :=
  match o with
  | Inc_count n =>
      with_loginAttempts (fun a =>
        {| count := count a + n; lockUntil := lockUntil a; resetAt := resetAt a |}) u
  | Set_count n =>
      with_loginAttempts (fun a =>
        {| count := n; lockUntil := lockUntil a; resetAt := resetAt a |}) u
  | Unset_count =>
      with_loginAttempts (fun a =>
        {| count := 0; lockUntil := lockUntil a; resetAt := resetAt a |}) u
  | Set_lockUntil t =>
      with_loginAttempts (fun a =>
        {| count := count a; lockUntil := Some t; resetAt := resetAt a |}) u
  | Unset_lockUntil =>
      with_loginAttempts (fun a =>
        {| count := count a; lockUntil := None; resetAt := resetAt a |}) u
  | Set_resetAt t =>
      with_loginAttempts (fun a =>
        {| count := count a; lockUntil := lockUntil a; resetAt := Some t |}) u
  | Set_lastLogin_timestamp t =>
      with_lastLogin (fun l =>
        {| timestamp := Some t; ipAddress := ipAddress l;
           userAgent := userAgent l; location := location l |}) u
  | Set_lastLogin_ipAddress ip =>
      with_lastLogin (fun l =>
        {| timestamp := timestamp l; ipAddress := ip;
           userAgent := userAgent l; location := location l |}) u
  | Set_lastLogin_userAgent ua =>
      with_lastLogin (fun l =>
        {| timestamp := timestamp l; ipAddress := ipAddress l;
           userAgent := ua; location := location l |}) u
  | Set_lastLogin_location c =>
      with_lastLogin (fun l =>
        {| timestamp := timestamp l; ipAddress := ipAddress l;
           userAgent := userAgent l; location := Some c |}) u
  | Set_password h => with_password h u
  | Set_passwordResetToken h => with_passwordResetToken (Some h) u
  | Unset_passwordResetToken => with_passwordResetToken None u
  | Set_passwordResetExpires t => with_passwordResetExpires (Some t) u
  | Unset_passwordResetExpires => with_passwordResetExpires None u
  end.

Definition apply_update (upd : Update) (u : User) : User :=
  fold_left (fun acc o => apply_op o acc) upd u.

(** [Model.findOne(q)]: a document satisfying [q], the first one in the
    order in which the collection is enumerated. *)
Definition findOne (q : Doc -> bool) (db : gmap N User) : option Doc :=
  List.find q (map_to_list db).

(** [Model.findById(id)] *)
Definition findById (id : N) (db : gmap N User) : option Doc :=
  match db !! id with Some u => Some (id, u) | None => None end.

(** [Model.updateOne({ _id: id }, upd)] *)
Definition updateOne (id : N) (upd : Update) (db : gmap N User) : gmap N User :=
  alter (apply_update upd) id db.

(** A pending [doc.updateOne(upd)]: the [_id] it filters on and the update
    document.  [exec] runs it against the store. *)
Definition Write : Type := N * Update.

Definition exec (w : Write) (db : gmap N User) : gmap N User :=
  updateOne w.1 w.2 db.

Definition exec_opt (w : option Write) (db : gmap N User) : gmap N User :=
  match w with Some x => exec x db | None => db end.

Definition exists_doc (q : Doc -> bool) (db : gmap N User) : bool :=
  match findOne q db with Some _ => true | None => false end.

(** The unique indexes of the schema: [_id], [email] and [phone].  An
    insert that collides with one of them fails with the duplicate-key
    error (code 11000) that names the field. *)
Definition duplicateKey (d : Doc) (db : gmap N User) : option string :=
  match db !! d.1 with
  | Some _ => Some "_id"
  | None =>
      if exists_doc (fun e => String.eqb (email e.2) (email d.2)) db
      then Some "email"
      else if exists_doc (fun e => String.eqb (phone e.2) (phone d.2)) db
      then Some "phone"
      else None
  end.

Definition insertOne (d : Doc) (db : gmap N User) : gmap N User :=
  <[d.1 := d.2]> db.

(* ===================================================================== *)
(** ** External libraries                                                *)
(* ===================================================================== *)

Class Externals := {
  (** [crypto.createHash('sha256').update(t).digest('hex')] *)
  sha256 : string -> string;
  (** [bcrypt.hash(password, salt)] *)
  bcrypt_hash : string -> string -> string;
  (** [bcrypt.compare(candidate, hash)] *)
  bcrypt_compare : string -> string -> bool;
  (** [isEmail()] and [normalizeEmail()] of express-validator *)
  isEmail : string -> bool;
  normalizeEmail : string -> string
}.

(* ===================================================================== *)
(** ** Requests and responses                                            *)
(* ===================================================================== *)

(** What a handler reads of the connection: [req.ip] and
    [req.get('User-Agent')]. *)
Record Client := { ip : string; agent : option string }.

Module LoginInfo.
Record t := {
  ipAddress : option string;
  userAgent : option string;
  location : option Location
}.
End LoginInfo.

Module LoginBody.
Record t := { identifier : string; password : string; rememberMe : bool }.
End LoginBody.

Module RegisterBody.
Record t := {
  name : string;
  email : string;
  phone : string;
  password : string;
  confirmPassword : string
}.
End RegisterBody.

Module ResetBody.
Record t := { password : string; confirmPassword : string }.
End ResetBody.

(** [req.cookies] is [None] when no cookie parser has filled it in. *)
Module RefreshRequest.
Record t := {
  cookies : option (option Jwt);
  body_refreshToken : option Jwt
}.
End RefreshRequest.

Record CookieOptions := {
  httpOnly : bool;
  secure : bool;
  sameSite : string;
  maxAge : Z
}.

Inductive CookieOp :=
| SetCookie (cname : string) (value : Jwt) (options : CookieOptions)
| ClearCookie (cname : string).

Record Response := {
  statusCode : Z;
  setCookies : list CookieOp;
  body : Json
}.

(** [res.status(code).json(b)] *)
Definition json (code : Z) (b : Json) : Response :=
  {| statusCode := code; setCookies := []; body := b |}.

(** An entry of [validationResult(req).array()]. *)
Record ValidationError := { param : string; msg : string; value : string }.

Definition ValidationError_json (e : ValidationError) : Json :=
  JObj [("value", JStr (value e)); ("msg", JStr (msg e));
        ("param", JStr (param e)); ("location", JStr "body")].

(** A validator of a chain: the error it reports when [ok] is false. *)
Definition check (ok : bool) (p m v : string) : list ValidationError :=
  if ok then [] else [{| param := p; msg := m; value := v |}].

(** *** Handlers that read, then write

    The handlers that change a document first await a query and later
    await the write they derive from the answer.  [query] is the awaited
    read and [continue] the rest of the handler: the write it issues, if
    any, and the response.  [serve] runs the two in one go, which is what
    a request does when no other request touches the store in between. *)
Record Handler := {
  query : gmap N User -> option Doc;
  continue : option Doc -> option Write * Response
}.

Definition serve (h : Handler) (db : gmap N User) : gmap N User * Response :=
  let '(w, res) := continue h (query h db) in
  (exec_opt w db, res).

(** Two requests in flight.  The event loop runs one handler at a time
    and switches at an [await]: a handler that has read holds the answer
    (here already turned into its pending write and response) until its
    next turn. *)
Inductive Progress :=
| Started
| HasRead (w : option Write) (res : Response)
| Finished (res : Response).

Definition advance (h : Handler) (p : Progress) (db : gmap N User)
    : Progress * gmap N User :=
  match p with
  | Started => let '(w, res) := continue h (query h db) in (HasRead w res, db)
  | HasRead w res => (Finished res, exec_opt w db)
  | Finished res => (Finished res, db)
  end.

Inductive Turn := First | Second.

Fixpoint interleave (h1 h2 : Handler) (schedule : list Turn)
    (p1 p2 : Progress) (db : gmap N User) : Progress * Progress * gmap N User :=
  match schedule with
  | [] => (p1, p2, db)
  | First :: rest =>
      let '(p1, db) := advance h1 p1 db in interleave h1 h2 rest p1 p2 db
  | Second :: rest =>
      let '(p2, db) := advance h2 p2 db in interleave h1 h2 rest p1 p2 db
  end.

(** The schedules in which each of the two requests takes its two turns. *)
Definition schedules : list (list Turn) :=
  [[First; First; Second; Second];
   [First; Second; First; Second];
   [First; Second; Second; First];
   [Second; First; First; Second];
   [Second; First; Second; First];
   [Second; Second; First; First]].

(* ===================================================================== *)
(** ** Instance methods of the model                                     *)
(* ===================================================================== *)

Section Model.
Context `{Externals}.
Variable env : Env.

(** [UserSchema.virtual('isLocked')] *)
Definition isLocked (now : Z) (u : User) : bool :=
  match lockUntil (loginAttempts u) with
  | Some t => Z.ltb now t
  | None => false
  end.

(** [UserSchema.virtual('isProfileComplete')] *)
Definition isProfileComplete (u : User) : bool :=
  (Str.nonEmpty (name u) && Str.nonEmpty (email u) && Str.nonEmpty (phone u)
   && isEmailVerified u && isPhoneVerified u)%bool.

Definition comparePassword (candidatePassword : string) (u : User) : bool :=
  if Str.nonEmpty (password u)
  then bcrypt_compare candidatePassword (password u)
  else false.

Definition generateAuthToken (now : Z) (d : Doc) : Jwt :=
  let payload :=
    AuthClaims d.1 (email d.2) (role d.2)
               (isEmailVerified d.2 && isPhoneVerified d.2) in
  jwt_sign payload (JWT_SECRET env) (or_default (JWT_EXPIRE env) span_1h) now.

Definition generateRefreshToken (now : Z) (d : Doc) : Jwt :=
  jwt_sign (RefreshClaims d.1) (JWT_REFRESH_SECRET env)
           (or_default (JWT_REFRESH_EXPIRE env) span_7d) now.

Definition maxAttempts : Z := 5.
Definition lockTime : Z := 2 * 60 * 60 * 1000.

(** The test [lockUntil && lockUntil < Date.now()] that opens
    [incLoginAttempts]. *)
Definition lockExpired (now : Z) (u : User) : bool :=
  match lockUntil (loginAttempts u) with
  | Some t => Z.ltb t now
  | None => false
  end.

Definition incLoginAttempts (now : Z) (d : Doc) : Write :=
  if lockExpired now d.2 then
    (d.1, [Unset_lockUntil; Set_count 1; Set_resetAt now])
  else
    let updates := [Inc_count 1] in
    if (Z.leb maxAttempts (count (loginAttempts d.2) + 1)
        && negb (isLocked now d.2))%bool
    then (d.1, (updates ++ [Set_lockUntil (now + lockTime)])%list)
    else (d.1, updates).

Definition resetLoginAttempts (loginInfo : LoginInfo.t) (now : Z) (d : Doc) : Write :=
  let updateData :=
    [Unset_count; Unset_lockUntil;
     Set_lastLogin_timestamp now;
     Set_lastLogin_ipAddress (LoginInfo.ipAddress loginInfo);
     Set_lastLogin_userAgent (LoginInfo.userAgent loginInfo)] in
  match LoginInfo.location loginInfo with
  | Some l => (d.1, (updateData ++ [Set_lastLogin_location l])%list)
  | None => (d.1, updateData)
  end.

(** The two token generators change the document in memory and return the
    raw token; [rand] is [crypto.randomBytes(32).toString('hex')]. *)
Definition generateEmailVerificationToken (now : Z) (rand : string) (u : User)
    : string * User :=
  (rand, with_emailVerification (Some (sha256 rand))
                                (Some (now + 24 * 60 * 60 * 1000)) u).

Definition generatePasswordResetToken (now : Z) (rand : string) (u : User)
    : string * User :=
  (rand, with_passwordResetExpires (Some (now + 10 * 60 * 1000))
           (with_passwordResetToken (Some (sha256 rand)) u)).

(** [UserSchema.statics.findByEmailOrPhone] *)
Definition byEmail (e : string) (d : Doc) : bool := String.eqb (email d.2) e.

Definition byPhoneIn (ps : list string) (d : Doc) : bool :=
  existsb (String.eqb (phone d.2)) ps.

Definition findByEmailOrPhone (identifier : string) (db : gmap N User) : option Doc :=
  if Regex.email identifier then
    findOne (byEmail (Str.toLowerCase identifier)) db
  else
    let normalizedPhone := Str.removeSpacesAndHyphens identifier in
    findOne (byPhoneIn [normalizedPhone; String.append "+91" normalizedPhone]) db.

End Model.

(* ===================================================================== *)
(** ** Routes (routes/authRoutes.js)                                     *)
(* ===================================================================== *)

Section Routes.
Context `{Externals}.
Variable env : Env.

(** The reply of a rate limiter built with [rateLimit({ message })]. *)
Definition tooMany (message : Json) : Response := json 429 message.

Definition loginLimiter_message : Json :=
  JObj [("success", JBool false);
        ("error", JStr "Too many login attempts. Please try again in 15 minutes.");
        ("tip", JStr "If you forgot your password, try the password reset option!")].

Definition registerLimiter_message : Json :=
  JObj [("success", JBool false);
        ("error", JStr "Too many registration attempts. Please try again in an hour.");
        ("tip", JStr "Make sure you use a valid email and phone number!")].

Definition forgotLimiter_message : Json :=
  JObj [("success", JBool false);
        ("error", JStr "Too many password reset requests. Please try again in an hour.")].

(** *** POST /login *)

(** [loginValidation]: the errors, and the body once [identifier] is
    trimmed. *)
Definition loginValidation (b : LoginBody.t) : list ValidationError * LoginBody.t :=
  let errors :=
    (check (Str.nonEmpty (LoginBody.identifier b)) "identifier"
           "Email or phone number is required" (LoginBody.identifier b)
     ++ check (Str.nonEmpty (LoginBody.password b)) "password"
              "Password is required" (LoginBody.password b))%list in
  (errors,
   {| LoginBody.identifier := Str.trim (LoginBody.identifier b);
      LoginBody.password := LoginBody.password b;
      LoginBody.rememberMe := LoginBody.rememberMe b |}).

Definition invalidCredentials (tip : string) : Response :=
  json 401 (JObj [("success", JBool false);
                  ("error", JStr "Invalid email/phone or password");
                  ("tip", JStr tip)]).

Definition accountLocked : Response :=
  json 423 (JObj [("success", JBool false);
                  ("error", JStr "Account temporarily locked due to multiple failed login attempts");
                  ("tip", JStr "Please try again later or reset your password")]).

Definition accountSuspended : Response :=
  json 403 (JObj [("success", JBool false);
                  ("error", JStr "Your account has been suspended");
                  ("tip", JStr "Please contact our support team for assistance")]).

Definition Location_json (l : Location) : Json :=
  JObj [("city", JStr (city l)); ("country", JStr (country l))].

Definition LastLogin_json (l : LastLogin) : Json :=
  JObj (field "timestamp" JDate (timestamp l)
        ++ field "ipAddress" JStr (ipAddress l)
        ++ field "userAgent" JStr (userAgent l)
        ++ field "location" Location_json (location l))%list.

Definition loginSucceeded (now : Z) (rememberMe : bool) (d : Doc) : Response :=
  let user := d.2 in
  let authToken := generateAuthToken env now d in
  let refreshToken := generateRefreshToken env now d in
  let cookieOptions :=
    {| httpOnly := true;
       secure := match NODE_ENV env with
                 | Some e => String.eqb e "production"
                 | None => false
                 end;
       sameSite := "strict";
       maxAge := if rememberMe then 30 * 24 * 60 * 60 * 1000
                 else 7 * 24 * 60 * 60 * 1000 |} in
  {| statusCode := 200;
     setCookies := [SetCookie "refreshToken" refreshToken cookieOptions];
     body :=
       JObj [("success", JBool true);
             ("message", JStr (String.append "Welcome back, "
                                 (String.append (name user) "! 🎉")));
             ("data", JObj [
                ("user", JObj [
                   ("id", JId d.1);
                   ("name", JStr (name user));
                   ("email", JStr (email user));
                   ("phone", JStr (phone user));
                   ("role", JStr (Role_str (role user)));
                   ("isEmailVerified", JBool (isEmailVerified user));
                   ("isPhoneVerified", JBool (isPhoneVerified user));
                   ("status", JStr (Status_str (status user)));
                   ("preferences", preferences user);
                   ("lastLogin", LastLogin_json (lastLogin user))]);
                ("tokens", JObj [
                   ("accessToken", JJwt authToken);
                   ("expiresIn",
                    JStr (text (or_default (JWT_EXPIRE env) span_1h)))])])] |}.

(** The handler from the point where [findByEmailOrPhone] has answered
    with [user]: the write it issues against the store, if any, and the
    response. *)
Definition login_found (now : Z) (c : Client) (b : LoginBody.t)
    (user : option Doc) : option Write * Response :=
  match user with
  | None =>
      (None, invalidCredentials
               "Make sure you entered the correct credentials, or create a new account")
  | Some d =>
      if isLocked now d.2 then (None, accountLocked)
      else if Status_eqb (status d.2) suspended then (None, accountSuspended)
      else
        let isPasswordValid := comparePassword (LoginBody.password b) d.2 in
        if negb isPasswordValid then
          (Some (incLoginAttempts now d),
           invalidCredentials
             "Double-check your password or use the forgot password option")
        else
          let loginInfo :=
            {| LoginInfo.ipAddress := Some (ip c);
               LoginInfo.userAgent := agent c;
               LoginInfo.location :=
                 Some {| city := "Unknown"; country := "India" |} |} in
          (Some (resetLoginAttempts loginInfo now d),
           loginSucceeded now (LoginBody.rememberMe b) d)
  end.

Definition login_request (now : Z) (c : Client) (b : LoginBody.t) : Handler :=
  {| query := findByEmailOrPhone (LoginBody.identifier b);
     continue := login_found now c b |}.

(** The handler behind [loginLimiter] and [loginValidation]. *)
Definition login_handler (now : Z) (c : Client) (b : LoginBody.t)
    (db : gmap N User) : gmap N User * Response :=
  let '(errors, b) := loginValidation b in
  match errors with
  | _ :: _ =>
      (db, json 400 (JObj [("success", JBool false);
                           ("error", JStr "Please provide valid login credentials");
                           ("details", JArr (List.map ValidationError_json errors))]))
  | [] =>
      serve (login_request now c b) db
  end.

(** [router.post('/login', loginLimiter, loginValidation, handler)];
    [limited] tells whether the limiter turned the request away. *)
Definition post_login (limited : bool) (now : Z) (c : Client) (b : LoginBody.t)
    (db : gmap N User) : gmap N User * Response :=
  if limited then (db, tooMany loginLimiter_message)
  else login_handler now c b db.

(** The same route with its clock readings told apart.  The handler
    reads the clock in [user.isLocked] ([now]), awaits [comparePassword],
    and reads it again afterwards ([later]): in [incLoginAttempts] when
    the password is refused, in [resetLoginAttempts] and in the signing
    of the tokens when it is accepted.  [login_found now] is
    [login_found_at now now], the request during which the clock shows
    one value. *)
Definition login_found_at (now later : Z) (c : Client) (b : LoginBody.t)
    (user : option Doc) : option Write * Response :=
  match user with
  | None =>
      (None, invalidCredentials
               "Make sure you entered the correct credentials, or create a new account")
  | Some d =>
      if isLocked now d.2 then (None, accountLocked)
      else if Status_eqb (status d.2) suspended then (None, accountSuspended)
      else
        let isPasswordValid := comparePassword (LoginBody.password b) d.2 in
        if negb isPasswordValid then
          (Some (incLoginAttempts later d),
           invalidCredentials
             "Double-check your password or use the forgot password option")
        else
          let loginInfo :=
            {| LoginInfo.ipAddress := Some (ip c);
               LoginInfo.userAgent := agent c;
               LoginInfo.location :=
                 Some {| city := "Unknown"; country := "India" |} |} in
          (Some (resetLoginAttempts loginInfo later d),
           loginSucceeded later (LoginBody.rememberMe b) d)
  end.

Definition login_request_at (now later : Z) (c : Client) (b : LoginBody.t)
    : Handler :=
  {| query := findByEmailOrPhone (LoginBody.identifier b);
     continue := login_found_at now later c b |}.

Definition login_handler_at (now later : Z) (c : Client) (b : LoginBody.t)
    (db : gmap N User) : gmap N User * Response :=
  let '(errors, b) := loginValidation b in
  match errors with
  | _ :: _ =>
      (db, json 400 (JObj [("success", JBool false);
                           ("error", JStr "Please provide valid login credentials");
                           ("details", JArr (List.map ValidationError_json errors))]))
  | [] =>
      serve (login_request_at now later c b) db
  end.

Definition post_login_at (limited : bool) (now later : Z) (c : Client)
    (b : LoginBody.t) (db : gmap N User) : gmap N User * Response :=
  if limited then (db, tooMany loginLimiter_message)
  else login_handler_at now later c b db.

(** *** POST /register *)

Definition registerValidation (b : RegisterBody.t)
    : list ValidationError * RegisterBody.t :=
  let name := RegisterBody.name b in
  let email := RegisterBody.email b in
  let email' := normalizeEmail email in
  let phone := RegisterBody.phone b in
  let password := RegisterBody.password b in
  let confirmPassword := RegisterBody.confirmPassword b in
  let errors :=
    (check (Z.leb 2 (Str.len name) && Z.leb (Str.len name) 50) "name"
           "Name must be between 2 and 50 characters" name
     ++ check (Regex.name name) "name"
           "Name can only contain letters, spaces, apostrophes, and hyphens" name
     ++ check (isEmail email) "email"
           "Please provide a valid email address" email
     ++ check (Z.leb (Str.len email') 255) "email" "Email is too long" email'
     ++ check (Regex.phone phone) "phone"
           "Please provide a valid Indian phone number" phone
     ++ check (Z.leb 8 (Str.len password)) "password"
           "Password must be at least 8 characters long" password
     ++ check (Regex.letterAndDigit password) "password"
           "Password must contain at least one letter and one number" password
     ++ check (String.eqb confirmPassword password) "confirmPassword"
           "Passwords do not match" confirmPassword)%list in
  (errors,
   {| RegisterBody.name := Str.trim name;
      RegisterBody.email := email';
      RegisterBody.phone :=
        Str.removeLeadingPlus91 (Str.removeSpacesAndHyphens phone);
      RegisterBody.password := password;
      RegisterBody.confirmPassword := confirmPassword |}).

(** The schema defaults of [preferences]. *)
Definition default_preferences : Json :=
  JObj [("language", JStr "en");
        ("notifications", JObj [
           ("email", JObj [("booking", JBool true); ("delays", JBool true);
                           ("offers", JBool false); ("security", JBool true)]);
           ("sms", JObj [("booking", JBool true); ("delays", JBool true);
                         ("emergency", JBool true)]);
           ("push", JObj [("enabled", JBool true); ("sound", JBool true);
                          ("vibration", JBool true)])]);
        ("accessibility", JObj [
           ("highContrast", JBool false); ("largeText", JBool false);
           ("screenReader", JBool false); ("reducedMotion", JBool false);
           ("fontSize", JStr "medium")]);
        ("travel", JObj [
           ("preferredClass", JStr "SL"); ("berthPreference", JStr "lower");
           ("foodPreference", JStr "vegetarian")])].

(** [new User({ name, email, phone, password })]: the setters of the
    schema ([trim], [lowercase]) and its defaults. *)
Definition new_User (name email phone password : string) : User :=
  {| name := Str.trim name;
     email := Str.trim (Str.toLowerCase email);
     phone := phone;
     password := password;
     role := passenger;
     status := pending_verification;
     isEmailVerified := false;
     isPhoneVerified := false;
     loginAttempts := {| count := 0; lockUntil := None; resetAt := None |};
     lastLogin := {| timestamp := None; ipAddress := None;
                     userAgent := None; location := None |};
     preferences := default_preferences;
     emailVerificationToken := None;
     emailVerificationExpires := None;
     passwordResetToken := None;
     passwordResetExpires := None |}.

(** The validators of the schema on the four required paths. *)
Definition valid_name (s : string) : bool :=
  (Str.nonEmpty s && Z.leb 2 (Str.len s) && Z.leb (Str.len s) 50
   && Regex.name s)%bool.
Definition valid_email (s : string) : bool :=
  (Str.nonEmpty s && Regex.email s)%bool.
Definition valid_phone (s : string) : bool :=
  (Str.nonEmpty s && Regex.phone (Str.removeSpaces s))%bool.
Definition valid_password (s : string) : bool :=
  (Str.nonEmpty s && Z.leb 8 (Str.len s) && Regex.strongPassword s)%bool.

Definition validate (u : User) : bool :=
  (valid_name (name u) && valid_email (email u)
   && valid_phone (phone u) && valid_password (password u))%bool.

(** The two [pre('save')] hooks, for a document whose [password] and
    [phone] are modified. *)
Definition hashPassword (salt : string) (u : User) : User :=
  with_password (bcrypt_hash (password u) salt) u.

Definition normalizePhone (u : User) : User :=
  let phone := Str.removeSpacesAndHyphens (phone u) in
  if Str.startsWith "+91" phone then with_phone phone u
  else if Z.eqb (Str.len phone) 10 then with_phone (String.append "+91" phone) u
  else u.

Inductive SaveError :=
| ValidationFailed
| DuplicateKey (keyPattern : string).

(** [user.save()] on a new document: validation, the hooks, the insert. *)
Definition save_new (salt : string) (d : Doc) (db : gmap N User)
    : SaveError + (Doc * gmap N User) :=
  if negb (validate d.2) then inl ValidationFailed
  else
    let d := (d.1, normalizePhone (hashPassword salt d.2)) in
    match duplicateKey d db with
    | Some f => inl (DuplicateKey f)
    | None => inr (d, insertOne d db)
    end.

Definition registered (now : Z) (d : Doc) : Response :=
  let user := d.2 in
  let authToken := generateAuthToken env now d in
  let refreshToken := generateRefreshToken env now d in
  json 201
    (JObj [("success", JBool true);
           ("message", JStr "Welcome to Indian Railways Smart Platform! 🚄");
           ("data", JObj [
              ("user", JObj [
                 ("id", JId d.1);
                 ("name", JStr (name user));
                 ("email", JStr (email user));
                 ("phone", JStr (phone user));
                 ("isEmailVerified", JBool (isEmailVerified user));
                 ("isPhoneVerified", JBool (isPhoneVerified user));
                 ("status", JStr (Status_str (status user)))]);
              ("tokens", JObj [
                 ("accessToken", JJwt authToken);
                 ("refreshToken", JJwt refreshToken);
                 ("expiresIn",
                  JStr (text (or_default (JWT_EXPIRE env) span_1h)))])]);
           ("tips", JArr [
              JStr "Please verify your email address to unlock all features";
              JStr "Complete your profile for a better experience";
              JStr "Enable 2FA for enhanced security"])]).

(** [newId] is the [_id] the new document receives, [rand] the random
    verification token and [salt] the bcrypt salt. *)
Definition register_handler (now : Z) (newId : N) (rand salt : string)
    (b : RegisterBody.t) (db : gmap N User) : gmap N User * Response :=
  let '(errors, b) := registerValidation b in
  match errors with
  | _ :: _ =>
      (db, json 400
             (JObj [("success", JBool false);
                    ("error", JStr "Please check your input and try again");
                    ("details",
                     JArr (List.map (fun err =>
                             JObj [("field", JStr (param err));
                                   ("message", JStr (msg err))]) errors))]))
  | [] =>
      let name := RegisterBody.name b in
      let email := RegisterBody.email b in
      let phone := RegisterBody.phone b in
      let password := RegisterBody.password b in
      let existingUser :=
        findOne (fun d => byEmail (Str.toLowerCase email) d
                          || byPhoneIn [phone; String.append "+91" phone] d) db in
      match existingUser with
      | Some _ =>
          (db, json 400
                 (JObj [("success", JBool false);
                        ("error", JStr "An account with this email or phone number already exists");
                        ("tip", JStr "Try logging in instead, or use the forgot password option if you forgot your credentials")]))
      | None =>
          let user :=
            new_User (Str.trim name) (Str.toLowerCase email)
                     (if Str.startsWith "+91" phone then phone
                      else String.append "+91" phone)
                     password in
          let '(emailVerificationToken, user) :=
            generateEmailVerificationToken now rand user in
          match save_new salt (newId, user) db with
          | inr (d, db') => (db', registered now d)
          | inl (DuplicateKey f) =>
              (db, json 400
                     (JObj [("success", JBool false);
                            ("error", JStr (String.append "This "
                                (String.append f " is already registered")));
                            ("tip", JStr "Try logging in or use a different email/phone number")]))
          | inl ValidationFailed =>
              (db, json 500
                     (JObj [("success", JBool false);
                            ("error", JStr "Registration failed. Please try again.");
                            ("tip", JStr "If this problem persists, please contact our support team")]))
          end
      end
  end.

Definition post_register (limited : bool) (now : Z) (newId : N)
    (rand salt : string) (b : RegisterBody.t) (db : gmap N User)
    : gmap N User * Response :=
  if limited then (db, tooMany registerLimiter_message)
  else register_handler now newId rand salt b db.

(** *** POST /refresh *)

Definition invalidRefreshToken : Response :=
  json 401 (JObj [("success", JBool false);
                  ("error", JStr "Invalid refresh token")]).

(** Reading [req.cookies.refreshToken] throws when [req.cookies] is
    undefined; like the exception of [jwt.verify], it ends in the [catch]
    of the handler, which replies [invalidRefreshToken]. *)
Definition post_refresh (now : Z) (r : RefreshRequest.t) (db : gmap N User)
    : gmap N User * Response :=
  match RefreshRequest.cookies r with
  | None => (db, invalidRefreshToken)
  | Some cookie =>
      let refreshToken :=
        match cookie with
        | Some t => Some t
        | None => RefreshRequest.body_refreshToken r
        end in
      match refreshToken with
      | None =>
          (db, json 401 (JObj [("success", JBool false);
                               ("error", JStr "Refresh token is required")]))
      | Some refreshToken =>
          match jwt_verify refreshToken (JWT_REFRESH_SECRET env) now with
          | None => (db, invalidRefreshToken)
          | Some decoded =>
              match findById (claims_id decoded) db with
              | None => (db, invalidRefreshToken)
              | Some user =>
                  if negb (Status_eqb (status user.2) active)
                  then (db, invalidRefreshToken)
                  else
                    let newAccessToken := generateAuthToken env now user in
                    (db, json 200
                           (JObj [("success", JBool true);
                                  ("data", JObj [
                                     ("accessToken", JJwt newAccessToken);
                                     ("expiresIn",
                                      JStr (text (or_default (JWT_EXPIRE env)
                                                             span_1h)))])]))
              end
          end
      end
  end.


(** *** GET /me and POST /logout *)

(** Modelled from the spec: the middleware [auth]
    (middleware/authMiddleware.js) is not among the sources.  By sections
    4.3 and 6 of the specification it verifies the bearer token and either
    replies 401 itself or hands the request on with [req.user.id] set; its
    outcome is an input of the two routes it guards. *)
Inductive Auth :=
| Rejected (reply : Response)
| Authenticated (id : N).

(** [toJSON] of a document loaded with the default projection: the
    [select: false] paths are absent and the virtuals are added. *)
Definition toJSON (now : Z) (d : Doc) : Json :=
  let u := d.2 in
  let a := loginAttempts u in
  JObj [("_id", JId d.1);
        ("name", JStr (name u));
        ("email", JStr (email u));
        ("phone", JStr (phone u));
        ("role", JStr (Role_str (role u)));
        ("status", JStr (Status_str (status u)));
        ("isEmailVerified", JBool (isEmailVerified u));
        ("isPhoneVerified", JBool (isPhoneVerified u));
        ("loginAttempts",
         JObj ([("count", JNum (count a))]
               ++ field "lockUntil" JDate (lockUntil a)
               ++ field "resetAt" JDate (resetAt a))%list);
        ("lastLogin", LastLogin_json (lastLogin u));
        ("preferences", preferences u);
        ("isLocked", JBool (isLocked now u));
        ("displayName", JStr (name u));
        ("isProfileComplete", JBool (isProfileComplete u));
        ("id", JId d.1)].

Definition get_me (a : Auth) (now : Z) (db : gmap N User)
    : gmap N User * Response :=
  match a with
  | Rejected reply => (db, reply)
  | Authenticated id =>
      match findById id db with
      | None =>
          (db, json 404 (JObj [("success", JBool false);
                               ("error", JStr "User not found")]))
      | Some user =>
          (db, json 200 (JObj [("success", JBool true);
                               ("data", JObj [("user", toJSON now user)])]))
      end
  end.

Definition post_logout (a : Auth) (db : gmap N User) : gmap N User * Response :=
  match a with
  | Rejected reply => (db, reply)
  | Authenticated _ =>
      (db, {| statusCode := 200;
              setCookies := [ClearCookie "refreshToken"];
              body := JObj [("success", JBool true);
                            ("message", JStr "Logged out successfully. Safe travels! 🚄")] |})
  end.

(** *** POST /forgot-password *)

(** [user.save()] on a loaded document sends its modified paths as one
    update of that document: [$set] for a path that holds a value,
    [$unset] for a path assigned [undefined].  [resetTokenPaths u] is that
    update for the two reset-token paths of the document [u] in memory;
    the two paths carry no validator. *)
Definition resetTokenPaths (u : User) : Update :=
  [match passwordResetToken u with
   | Some h => Set_passwordResetToken h
   | None => Unset_passwordResetToken
   end;
   match passwordResetExpires u with
   | Some t => Set_passwordResetExpires t
   | None => Unset_passwordResetExpires
   end].

(** The handler from the point where [findOne] has answered with [user]. *)
Definition forgot_found (now : Z) (rand : string) (user : option Doc)
    : option Write * Response :=
  let response :=
    json 200 (JObj [("success", JBool true);
                    ("message", JStr "If an account with this email exists, you will receive a password reset link shortly.")]) in
  match user with
  | None => (None, response)
  | Some d =>
      let '(resetToken, u) := generatePasswordResetToken now rand d.2 in
      (Some (d.1, resetTokenPaths u), response)
  end.

Definition post_forgot_password (limited : bool) (now : Z) (rand : string)
    (email : string) (db : gmap N User) : gmap N User * Response :=
  if limited then (db, tooMany forgotLimiter_message)
  else if negb (isEmail email) then
    (db, json 400 (JObj [("success", JBool false);
                         ("error", JStr "Please provide a valid email address")]))
  else
    let email := normalizeEmail email in
    serve {| query := findOne (byEmail (Str.toLowerCase email));
             continue := forgot_found now rand |} db.

(** *** POST /reset-password/:token *)

Definition resetValidation (b : ResetBody.t) : list ValidationError :=
  let password := ResetBody.password b in
  let confirmPassword := ResetBody.confirmPassword b in
  (check (Z.leb 8 (Str.len password)) "password"
         "Password must be at least 8 characters long" password
   ++ check (Regex.letterAndDigit password) "password"
         "Password must contain at least one letter and one number" password
   ++ check (String.eqb confirmPassword password) "confirmPassword"
         "Passwords do not match" confirmPassword)%list.

(** The filter [{ passwordResetToken: hashedToken,
    passwordResetExpires: { $gt: Date.now() } }]. *)
Definition byResetToken (hashedToken : string) (now : Z) (d : Doc) : bool :=
  (match passwordResetToken d.2 with
   | Some h => String.eqb h hashedToken
   | None => false
   end
   && match passwordResetExpires d.2 with
      | Some t => Z.ltb now t
      | None => false
      end)%bool.

Definition invalidResetToken : Response :=
  json 400 (JObj [("success", JBool false);
                  ("error", JStr "Invalid or expired password reset token");
                  ("tip", JStr "Please request a new password reset link")]).

(** The handler from the point where [findOne] has answered with [user].
    [save] validates the new password against the schema, hashes it in the
    hook, and sends every modified path in one update; a password the
    schema refuses makes [save] throw. *)
Definition reset_found (salt : string) (b : ResetBody.t) (user : option Doc)
    : option Write * Response :=
  match user with
  | None => (None, invalidResetToken)
  | Some d =>
      let password := ResetBody.password b in
      let u := with_passwordResetExpires None
                 (with_passwordResetToken None d.2) in
      if valid_password password then
        (Some (d.1, (Set_password (bcrypt_hash password salt)
                     :: resetTokenPaths u
                     ++ [Set_count 0; Unset_lockUntil])%list),
         json 200 (JObj [("success", JBool true);
                         ("message", JStr "Password reset successfully! You can now log in with your new password. 🎉")]))
      else
        (None, json 500 (JObj [("success", JBool false);
                               ("error", JStr "Failed to reset password")]))
  end.

Definition reset_request (now : Z) (salt : string) (token : string)
    (b : ResetBody.t) : Handler :=
  let hashedToken := sha256 token in
  {| query := findOne (byResetToken hashedToken now);
     continue := reset_found salt b |}.

Definition post_reset_password (now : Z) (salt : string) (token : string)
    (b : ResetBody.t) (db : gmap N User) : gmap N User * Response :=
  match resetValidation b with
  | (_ :: _) as errors =>
      (db, json 400 (JObj [("success", JBool false);
                           ("error", JStr "Please check your password requirements");
                           ("details", JArr (List.map ValidationError_json errors))]))
  | [] =>
      serve (reset_request now salt token b) db
  end.

(** *** The operations of the core *)

Inductive Operation :=
| Register (limited : bool) (newId : N) (rand salt : string) (b : RegisterBody.t)
| Login (limited : bool) (c : Client) (b : LoginBody.t)
| Me (a : Auth)
| Refresh (r : RefreshRequest.t)
| Logout (a : Auth)
| ForgotPassword (limited : bool) (rand : string) (email : string)
| ResetPassword (salt : string) (token : string) (b : ResetBody.t).

Definition handle (now : Z) (op : Operation) (db : gmap N User)
    : gmap N User * Response :=
  match op with
  | Register limited newId rand salt b => post_register limited now newId rand salt b db
  | Login limited c b => post_login limited now c b db
  | Me a => get_me a now db
  | Refresh r => post_refresh now r db
  | Logout a => post_logout a db
  | ForgotPassword limited rand email => post_forgot_password limited now rand email db
  | ResetPassword salt token b => post_reset_password now salt token b db
  end.

End Routes.

(* ===================================================================== *)
(** ** Statistics (models/User.js)                                       *)
(* ===================================================================== *)

(** [{ $sum: { $cond: [c, 1, 0] } }] over the collection. *)
Definition sumWhere (c : User -> bool) (db : gmap N User) : Z :=
  Z.of_nat (size (filter (fun d : N * User => c d.2 = true) db)).

(** The pipeline of [getUserStats]: one [$group] stage with [_id: null],
    which yields no group for an empty collection and one group
    otherwise. *)
Definition aggregateStats (db : gmap N User) : list Json :=
  match map_to_list db with
  | [] => []
  | _ :: _ =>
      [JObj [("_id", JNull);
             ("totalUsers", JNum (Z.of_nat (size db)));
             ("activeUsers",
              JNum (sumWhere (fun u => Status_eqb (status u) active) db));
             ("verifiedUsers",
              JNum (sumWhere (fun u => isEmailVerified u && isPhoneVerified u) db))]]
  end.

(** [UserSchema.statics.getUserStats]: [stats[0] || { ...zeros }]. *)
Definition getUserStats (db : gmap N User) : Json :=
  match aggregateStats db with
  | stats0 :: _ => stats0
  | [] => JObj [("totalUsers", JNum 0); ("activeUsers", JNum 0);
                ("verifiedUsers", JNum 0)]
  end.

(* ===================================================================== *)
(** ** Notions used in the statements                                    *)
(* ===================================================================== *)

(** The document a registration stores when it is answered 201: built by
    [new User] from the validated body, given its verification token, then
    passed through the two [pre('save')] hooks. *)
Definition registeredDoc `{Externals} (now : Z) (rand salt : string)
    (rb : RegisterBody.t) : User :=
  let b := (registerValidation rb).2 in
  let phone := RegisterBody.phone b in
  normalizePhone
    (hashPassword salt
       (generateEmailVerificationToken now rand
          (new_User (Str.trim (RegisterBody.name b))
                    (Str.toLowerCase (RegisterBody.email b))
                    (if Str.startsWith "+91" phone then phone
                     else String.append "+91" phone)
                    (RegisterBody.password b))).2).

(** The reply of POST /register when the e-mail or the phone is taken. *)
Definition accountExists : Response :=
  json 400
    (JObj [("success", JBool false);
           ("error", JStr "An account with this email or phone number already exists");
           ("tip", JStr "Try logging in instead, or use the forgot password option if you forgot your credentials")]).

(** Operations served one after the other, each at its own instant. *)
Fixpoint run `{Externals} (env : Env) (ops : list (Z * Operation))
    (db : gmap N User) : gmap N User * list Response :=
  match ops with
  | [] => (db, [])
  | (now, op) :: rest =>
      let '(db, res) := handle env now op db in
      let '(db, rs) := run env rest db in
      (db, res :: rs)
  end.

(** A phone number in the form the model stores: [+91] and the ten digits
    of the national number. *)
Definition canonicalPhone (p : string) : Prop :=
  exists national, Regex.tenDigits national = true /\
                   p = String.append "+91" national.

Definition canonical (db : gmap N User) : Prop :=
  forall id u, db !! id = Some u -> canonicalPhone (phone u).

(** bcrypt accepts the password a hash was made from, and its hashes are
    not empty. *)
Definition bcryptAccepts `{Externals} (pw salt : string) : Prop :=
  bcrypt_compare pw (bcrypt_hash pw salt) = true /\
  Str.nonEmpty (bcrypt_hash pw salt) = true.


(** What a refused password does to the store: the route has loaded the
    document [id] and runs [incLoginAttempts] on it. *)
Definition failedVerification (now : Z) (id : N) (db : gmap N User) : gmap N User :=
  match findById id db with
  | Some d => exec (incLoginAttempts now d) db
  | None => db
  end.

(** The filter [findByEmailOrPhone] hands to [findOne]. *)
Definition identifierFilter (identifier : string) : Doc -> bool :=
  if Regex.email identifier then byEmail (Str.toLowerCase identifier)
  else
    let normalizedPhone := Str.removeSpacesAndHyphens identifier in
    byPhoneIn [normalizedPhone; String.append "+91" normalizedPhone].

(** [identifier] names the account [id] and no other account. *)
Definition identifies (identifier : string) (id : N) (db : gmap N User) : Prop :=
  (exists u, db !! id = Some u /\ identifierFilter identifier (id, u) = true) /\
  (forall k v, db !! k = Some v -> identifierFilter identifier (k, v) = true -> k = id).

(** The counter and the lock of the account [id], as a pair. *)
Definition lockout (id : N) (db : gmap N User) : option (Z * option Z) :=
  match db !! id with
  | Some u => Some (count (loginAttempts u), lockUntil (loginAttempts u))
  | None => None
  end.

(** A sequence of login requests, each with its instant and its client,
    served one after the other. *)
Fixpoint logins `{Externals} (env : Env) (reqs : list (Z * Client * LoginBody.t))
    (db : gmap N User) : gmap N User * list Response :=
  match reqs with
  | [] => (db, [])
  | (now, c, b) :: rest =>
      let '(db, res) := post_login env false now c b db in
      let '(db, rs) := logins env rest db in
      (db, res :: rs)
  end.

(** A request that reaches the handler, names the account [id] only, and
    presents a password that does not match the hash stored for [id]. *)
Definition wrongPasswordFor `{Externals} (id : N) (db : gmap N User)
    (r : Z * Client * LoginBody.t) : Prop :=
  (loginValidation r.2).1 = [] /\
  identifies (LoginBody.identifier (loginValidation r.2).2) id db /\
  exists u, db !! id = Some u /\ comparePassword (LoginBody.password r.2) u = false.

(** A test for [identifies]. *)
Definition identifiesb (identifier : string) (id : N) (db : gmap N User) : bool :=
  (match db !! id with
   | Some u => identifierFilter identifier (id, u)
   | None => false
   end
   && forallb (fun d => implb (identifierFilter identifier d) (N.eqb d.1 id))
              (map_to_list db))%bool.

(** The token [post_refresh] reads from a request whose cookies have been
    parsed: the cookie if there is one, else the member of the body. *)
Definition presented (r : RefreshRequest.t) : option Jwt :=
  match RefreshRequest.cookies r with
  | Some (Some t) => Some t
  | Some None => RefreshRequest.body_refreshToken r
  | None => None
  end.

(** [j.k1.k2...] *)
Fixpoint path (ks : list string) (j : Json) : option Json :=
  match ks with
  | [] => Some j
  | k :: rest =>
      match member k j with
      | Some v => path rest v
      | None => None
      end
  end.

Definition days (n : Z) : Z := n * 24 * 60 * 60.

(** The update a successful password reset sends. *)
Definition resetUpdate `{Externals} (salt password : string) : Update :=
  [Set_password (bcrypt_hash password salt);
   Unset_passwordResetToken; Unset_passwordResetExpires;
   Set_count 0; Unset_lockUntil].

(** No two accounts hold the hash [h] as their reset token. *)
Definition heldByOneAccount (h : string) (db : gmap N User) : Prop :=
  forall k1 k2 u1 u2,
    db !! k1 = Some u1 -> db !! k2 = Some u2 ->
    passwordResetToken u1 = Some h -> passwordResetToken u2 = Some h ->
    k1 = k2.

(** How the operation [op], served at [now] on the store [db] and
    answered [res], may have taken the counter of the account [id] from
    its value in [u] to its value in [u']: not at all; by a refused
    password for that account; by a successful login to it; by a
    successful password reset with the token stored for it. *)
Definition counterChange `{Externals} (now : Z) (op : Operation)
    (db : gmap N User) (res : Response) (id : N) (u u' : User) : Prop :=
  count (loginAttempts u') = count (loginAttempts u) \/
  (exists limited c b,
     op = Login limited c b /\ statusCode res = 401 /\
     findByEmailOrPhone (LoginBody.identifier (loginValidation b).2) db
     = Some (id, u) /\
     comparePassword (LoginBody.password b) u = false /\
     count (loginAttempts u')
     = if lockExpired now u then 1 else count (loginAttempts u) + 1) \/
  (exists limited c b,
     op = Login limited c b /\ statusCode res = 200 /\
     findByEmailOrPhone (LoginBody.identifier (loginValidation b).2) db
     = Some (id, u) /\
     comparePassword (LoginBody.password b) u = true /\
     count (loginAttempts u') = 0) \/
  (exists salt token b,
     op = ResetPassword salt token b /\ statusCode res = 200 /\
     passwordResetToken u = Some (sha256 token) /\
     count (loginAttempts u') = 0).

(** The paths that say whose account a document is and what it may do. *)
Definition identity (u : User)
    : string * string * string * Role * Status * bool * bool :=
  (name u, email u, phone u, role u, status u,
   isEmailVerified u, isPhoneVerified u).

(** The writes the routes send, for the loaded document [d], at [now]. *)
Definition routeWrite `{Externals} (now : Z) (d : Doc) (w : Write) : Prop :=
  w = incLoginAttempts now d \/
  (exists info, w = resetLoginAttempts info now d) \/
  (exists rand,
     w = (d.1, resetTokenPaths (generatePasswordResetToken now rand d.2).2)) \/
  (exists salt pw, w = (d.1, resetUpdate salt pw)).

(** No account of the store is active. *)
Definition noneActive (db : gmap N User) : Prop :=
  forall id u, db !! id = Some u -> status u <> active.

(** The counter is not negative, and a lock stands on five counted
    failures at least. *)
Definition lockoutSound (u : User) : Prop :=
  0 <= count (loginAttempts u) /\
  (lockUntil (loginAttempts u) <> None -> maxAttempts <= count (loginAttempts u)).

(** The operation was a registration answered 201. *)
Definition created (op : Operation) (res : Response) : bool :=
  match op with
  | Register _ _ _ _ _ => Z.eqb (statusCode res) 201
  | _ => false
  end.

(** The three numbers [getUserStats] reports. *)
Definition stats (db : gmap N User) : option Json * option Json * option Json :=
  let s := getUserStats db in
  (member "totalUsers" s, member "activeUsers" s, member "verifiedUsers" s).

(** No account of the store has both its e-mail and its phone verified. *)
Definition noneVerified (db : gmap N User) : Prop :=
  forall id u, db !! id = Some u ->
               (isEmailVerified u && isPhoneVerified u)%bool = false.

(* ===================================================================== *)
(** ** Sample data for the closed examples                               *)
(* ===================================================================== *)

Module Sample.

(** Stand-ins for the external libraries: the hash keeps the salt in front
    of a [$], as a bcrypt hash carries its salt. *)
Definition externals : Externals :=
  {| sha256 := fun t => String.append "sha256:" t;
     bcrypt_hash := fun p salt => String.append salt (String.append "$" p);
     bcrypt_compare := fun c h =>
       match Str.splitFirst "$" h with
       | Some (_, p) => String.eqb p c
       | None => false
       end;
     isEmail := Regex.email;
     normalizeEmail := Str.toLowerCase |}.

Definition env : Env :=
  {| JWT_SECRET := "access-secret";
     JWT_REFRESH_SECRET := "refresh-secret";
     JWT_EXPIRE := None;
     JWT_REFRESH_EXPIRE := None;
     NODE_ENV := None |}.

Definition client : Client := {| ip := "10.0.0.1"; agent := None |}.

Definition asha : RegisterBody.t :=
  {| RegisterBody.name := "Asha Rao";
     RegisterBody.email := "Asha@Example.in";
     RegisterBody.phone := "+91 9876543210";
     RegisterBody.password := "tr4ckside";
     RegisterBody.confirmPassword := "tr4ckside" |}.

(** The store after Asha has registered at instant 1000 and received the
    [_id] 7. *)
Definition store : gmap N User :=
  (@post_register externals env false 1000 7 "c0ffee" "salt" asha ∅).1.

Definition credentials (pw : string) (remember : bool) : LoginBody.t :=
  {| LoginBody.identifier := "asha@example.in";
     LoginBody.password := pw;
     LoginBody.rememberMe := remember |}.

(** A request with a wrong password, served at [t]. *)
Definition wrong (t : Z) : Z * Client * LoginBody.t :=
  (t, client, credentials "wrong" false).

(** The store after five such requests: the fifth, at instant 6000, has
    locked the account until 7206000. *)
Definition locked : gmap N User :=
  (@logins externals env
     [wrong 2000; wrong 3000; wrong 4000; wrong 5000; wrong 6000] store).1.


End Sample.

(* ===================================================================== *)
(** ** The string functions on sample inputs                             *)
(* ===================================================================== *)

Example email_ok : Regex.email "asha.k+rail@mail.example.in" = true.
Proof. reflexivity. Qed.
Example email_no_tld : Regex.email "asha@example" = false.
Proof. reflexivity. Qed.
Example email_short_tld : Regex.email "asha@example.c" = false.
Proof. reflexivity. Qed.
Example phone_plain : Regex.phone "9876543210" = true.
Proof. reflexivity. Qed.
Example phone_prefixed : Regex.phone "+91-9876543210" = true.
Proof. reflexivity. Qed.
Example phone_low_digit : Regex.phone "5876543210" = false.
Proof. reflexivity. Qed.
Example trim_both : Str.trim "  a b  " = "a b".
Proof. reflexivity. Qed.
Example lower_mixed : Str.toLowerCase "Asha@Mail.IN" = "asha@mail.in".
Proof. reflexivity. Qed.
Example strong_ok : Regex.strongPassword "tr4ckside!" = true.
Proof. reflexivity. Qed.
Example strong_space : Regex.strongPassword "tr4ck side" = false.
Proof. reflexivity. Qed.
Example phone_inner_hyphen : Regex.phone "+91 98765-43210" = false.
Proof. reflexivity. Qed.
Example letterAndDigit_first_line :
  Regex.letterAndDigit (String "a" (String "010" "1bcdefgh")) = false.
Proof. reflexivity. Qed.

(* ===================================================================== *)
(** ** Properties of the store                                           *)
(* ===================================================================== *)

Section StoreFacts.
Implicit Types (db : gmap N User) (d : Doc) (q : Doc -> bool).

Lemma lookup_updateOne id upd db k :
  updateOne id upd db !! k =
  if decide (id = k) then apply_update upd <$> db !! k else db !! k.
Proof.
  unfold updateOne. destruct (decide (id = k)) as [->|Hne].
  - apply lookup_alter_eq.
  - apply lookup_alter_ne. exact Hne.
Qed.

Lemma lookup_exec_eq id upd db u :
  db !! id = Some u -> exec (id, upd) db !! id = Some (apply_update upd u).
Proof.
  intros Hu. unfold exec. simpl. rewrite lookup_updateOne.
  destruct (decide (id = id)); [|congruence]. rewrite Hu. reflexivity.
Qed.

Lemma lookup_exec_ne id upd db k :
  id <> k -> exec (id, upd) db !! k = db !! k.
Proof.
  intros Hne. unfold exec. simpl. rewrite lookup_updateOne.
  destruct (decide (id = k)); [congruence|reflexivity].
Qed.

Lemma findOne_Some q db d :
  findOne q db = Some d -> db !! d.1 = Some d.2 /\ q d = true.
Proof.
  unfold findOne. intros Hf. apply find_some in Hf as [Hin Hq].
  split; [|exact Hq].
  apply list_elem_of_In in Hin. destruct d as [k u].
  apply elem_of_map_to_list in Hin. exact Hin.
Qed.

Lemma findOne_None q db :
  findOne q db = None <-> (forall k u, db !! k = Some u -> q (k, u) = false).
Proof.
  unfold findOne. split.
  - intros Hf k u Hk. apply (find_none _ _ Hf (k, u)).
    apply list_elem_of_In, elem_of_map_to_list. exact Hk.
  - intros Hall. destruct (find q (map_to_list db)) as [[k u]|] eqn:Hf; [|reflexivity].
    apply find_some in Hf as [Hin Hq].
    apply list_elem_of_In, elem_of_map_to_list in Hin.
    rewrite (Hall _ _ Hin) in Hq. discriminate.
Qed.

(** A query that one document only satisfies finds that document. *)
Lemma findOne_unique q db id u :
  db !! id = Some u -> q (id, u) = true ->
  (forall k v, db !! k = Some v -> q (k, v) = true -> k = id) ->
  findOne q db = Some (id, u).
Proof.
  intros Hu Hq Honly.
  destruct (findOne q db) as [[k v]|] eqn:Hf.
  - apply findOne_Some in Hf as [Hk Hqk]. simpl in Hk.
    pose proof (Honly _ _ Hk Hqk) as ->.
    rewrite Hu in Hk. injection Hk as ->. reflexivity.
  - rewrite findOne_None in Hf. rewrite (Hf _ _ Hu) in Hq. discriminate.
Qed.

Lemma findById_Some id db d :
  findById id db = Some d <-> d.1 = id /\ db !! id = Some d.2.
Proof.
  unfold findById. destruct (db !! id) as [u|] eqn:Hu; split.
  - intros [= <-]. auto.
  - intros [<- [= ->]]. destruct d; reflexivity.
  - discriminate.
  - intros [_ ?]. discriminate.
Qed.

End StoreFacts.

(* ===================================================================== *)
(** ** The failed-login counter and the lock                             *)
(* ===================================================================== *)

Section Lockout.
Implicit Types (db : gmap N User) (d : Doc) (u : User).

Lemma incLoginAttempts_target now d : (incLoginAttempts now d).1 = d.1.
Proof.
  unfold incLoginAttempts.
  destruct (lockExpired now d.2); [reflexivity|].
  destruct (_ && _)%bool; reflexivity.
Qed.

(** Below the threshold, without a stored lock: a bare [$inc]. *)
Lemma incLoginAttempts_below now d :
  lockUntil (loginAttempts d.2) = None ->
  count (loginAttempts d.2) + 1 < maxAttempts ->
  incLoginAttempts now d = (d.1, [Inc_count 1]).
Proof.
  intros Hl Hc. unfold incLoginAttempts, lockExpired. rewrite Hl.
  destruct (Z.leb_spec maxAttempts (count (loginAttempts d.2) + 1)); [lia|].
  reflexivity.
Qed.

(** At the threshold, without a stored lock: [$inc] and the new lock. *)
Lemma incLoginAttempts_threshold now d :
  lockUntil (loginAttempts d.2) = None ->
  maxAttempts <= count (loginAttempts d.2) + 1 ->
  incLoginAttempts now d = (d.1, [Inc_count 1; Set_lockUntil (now + lockTime)]).
Proof.
  intros Hl Hc. unfold incLoginAttempts, lockExpired, isLocked. rewrite Hl.
  destruct (Z.leb_spec maxAttempts (count (loginAttempts d.2) + 1)); [|lia].
  reflexivity.
Qed.

(** A stored lock that lies strictly in the past: restart at 1. *)
Lemma incLoginAttempts_expired now d t :
  lockUntil (loginAttempts d.2) = Some t -> t < now ->
  incLoginAttempts now d = (d.1, [Unset_lockUntil; Set_count 1; Set_resetAt now]).
Proof.
  intros Hl Ht. unfold incLoginAttempts, lockExpired. rewrite Hl.
  destruct (Z.ltb_spec t now); [reflexivity|lia].
Qed.

(** A stored lock that ends at this very instant is neither expired for
    [incLoginAttempts] nor in force for [isLocked]. *)
Lemma incLoginAttempts_at_expiry now d :
  lockUntil (loginAttempts d.2) = Some now ->
  maxAttempts <= count (loginAttempts d.2) + 1 ->
  incLoginAttempts now d = (d.1, [Inc_count 1; Set_lockUntil (now + lockTime)]).
Proof.
  intros Hl Hc. unfold incLoginAttempts, lockExpired, isLocked. rewrite Hl.
  rewrite Z.ltb_irrefl.
  destruct (Z.leb_spec maxAttempts (count (loginAttempts d.2) + 1)); [|lia].
  reflexivity.
Qed.

Lemma failedVerification_lookup now id db u :
  db !! id = Some u ->
  failedVerification now id db !! id =
  Some (apply_update (incLoginAttempts now (id, u)).2 u).
Proof.
  intros Hu. unfold failedVerification, findById. rewrite Hu.
  pose proof (incLoginAttempts_target now (id, u)) as Ht. simpl in Ht.
  destruct (incLoginAttempts now (id, u)) as [k upd]. simpl in *. subst k.
  apply lookup_exec_eq. exact Hu.
Qed.

(** [n] failures in a row that stay below the threshold add [n] to the
    counter and store no lock. *)
Lemma failures_below ts : forall db id u,
  db !! id = Some u ->
  lockUntil (loginAttempts u) = None ->
  count (loginAttempts u) + Z.of_nat (length ts) < maxAttempts ->
  exists u',
    fold_left (fun s t => failedVerification t id s) ts db !! id = Some u' /\
    count (loginAttempts u') = count (loginAttempts u) + Z.of_nat (length ts) /\
    lockUntil (loginAttempts u') = None.
Proof.
  induction ts as [|t ts IH]; intros db id u Hu Hl Hc.
  - exists u. simpl. split; [exact Hu|]. split; [lia|exact Hl].
  - simpl fold_left. simpl length in Hc.
    pose proof (failedVerification_lookup t id db u Hu) as Hstep.
    assert (Hb : incLoginAttempts t (id, u) = (id, [Inc_count 1])).
    { apply (incLoginAttempts_below t (id, u)); simpl; [exact Hl|lia]. }
    rewrite Hb in Hstep. simpl in Hstep.
    destruct (IH _ id _ Hstep) as (u' & Hu' & Hc' & Hl').
    + simpl. exact Hl.
    + simpl. lia.
    + exists u'. split; [exact Hu'|]. split; [|exact Hl'].
      rewrite Hc'. simpl. lia.
Qed.

End Lockout.

(** C1.  From a counter at 0 with no stored lock, four refused passwords
    in a row (at any instants [ts]) leave the account unlocked with the
    counter at 4 and no [lockUntil]; the fifth, at instant [t5], locks it:
    [lockUntil] is [t5] plus two hours. *)
Theorem C1_fifth_failure_locks (db : gmap N User) (id : N) (u : User)
    (ts : list Z) (t5 : Z) :
  db !! id = Some u ->
  count (loginAttempts u) = 0 ->
  lockUntil (loginAttempts u) = None ->
  length ts = 4%nat ->
  let db4 := fold_left (fun s t => failedVerification t id s) ts db in
  let db5 := failedVerification t5 id db4 in
  (exists u4, db4 !! id = Some u4 /\
     count (loginAttempts u4) = 4 /\
     lockUntil (loginAttempts u4) = None /\
     forall t, isLocked t u4 = false) /\
  (exists u5, db5 !! id = Some u5 /\
     count (loginAttempts u5) = 5 /\
     lockUntil (loginAttempts u5) = Some (t5 + 2 * 60 * 60 * 1000) /\
     isLocked t5 u5 = true).
Proof.
  intros Hu Hc Hl Hlen db4 db5.
  destruct (failures_below ts db id u Hu Hl) as (u4 & Hu4 & Hc4 & Hl4).
  { rewrite Hc, Hlen. unfold maxAttempts. lia. }
  rewrite Hc, Hlen in Hc4. simpl in Hc4.
  split.
  - exists u4. split; [exact Hu4|]. split; [exact Hc4|]. split; [exact Hl4|].
    intros t. unfold isLocked. rewrite Hl4. reflexivity.
  - pose proof (failedVerification_lookup t5 id db4 u4 Hu4) as Hstep.
    assert (Hb : incLoginAttempts t5 (id, u4)
                 = (id, [Inc_count 1; Set_lockUntil (t5 + lockTime)])).
    { apply (incLoginAttempts_threshold t5 (id, u4)); simpl; [exact Hl4|].
      rewrite Hc4. unfold maxAttempts. lia. }
    rewrite Hb in Hstep. simpl in Hstep.
    eexists. split; [exact Hstep|]. simpl.
    split; [rewrite Hc4; reflexivity|]. split; [reflexivity|].
    unfold isLocked. simpl. apply Z.ltb_lt. unfold lockTime. lia.
Qed.

Lemma C1_fifth_failure_locks_witness :
  let db4 := fold_left (fun s t => failedVerification t 7 s)
                       [2000; 3000; 4000; 5000] Sample.store in
  let db5 := failedVerification 6000 7 db4 in
  (exists u4, db4 !! 7%N = Some u4 /\
     count (loginAttempts u4) = 4 /\
     lockUntil (loginAttempts u4) = None /\
     forall t, isLocked t u4 = false) /\
  (exists u5, db5 !! 7%N = Some u5 /\
     count (loginAttempts u5) = 5 /\
     lockUntil (loginAttempts u5) = Some (6000 + 2 * 60 * 60 * 1000) /\
     isLocked 6000 u5 = true).
Proof.
  eapply (C1_fifth_failure_locks Sample.store 7 _ [2000; 3000; 4000; 5000] 6000).
  - vm_compute. reflexivity.
  - reflexivity.
  - reflexivity.
  - reflexivity.
Defined.

(* ===================================================================== *)
(** ** POST /login                                                       *)
(* ===================================================================== *)

Section LoginFacts.
Context `{Externals}.
Variable env : Env.
Implicit Types (db : gmap N User) (d : Doc) (b : LoginBody.t) (c : Client).

Lemma findByEmailOrPhone_filter identifier db :
  findByEmailOrPhone identifier db = findOne (identifierFilter identifier) db.
Proof.
  unfold findByEmailOrPhone, identifierFilter.
  destruct (Regex.email identifier); reflexivity.
Qed.

Lemma findByEmailOrPhone_Some identifier db d :
  findByEmailOrPhone identifier db = Some d -> db !! d.1 = Some d.2.
Proof.
  rewrite findByEmailOrPhone_filter. intros Hf.
  apply findOne_Some in Hf. tauto.
Qed.

Lemma identifies_find identifier id db :
  identifies identifier id db ->
  exists u, db !! id = Some u /\ findByEmailOrPhone identifier db = Some (id, u).
Proof.
  intros [(u & Hu & Hq) Honly]. exists u. split; [exact Hu|].
  rewrite findByEmailOrPhone_filter. apply findOne_unique; assumption.
Qed.

(** The filter reads [email] and [phone] only, which no update of the core
    writes; so an update of the account keeps the identifier on it. *)
Lemma apply_update_email upd u : email (apply_update upd u) = email u.
Proof.
  revert u. induction upd as [|o upd IH]; intros u; [reflexivity|].
  simpl. unfold apply_update in IH. rewrite IH. destruct o; reflexivity.
Qed.

Lemma apply_update_phone upd u : phone (apply_update upd u) = phone u.
Proof.
  revert u. induction upd as [|o upd IH]; intros u; [reflexivity|].
  simpl. unfold apply_update in IH. rewrite IH. destruct o; reflexivity.
Qed.

Lemma identifierFilter_update identifier k upd u :
  identifierFilter identifier (k, apply_update upd u)
  = identifierFilter identifier (k, u).
Proof.
  unfold identifierFilter.
  destruct (Regex.email identifier); unfold byEmail, byPhoneIn; simpl.
  - rewrite apply_update_email. reflexivity.
  - rewrite apply_update_phone. reflexivity.
Qed.

Lemma identifies_exec identifier id w db :
  identifies identifier id db -> identifies identifier id (exec w db).
Proof.
  destruct w as [k upd]. intros [(u & Hu & Hq) Honly]. split.
  - destruct (decide (k = id)) as [->|Hne].
    + exists (apply_update upd u). split; [apply lookup_exec_eq; exact Hu|].
      rewrite identifierFilter_update. exact Hq.
    + exists u. split; [rewrite lookup_exec_ne; assumption|exact Hq].
  - intros k' v Hk' Hq'. unfold exec in Hk'. simpl in Hk'.
    rewrite lookup_updateOne in Hk'. destruct (decide (k = k')) as [->|Hne].
    + destruct (db !! k') as [v0|] eqn:Hv0; [|discriminate].
      simpl in Hk'. injection Hk' as <-.
      rewrite identifierFilter_update in Hq'. eapply Honly; eassumption.
    + eapply Honly; eassumption.
Qed.

(** The route on a request that the limiter and the validators let
    through. *)
Lemma post_login_admitted now c b db :
  (loginValidation b).1 = [] ->
  post_login env false now c b db
  = serve (login_request env now c (loginValidation b).2) db.
Proof.
  intros Hv. unfold post_login, login_handler.
  destruct (loginValidation b) as [errors b']. simpl in Hv. subst errors.
  reflexivity.
Qed.

Lemma post_login_unknown now c b db :
  (loginValidation b).1 = [] ->
  findByEmailOrPhone (LoginBody.identifier (loginValidation b).2) db = None ->
  post_login env false now c b db
  = (db, invalidCredentials
           "Make sure you entered the correct credentials, or create a new account").
Proof.
  intros Hv Hf. rewrite post_login_admitted by exact Hv.
  unfold serve, login_request. cbn [query continue]. rewrite Hf. reflexivity.
Qed.

Lemma post_login_locked now c b db d :
  (loginValidation b).1 = [] ->
  findByEmailOrPhone (LoginBody.identifier (loginValidation b).2) db = Some d ->
  isLocked now d.2 = true ->
  post_login env false now c b db = (db, accountLocked).
Proof.
  intros Hv Hf Hl. rewrite post_login_admitted by exact Hv.
  unfold serve, login_request. cbn [query continue]. rewrite Hf.
  unfold login_found. rewrite Hl. reflexivity.
Qed.

Lemma post_login_suspended now c b db d :
  (loginValidation b).1 = [] ->
  findByEmailOrPhone (LoginBody.identifier (loginValidation b).2) db = Some d ->
  isLocked now d.2 = false ->
  status d.2 = suspended ->
  post_login env false now c b db = (db, accountSuspended).
Proof.
  intros Hv Hf Hl Hs. rewrite post_login_admitted by exact Hv.
  unfold serve, login_request. cbn [query continue]. rewrite Hf.
  unfold login_found. rewrite Hl, Hs. reflexivity.
Qed.

Lemma post_login_wrong now c b db d :
  (loginValidation b).1 = [] ->
  findByEmailOrPhone (LoginBody.identifier (loginValidation b).2) db = Some d ->
  isLocked now d.2 = false ->
  status d.2 <> suspended ->
  comparePassword (LoginBody.password b) d.2 = false ->
  post_login env false now c b db
  = (exec (incLoginAttempts now d) db,
     invalidCredentials
       "Double-check your password or use the forgot password option").
Proof.
  intros Hv Hf Hl Hs Hp. rewrite post_login_admitted by exact Hv.
  unfold serve, login_request. cbn [query continue]. rewrite Hf.
  unfold login_found. rewrite Hl.
  destruct (Status_eqb (status d.2) suspended) eqn:Hsb.
  { destruct (status d.2); try discriminate. congruence. }
  assert (Hpw : LoginBody.password (loginValidation b).2 = LoginBody.password b)
    by reflexivity.
  rewrite Hpw, Hp. reflexivity.
Qed.

(** What a refused password does to the store is [failedVerification]. *)
Lemma post_login_wrong_store now c b db d :
  (loginValidation b).1 = [] ->
  findByEmailOrPhone (LoginBody.identifier (loginValidation b).2) db = Some d ->
  isLocked now d.2 = false ->
  status d.2 <> suspended ->
  comparePassword (LoginBody.password b) d.2 = false ->
  (post_login env false now c b db).1 = failedVerification now d.1 db.
Proof.
  intros Hv Hf Hl Hs Hp.
  rewrite (post_login_wrong now c b db d Hv Hf Hl Hs Hp). cbn [fst].
  unfold failedVerification, findById.
  rewrite (findByEmailOrPhone_Some _ _ _ Hf). destruct d. reflexivity.
Qed.

Lemma post_login_right now c b db d :
  (loginValidation b).1 = [] ->
  findByEmailOrPhone (LoginBody.identifier (loginValidation b).2) db = Some d ->
  isLocked now d.2 = false ->
  status d.2 <> suspended ->
  comparePassword (LoginBody.password b) d.2 = true ->
  post_login env false now c b db
  = (exec (resetLoginAttempts
             {| LoginInfo.ipAddress := Some (ip c);
                LoginInfo.userAgent := agent c;
                LoginInfo.location :=
                  Some {| city := "Unknown"; country := "India" |} |} now d) db,
     loginSucceeded env now (LoginBody.rememberMe b) d).
Proof.
  intros Hv Hf Hl Hs Hp. rewrite post_login_admitted by exact Hv.
  unfold serve, login_request. cbn [query continue]. rewrite Hf.
  unfold login_found. rewrite Hl.
  destruct (Status_eqb (status d.2) suspended) eqn:Hsb.
  { destruct (status d.2); try discriminate. congruence. }
  assert (Hpw : LoginBody.password (loginValidation b).2 = LoginBody.password b)
    by reflexivity.
  rewrite Hpw, Hp. reflexivity.
Qed.

End LoginFacts.

(** C3.  While the lock of an account is in force ([now < lockUntil]), a
    login request for that account that reaches the handler is answered
    with the 423 response, whatever password it presents, and the store
    (hence the counter and [lockUntil]) stays as it was: the lock is tested
    before the password is compared. *)
Theorem C3_locked_account_is_refused `{Externals} (env : Env) (now : Z)
    (c : Client) (b : LoginBody.t) (db : gmap N User) (d : Doc) (t : Z) :
  (loginValidation b).1 = [] ->
  findByEmailOrPhone (LoginBody.identifier (loginValidation b).2) db = Some d ->
  lockUntil (loginAttempts d.2) = Some t ->
  now < t ->
  post_login env false now c b db = (db, accountLocked) /\
  statusCode accountLocked = 423.
Proof.
  intros Hv Hf Hl Hlt. split; [|reflexivity].
  apply (post_login_locked env now c b db d Hv Hf).
  unfold isLocked. rewrite Hl. apply Z.ltb_lt. exact Hlt.
Qed.

(** On the store locked by five refused passwords, a request with the
    right password, served before the lock ends. *)
Lemma C3_locked_account_is_refused_witness :
  lockout 7 Sample.locked = Some (5, Some 7206000) /\
  @post_login Sample.externals Sample.env false 6500 Sample.client
    (Sample.credentials "tr4ckside" false) Sample.locked
  = (Sample.locked, accountLocked) /\
  statusCode accountLocked = 423.
Proof.
  split; [vm_compute; reflexivity|].
  eapply (@C3_locked_account_is_refused Sample.externals Sample.env 6500
            Sample.client (Sample.credentials "tr4ckside" false)
            Sample.locked _ 7206000).
  - reflexivity.
  - vm_compute. reflexivity.
  - reflexivity.
  - reflexivity.
Defined.

Section ClockReadings.
Context `{Externals}.
Variable env : Env.
Implicit Types (db : gmap N User) (d : Doc) (b : LoginBody.t) (c : Client).

(** With one value of the clock the two descriptions of the route
    agree. *)
Lemma post_login_at_same limited now c b db :
  post_login_at env limited now now c b db = post_login env limited now c b db.
Proof. reflexivity. Qed.



End ClockReadings.



(** Once the lock lies strictly in the past the route does what C4 says:
    the right password is accepted and clears counter and lock, a refused
    one leaves the counter at 1 and no lock. *)
Lemma login_after_expiry `{Externals} (env : Env) (now : Z)
    (c : Client) (b : LoginBody.t) (db : gmap N User) (d : Doc) (t : Z) :
  (loginValidation b).1 = [] ->
  findByEmailOrPhone (LoginBody.identifier (loginValidation b).2) db = Some d ->
  lockUntil (loginAttempts d.2) = Some t ->
  t < now ->
  status d.2 <> suspended ->
  let '(db', res) := post_login env false now c b db in
  if comparePassword (LoginBody.password b) d.2
  then statusCode res = 200 /\ lockout d.1 db' = Some (0, None)
  else statusCode res = 401 /\ lockout d.1 db' = Some (1, None).
Proof.
  intros Hv Hf Hl Hlt Hs.
  assert (Hnl : isLocked now d.2 = false).
  { unfold isLocked. rewrite Hl. apply Z.ltb_ge. lia. }
  pose proof (findByEmailOrPhone_Some _ _ _ Hf) as Hd.
  destruct (comparePassword (LoginBody.password b) d.2) eqn:Hp.
  - rewrite (post_login_right env now c b db d Hv Hf Hnl Hs Hp).
    split; [reflexivity|]. unfold lockout, resetLoginAttempts. cbn [LoginInfo.location].
    rewrite (lookup_exec_eq _ _ _ _ Hd). reflexivity.
  - rewrite (post_login_wrong env now c b db d Hv Hf Hnl Hs Hp).
    split; [reflexivity|]. unfold lockout.
    rewrite (incLoginAttempts_expired now d t Hl Hlt).
    rewrite (lookup_exec_eq _ _ _ _ Hd). reflexivity.
Qed.

Lemma identifiesb_sound identifier id db :
  identifiesb identifier id db = true -> identifies identifier id db.
Proof.
  unfold identifiesb. intros Hb. apply andb_prop in Hb as [Hid Hall]. split.
  - destruct (db !! id) as [u|]; [|discriminate]. exists u. auto.
  - intros k v Hk Hq. rewrite forallb_forall in Hall.
    specialize (Hall (k, v)). rewrite Hq in Hall. simpl in Hall.
    apply N.eqb_eq. apply Hall.
    apply list_elem_of_In, elem_of_map_to_list. exact Hk.
Qed.

(** C6, as the claim states it, fails: for the same store, the 401 sent
    for an identifier that matches no account and the 401 sent for a
    refused password differ in their [tip]. *)
Lemma C6_bodies_differ :
  let unknown :=
    {| LoginBody.identifier := "nobody@example.in";
       LoginBody.password := "tr4ckside";
       LoginBody.rememberMe := false |} in
  let r1 := (@post_login Sample.externals Sample.env false 2000 Sample.client
               unknown Sample.store).2 in
  let r2 := (@post_login Sample.externals Sample.env false 2000 Sample.client
               (Sample.credentials "wrong" false) Sample.store).2 in
  statusCode r1 = 401 /\ statusCode r2 = 401 /\ body r1 <> body r2.
Proof.
  vm_compute. split; [reflexivity|]. split; [reflexivity|]. discriminate.
Qed.

(** C6, amended.  The two 401 responses carry the same status, the same
    [success] flag and the same [error] string; they differ in [tip]. *)
Theorem C6_same_error_string `{Externals} (env : Env) (now1 now2 : Z)
    (c1 c2 : Client) (b1 b2 : LoginBody.t) (db1 db2 : gmap N User) (d : Doc) :
  (loginValidation b1).1 = [] ->
  findByEmailOrPhone (LoginBody.identifier (loginValidation b1).2) db1 = None ->
  (loginValidation b2).1 = [] ->
  findByEmailOrPhone (LoginBody.identifier (loginValidation b2).2) db2 = Some d ->
  isLocked now2 d.2 = false ->
  status d.2 <> suspended ->
  comparePassword (LoginBody.password b2) d.2 = false ->
  let r1 := (post_login env false now1 c1 b1 db1).2 in
  let r2 := (post_login env false now2 c2 b2 db2).2 in
  statusCode r1 = 401 /\ statusCode r2 = 401 /\
  member "success" (body r1) = Some (JBool false) /\
  member "success" (body r2) = Some (JBool false) /\
  member "error" (body r1) = Some (JStr "Invalid email/phone or password") /\
  member "error" (body r2) = Some (JStr "Invalid email/phone or password") /\
  member "tip" (body r1) <> member "tip" (body r2).
Proof.
  intros Hv1 Hf1 Hv2 Hf2 Hl Hs Hp r1 r2. subst r1 r2.
  rewrite (post_login_unknown env now1 c1 b1 db1 Hv1 Hf1).
  rewrite (post_login_wrong env now2 c2 b2 db2 d Hv2 Hf2 Hl Hs Hp).
  cbn. repeat (split; [reflexivity|]). discriminate.
Qed.

Lemma C6_same_error_string_witness :
  let unknown :=
    {| LoginBody.identifier := "nobody@example.in";
       LoginBody.password := "tr4ckside";
       LoginBody.rememberMe := false |} in
  let r1 := (@post_login Sample.externals Sample.env false 2000 Sample.client
               unknown Sample.store).2 in
  let r2 := (@post_login Sample.externals Sample.env false 3000 Sample.client
               (Sample.credentials "wrong" false) Sample.store).2 in
  statusCode r1 = 401 /\ statusCode r2 = 401 /\
  member "success" (body r1) = Some (JBool false) /\
  member "success" (body r2) = Some (JBool false) /\
  member "error" (body r1) = Some (JStr "Invalid email/phone or password") /\
  member "error" (body r2) = Some (JStr "Invalid email/phone or password") /\
  member "tip" (body r1) <> member "tip" (body r2).
Proof.
  eapply (@C6_same_error_string Sample.externals Sample.env 2000 3000
            Sample.client Sample.client _ (Sample.credentials "wrong" false)
            Sample.store Sample.store).
  - reflexivity.
  - vm_compute. reflexivity.
  - reflexivity.
  - vm_compute. reflexivity.
  - reflexivity.
  - discriminate.
  - reflexivity.
Defined.

(* ===================================================================== *)
(** ** POST /register followed by refused logins                         *)
(* ===================================================================== *)

Section RegisterFacts.
Context `{Externals}.
Variable env : Env.
Implicit Types (db : gmap N User) (d : Doc) (u : User).

Lemma normalizePhone_rest u :
  status (normalizePhone u) = status u /\
  loginAttempts (normalizePhone u) = loginAttempts u /\
  password (normalizePhone u) = password u.
Proof.
  unfold normalizePhone.
  destruct (Str.startsWith _ _); [repeat split|].
  destruct (Z.eqb _ _); repeat split.
Qed.

Lemma duplicateKey_None d db : duplicateKey d db = None -> db !! d.1 = None.
Proof.
  unfold duplicateKey. destruct (db !! d.1); [discriminate|reflexivity].
Qed.

(** A registration answered with 201 has inserted, under the fresh [_id],
    a document in [pending_verification] with the counter at 0 and no
    lock, and has answered with the tokens of that document. *)
Lemma post_register_created limited now newId rand salt rb db db1 res :
  post_register env limited now newId rand salt rb db = (db1, res) ->
  statusCode res = 201 ->
  exists u,
    db !! newId = None /\ db1 = <[newId := u]> db /\
    res = registered env now (newId, u) /\
    status u = pending_verification /\
    count (loginAttempts u) = 0 /\ lockUntil (loginAttempts u) = None.
Proof.
  unfold post_register, register_handler. intros Hr Hs.
  destruct limited.
  { injection Hr as <- <-. discriminate. }
  destruct (registerValidation rb) as [errors b'].
  destruct errors; [|injection Hr as <- <-; discriminate].
  destruct (findOne _ db); [injection Hr as <- <-; discriminate|].
  unfold generateEmailVerificationToken in Hr.
  unfold save_new in Hr.
  destruct (negb (validate _)); [injection Hr as <- <-; discriminate|].
  destruct (duplicateKey _ db) eqn:Hdup; [injection Hr as <- <-; discriminate|].
  apply duplicateKey_None in Hdup. cbn [fst] in Hdup.
  injection Hr as <- <-.
  eexists. split; [exact Hdup|]. split; [reflexivity|]. split; [reflexivity|].
  cbn [fst snd].
  match goal with |- context [normalizePhone ?x] =>
    destruct (normalizePhone_rest x) as (-> & -> & _) end.
  repeat split.
Qed.

Lemma comparePassword_ext pw u u' :
  password u' = password u -> comparePassword pw u' = comparePassword pw u.
Proof. intros Hp. unfold comparePassword. rewrite Hp. reflexivity. Qed.

Lemma wrongPasswordFor_exec id upd db u r :
  db !! id = Some u ->
  password (apply_update upd u) = password u ->
  wrongPasswordFor id db r ->
  wrongPasswordFor id (exec (id, upd) db) r.
Proof.
  intros Hu Hp (Hv & Hi & u0 & Hu0 & Hc). split; [exact Hv|]. split.
  - apply identifies_exec. exact Hi.
  - exists (apply_update upd u). split; [apply lookup_exec_eq; exact Hu|].
    rewrite (comparePassword_ext _ _ _ Hp). congruence.
Qed.

Lemma logins_cons now c b rest db :
  logins env ((now, c, b) :: rest) db =
  let '(db1, res) := post_login env false now c b db in
  let '(db2, rs) := logins env rest db1 in
  (db2, res :: rs).
Proof. reflexivity. Qed.

Lemma logins_app reqs1 reqs2 db :
  logins env (reqs1 ++ reqs2)%list db =
  let '(db1, rs1) := logins env reqs1 db in
  let '(db2, rs2) := logins env reqs2 db1 in
  (db2, (rs1 ++ rs2)%list).
Proof.
  revert db. induction reqs1 as [|[[now c] b] reqs1 IH]; intros db; simpl.
  - destruct (logins env reqs2 db). reflexivity.
  - destruct (login_handler env now c b db) as [db' res].
    rewrite IH. destruct (logins env reqs1 db') as [db1 rs1].
    destruct (logins env reqs2 db1). reflexivity.
Qed.

(** Refused passwords that stay below the threshold: every one is
    answered 401, and the counter has grown by their number. *)
Lemma logins_below reqs : forall db id u,
  db !! id = Some u ->
  lockUntil (loginAttempts u) = None ->
  count (loginAttempts u) + Z.of_nat (length reqs) < maxAttempts ->
  status u <> suspended ->
  Forall (wrongPasswordFor id db) reqs ->
  exists db' u',
    logins env reqs db = (db', List.map (fun _ => invalidCredentials
       "Double-check your password or use the forgot password option") reqs) /\
    db' !! id = Some u' /\
    count (loginAttempts u') = count (loginAttempts u) + Z.of_nat (length reqs) /\
    lockUntil (loginAttempts u') = None /\
    password u' = password u /\ status u' = status u /\
    (forall r, wrongPasswordFor id db r -> wrongPasswordFor id db' r) /\
    (forall i, identifies i id db -> identifies i id db').
Proof.
  induction reqs as [|[[now c] b] reqs IH]; intros db id u Hu Hl Hc Hs Hall.
  - exists db, u. split; [reflexivity|]. split; [exact Hu|].
    split; [simpl; lia|]. split; [exact Hl|].
    split; [reflexivity|]. split; [reflexivity|]. split; auto.
  - simpl length in Hc.
    apply Forall_cons in Hall as [Hfirst Hrest].
    destruct Hfirst as (Hv & Hi & u0 & Hu0 & Hp). simpl in Hv, Hi, Hp.
    rewrite Hu in Hu0. injection Hu0 as <-.
    destruct (identifies_find _ _ _ Hi) as (u1 & Hu1 & Hf).
    rewrite Hu in Hu1. injection Hu1 as <-.
    assert (Hnl : isLocked now u = false) by (unfold isLocked; rewrite Hl; reflexivity).
    pose proof (post_login_wrong env now c b db (id, u) Hv Hf Hnl Hs Hp) as Hstep.
    rewrite (incLoginAttempts_below now (id, u)) in Hstep; [|exact Hl|simpl; lia].
    cbn [fst] in Hstep.
    destruct (IH (exec (id, [Inc_count 1]) db) id (apply_update [Inc_count 1] u))
      as (db' & u' & Hrun & Hu' & Hc' & Hl' & Hp' & Hs' & Hw' & Hi').
    + apply lookup_exec_eq. exact Hu.
    + exact Hl.
    + simpl. lia.
    + exact Hs.
    + eapply Forall_impl; [exact Hrest|]. intros r Hr.
      apply (wrongPasswordFor_exec id _ db u r Hu); [reflexivity|exact Hr].
    + exists db', u'. rewrite logins_cons, Hstep, Hrun.
      split; [reflexivity|]. split; [exact Hu'|].
      split; [rewrite Hc'; simpl; lia|]. split; [exact Hl'|].
      split; [exact Hp'|]. split; [exact Hs'|]. split.
      * intros r Hr. apply Hw'.
        apply (wrongPasswordFor_exec id _ db u r Hu); [reflexivity|exact Hr].
      * intros i Hid. apply Hi'. apply identifies_exec. exact Hid.
Qed.

End RegisterFacts.

(** C2, as the claim states it, fails: Asha registers (201) and five
    requests with a wrong password follow; each of the five, the fifth
    included, is answered 401. *)
Lemma C2_fifth_response_is_401 :
  let rs := (@logins Sample.externals Sample.env
               [Sample.wrong 2000; Sample.wrong 3000; Sample.wrong 4000;
                Sample.wrong 5000; Sample.wrong 6000]
               Sample.store).2 in
  statusCode (@post_register Sample.externals Sample.env false 1000 7
                "c0ffee" "salt" Sample.asha ∅).2 = 201 /\
  List.map statusCode rs = [401; 401; 401; 401; 401] /\
  nth 4 (List.map statusCode rs) 0 <> 423.
Proof.
  vm_compute. split; [reflexivity|]. split; [reflexivity|]. discriminate.
Qed.

(** C2, amended.  After a registration answered 201, five requests in a
    row that name the new account and present a wrong password are each
    answered 401; the fifth stores [lockUntil], two hours after its own
    instant [t5]; it is the next request for the account before that
    instant that is answered 423. *)
Theorem C2_fifth_wrong_password_locks `{Externals} (env : Env) (now0 : Z)
    (newId : N) (rand salt : string) (rb : RegisterBody.t)
    (db0 db1 : gmap N User) (res1 : Response)
    (first4 : list (Z * Client * LoginBody.t))
    (t5 : Z) (c5 : Client) (b5 : LoginBody.t) :
  post_register env false now0 newId rand salt rb db0 = (db1, res1) ->
  statusCode res1 = 201 ->
  length first4 = 4%nat ->
  Forall (wrongPasswordFor newId db1) (first4 ++ [(t5, c5, b5)])%list ->
  exists db5 rs,
    logins env (first4 ++ [(t5, c5, b5)])%list db1 = (db5, rs) /\
    List.map statusCode rs = [401; 401; 401; 401; 401] /\
    lockout newId db5 = Some (5, Some (t5 + 2 * 60 * 60 * 1000)) /\
    forall t6 c6 b6,
      (loginValidation b6).1 = [] ->
      identifies (LoginBody.identifier (loginValidation b6).2) newId db1 ->
      t6 < t5 + 2 * 60 * 60 * 1000 ->
      post_login env false t6 c6 b6 db5 = (db5, accountLocked).
Proof.
  intros Hreg H201 Hlen Hall.
  destruct (post_register_created env _ _ _ _ _ _ _ _ _ Hreg H201)
    as (u1 & _ & -> & _ & Hst & Hc0 & Hl0).
  apply Forall_app in Hall as [H4 H5].
  apply Forall_cons in H5 as [H5 _].
  assert (Hu1 : (<[newId := u1]> db0 : gmap N User) !! newId = Some u1)
    by apply lookup_insert_eq.
  destruct (logins_below env first4 _ newId u1 Hu1 Hl0) as
    (db4 & u4 & Hrun & Hu4 & Hc4 & Hl4 & Hp4 & Hs4 & Hw4 & Hi4).
  { rewrite Hc0, Hlen. unfold maxAttempts. lia. }
  { rewrite Hst. discriminate. }
  { exact H4. }
  rewrite Hc0, Hlen in Hc4. simpl in Hc4.
  destruct (Hw4 _ H5) as (Hv5 & Hid5 & u4' & Hu4' & Hp5). simpl in Hv5, Hid5, Hp5.
  rewrite Hu4 in Hu4'. injection Hu4' as <-.
  destruct (identifies_find _ _ _ Hid5) as (u4' & Hu4' & Hf5).
  rewrite Hu4 in Hu4'. injection Hu4' as <-.
  assert (Hnl : isLocked t5 u4 = false) by (unfold isLocked; rewrite Hl4; reflexivity).
  assert (Hns : status (newId, u4).2 <> suspended).
  { simpl. rewrite Hs4, Hst. discriminate. }
  pose proof (post_login_wrong env t5 c5 b5 db4 (newId, u4) Hv5 Hf5 Hnl Hns Hp5)
    as Hstep.
  rewrite (incLoginAttempts_threshold t5 (newId, u4)) in Hstep;
    [|exact Hl4|simpl; rewrite Hc4; unfold maxAttempts; lia].
  cbn [fst] in Hstep.
  set (upd := [Inc_count 1; Set_lockUntil (t5 + lockTime)]) in *.
  exists (exec (newId, upd) db4). eexists.
  split.
  { rewrite logins_app, Hrun. rewrite logins_cons, Hstep. simpl. reflexivity. }
  split.
  { destruct first4 as [|r1 [|r2 [|r3 [|r4 [|r5 rest]]]]]; try discriminate.
    reflexivity. }
  assert (Hu5 : exec (newId, upd) db4 !! newId = Some (apply_update upd u4))
    by (apply lookup_exec_eq; exact Hu4).
  split.
  { unfold lockout. rewrite Hu5. simpl. rewrite Hc4. reflexivity. }
  intros t6 c6 b6 Hv6 Hid6 Ht6.
  apply Hi4 in Hid6. apply (identifies_exec _ _ (newId, upd)) in Hid6.
  destruct (identifies_find _ _ _ Hid6) as (u5 & Hu5' & Hf6).
  rewrite Hu5 in Hu5'. injection Hu5' as <-.
  apply (post_login_locked env t6 c6 b6 _ _ Hv6 Hf6).
  unfold isLocked. simpl. apply Z.ltb_lt. unfold lockTime. lia.
Qed.

Lemma C2_fifth_wrong_password_locks_witness :
  let wrong t := (t, Sample.client, Sample.credentials "wrong" false) in
  exists db5 rs,
    @logins Sample.externals Sample.env
      ([wrong 2000; wrong 3000; wrong 4000; wrong 5000] ++ [wrong 6000])%list
      Sample.store = (db5, rs) /\
    List.map statusCode rs = [401; 401; 401; 401; 401] /\
    lockout 7 db5 = Some (5, Some (6000 + 2 * 60 * 60 * 1000)) /\
    forall t6 c6 b6,
      (loginValidation b6).1 = [] ->
      identifies (LoginBody.identifier (loginValidation b6).2) 7 Sample.store ->
      t6 < 6000 + 2 * 60 * 60 * 1000 ->
      @post_login Sample.externals Sample.env false t6 c6 b6 db5
      = (db5, accountLocked).
Proof.
  intros wrong.
  assert (Hw : forall t, @wrongPasswordFor Sample.externals 7 Sample.store (wrong t)).
  { intros t. split; [reflexivity|]. split.
    - apply identifiesb_sound. vm_compute. reflexivity.
    - eexists. split; vm_compute; reflexivity. }
  eapply (@C2_fifth_wrong_password_locks Sample.externals Sample.env 1000 7
            "c0ffee" "salt" Sample.asha ∅ Sample.store _
            [wrong 2000; wrong 3000; wrong 4000; wrong 5000]
            6000 Sample.client (Sample.credentials "wrong" false)).
  - apply surjective_pairing.
  - vm_compute. reflexivity.
  - reflexivity.
  - repeat (apply Forall_cons; split; [apply Hw|]). apply Forall_nil. trivial.
Defined.

(* ===================================================================== *)
(** ** Refresh tokens                                                    *)
(* ===================================================================== *)

Section TokenFacts.
Context `{Externals}.
Variable env : Env.
Implicit Types (db : gmap N User) (d : Doc).

(** The outcomes of POST /login: a reply that leaves the store alone, a
    refused password, an accepted one. *)
Lemma post_login_cases limited now c b db :
  let '(db', res) := post_login env limited now c b db in
  (db' = db /\ statusCode res <> 200) \/
  (exists d,
     findByEmailOrPhone (LoginBody.identifier (loginValidation b).2) db = Some d /\
     comparePassword (LoginBody.password b) d.2 = false /\
     db' = exec (incLoginAttempts now d) db /\ statusCode res = 401) \/
  (exists d,
     findByEmailOrPhone (LoginBody.identifier (loginValidation b).2) db = Some d /\
     isLocked now d.2 = false /\
     comparePassword (LoginBody.password b) d.2 = true /\
     (exists info, db' = exec (resetLoginAttempts info now d) db) /\
     res = loginSucceeded env now (LoginBody.rememberMe b) d).
Proof.
  unfold post_login. destruct limited.
  { left. split; [reflexivity|discriminate]. }
  unfold login_handler.
  assert (Hpw : LoginBody.password (loginValidation b).2 = LoginBody.password b)
    by reflexivity.
  assert (Hrm : LoginBody.rememberMe (loginValidation b).2 = LoginBody.rememberMe b)
    by reflexivity.
  destruct (loginValidation b) as [errors b']. cbn [fst snd] in *.
  destruct errors.
  2:{ left. split; [reflexivity|discriminate]. }
  unfold serve, login_request. cbn [query continue].
  destruct (findByEmailOrPhone (LoginBody.identifier b') db) as [d|] eqn:Hf.
  2:{ left. split; [reflexivity|discriminate]. }
  unfold login_found.
  destruct (isLocked now d.2) eqn:Hl.
  { left. split; [reflexivity|discriminate]. }
  destruct (Status_eqb (status d.2) suspended).
  { left. split; [reflexivity|discriminate]. }
  rewrite Hpw, Hrm.
  destruct (comparePassword (LoginBody.password b) d.2) eqn:Hp; cbn [negb].
  - right. right. exists d. split; [reflexivity|]. split; [exact Hl|].
    split; [exact Hp|]. split; [|reflexivity]. eexists. reflexivity.
  - right. left. exists d. split; [reflexivity|]. split; [exact Hp|].
    split; reflexivity.
Qed.

Lemma post_refresh_inactive now r db tok decoded d :
  presented r = Some tok ->
  jwt_verify tok (JWT_REFRESH_SECRET env) now = Some decoded ->
  findById (claims_id decoded) db = Some d ->
  status d.2 <> active ->
  post_refresh env now r db = (db, invalidRefreshToken).
Proof.
  unfold presented, post_refresh. intros Hp Hv Hf Hs.
  destruct (RefreshRequest.cookies r) as [cookie|]; [|discriminate].
  assert (Ht : match cookie with
               | Some t => Some t
               | None => RefreshRequest.body_refreshToken r
               end = Some tok) by (destruct cookie; exact Hp).
  rewrite Ht, Hv, Hf.
  destruct (status d.2); try reflexivity. congruence.
Qed.

(** A request answered by anything but [invalidRefreshToken] or the
    missing-token reply has found an active account. *)
Lemma post_refresh_not_active now r db tok :
  presented r = Some tok ->
  (forall u, db !! claims_id (claims tok) = Some u -> status u <> active) ->
  post_refresh env now r db = (db, invalidRefreshToken).
Proof.
  unfold presented, post_refresh. intros Hp Hs.
  destruct (RefreshRequest.cookies r) as [cookie|]; [|discriminate].
  assert (Ht : match cookie with
               | Some t => Some t
               | None => RefreshRequest.body_refreshToken r
               end = Some tok) by (destruct cookie; exact Hp).
  rewrite Ht. unfold jwt_verify.
  destruct (_ && _)%bool; [|reflexivity].
  unfold findById.
  destruct (db !! claims_id (claims tok)) as [u|] eqn:Hu; [|reflexivity].
  cbn [snd]. specialize (Hs u eq_refl).
  destruct (status u); try reflexivity. congruence.
Qed.

End TokenFacts.

(** C10.  POST /refresh with a token that verifies (signed with the
    refresh secret, not expired) and belongs to an account whose status is
    not [active] is answered 401 with the body
    [{ success: false, error: 'Invalid refresh token' }].  In particular
    a registration answered 201 hands out a refresh token for an account
    in [pending_verification]: whenever that token is presented, in any
    later store in which the account is not [active], the answer is that
    same 401. *)
Theorem C10_refresh_needs_active_account `{Externals} (env : Env) :
  (forall now r db tok decoded d,
     presented r = Some tok ->
     jwt_verify tok (JWT_REFRESH_SECRET env) now = Some decoded ->
     findById (claims_id decoded) db = Some d ->
     status d.2 <> active ->
     post_refresh env now r db = (db, invalidRefreshToken)) /\
  statusCode invalidRefreshToken = 401 /\
  body invalidRefreshToken
  = JObj [("success", JBool false); ("error", JStr "Invalid refresh token")] /\
  (forall now0 newId rand salt rb db0 db1 res1,
     post_register env false now0 newId rand salt rb db0 = (db1, res1) ->
     statusCode res1 = 201 ->
     exists tok u,
       path ["data"; "tokens"; "refreshToken"] (body res1) = Some (JJwt tok) /\
       db1 !! newId = Some u /\ status u = pending_verification /\
       forall now r db,
         presented r = Some tok ->
         (forall u', db !! newId = Some u' -> status u' <> active) ->
         post_refresh env now r db = (db, invalidRefreshToken)).
Proof.
  split; [|split; [reflexivity|split; [reflexivity|]]].
  - intros now r db tok decoded d. apply post_refresh_inactive.
  - intros now0 newId rand salt rb db0 db1 res1 Hreg H201.
    destruct (post_register_created env _ _ _ _ _ _ _ _ _ Hreg H201)
      as (u & _ & -> & -> & Hst & _).
    exists (generateRefreshToken env now0 (newId, u)), u.
    split; [reflexivity|]. split; [apply lookup_insert_eq|]. split; [exact Hst|].
    intros now r db Hp Hs. apply (post_refresh_not_active env now r db _ Hp).
      exact Hs.
Qed.

Lemma C10_refresh_needs_active_account_witness :
  let tok := {| claims := RefreshClaims 7; key := "refresh-secret";
                iat := 1; exp := 604801 |} in
  let r := {| RefreshRequest.cookies := Some (Some tok);
              RefreshRequest.body_refreshToken := None |} in
  path ["data"; "tokens"; "refreshToken"]
       (body (@post_register Sample.externals Sample.env false 1000 7
                "c0ffee" "salt" Sample.asha ∅).2) = Some (JJwt tok) /\
  jwt_verify tok "refresh-secret" 5000 = Some (RefreshClaims 7) /\
  post_refresh Sample.env 5000 r Sample.store
  = (Sample.store, invalidRefreshToken).
Proof.
  intros tok r. split; [vm_compute; reflexivity|]. split; [reflexivity|].
  eapply (proj1 (@C10_refresh_needs_active_account Sample.externals Sample.env)
            5000 r Sample.store tok).
  - reflexivity.
  - reflexivity.
  - vm_compute. reflexivity.
  - discriminate.
Defined.

(** C9, as the claim states it, fails: with the refresh life time left at
    its default, a login with the remember-me flag set issues a refresh
    token that expires 7 days after it was issued, not 30, exactly as a
    login without the flag does; only the cookie lives 30 days. *)
Lemma C9_remember_me_token_lives_7_days :
  let login remember :=
    (@post_login Sample.externals Sample.env false 2000 Sample.client
       (Sample.credentials "tr4ckside" remember) Sample.store).2 in
  statusCode (login true) = 200 /\
  exists tok opts tok' opts',
    setCookies (login true) = [SetCookie "refreshToken" tok opts] /\
    setCookies (login false) = [SetCookie "refreshToken" tok' opts'] /\
    exp tok - iat tok = days 7 /\
    exp tok - iat tok <> days 30 /\
    exp tok' - iat tok' = exp tok - iat tok /\
    maxAge opts = days 30 * 1000.
Proof.
  split; [vm_compute; reflexivity|].
  do 4 eexists. split; [vm_compute; reflexivity|]. split; [vm_compute; reflexivity|].
  split; [reflexivity|]. split; [discriminate|]. split; reflexivity.
Qed.

(** C9, amended.  A refresh token carries the identity id only and
    expires after the life time configured in [JWT_REFRESH_EXPIRE] (7 days
    when it is not set), whatever the remember-me flag: this holds for the
    token a login sets as a cookie and for the token a registration
    returns.  The flag sets the [maxAge] of the cookie only: 30 days when
    set, 7 days otherwise. *)
Theorem C9_refresh_token_lifetime `{Externals} (env : Env) :
  let life := seconds (or_default (JWT_REFRESH_EXPIRE env) span_7d) in
  (forall limited now c b db db' res,
     post_login env limited now c b db = (db', res) ->
     statusCode res = 200 ->
     exists d tok opts,
       setCookies res = [SetCookie "refreshToken" tok opts] /\
       claims tok = RefreshClaims d.1 /\
       db !! d.1 = Some d.2 /\
       exp tok - iat tok = life /\
       maxAge opts = (if LoginBody.rememberMe b then days 30 else days 7) * 1000) /\
  (forall limited now newId rand salt rb db db' res,
     post_register env limited now newId rand salt rb db = (db', res) ->
     statusCode res = 201 ->
     exists tok,
       path ["data"; "tokens"; "refreshToken"] (body res) = Some (JJwt tok) /\
       claims tok = RefreshClaims newId /\
       exp tok - iat tok = life).
Proof.
  intros life. split.
  - intros limited now c b db db' res Hlogin H200.
    pose proof (post_login_cases env limited now c b db) as Hcases.
    rewrite Hlogin in Hcases.
    destruct Hcases as [[_ Hne]|[(d & _ & _ & _ & H401)|(d & Hf & _ & _ & _ & ->)]].
    + congruence.
    + rewrite H401 in H200. discriminate.
    + exists d. do 2 eexists. split; [reflexivity|]. split; [reflexivity|].
      split; [eapply findByEmailOrPhone_Some; exact Hf|].
      split.
      * unfold generateRefreshToken, jwt_sign. cbn [exp iat]. subst life. lia.
      * cbn [maxAge]. unfold days. destruct (LoginBody.rememberMe b); reflexivity.
  - intros limited now newId rand salt rb db db' res Hreg H201.
    destruct (post_register_created env _ _ _ _ _ _ _ _ _ Hreg H201)
      as (u & _ & _ & -> & _).
    eexists. split; [reflexivity|]. split; [reflexivity|].
    unfold generateRefreshToken, jwt_sign. cbn [exp iat]. subst life. lia.
Qed.

Lemma C9_refresh_token_lifetime_witness :
  exists d tok opts,
    setCookies (@post_login Sample.externals Sample.env false 2000 Sample.client
                  (Sample.credentials "tr4ckside" true) Sample.store).2
    = [SetCookie "refreshToken" tok opts] /\
    claims tok = RefreshClaims d.1 /\
    Sample.store !! d.1 = Some d.2 /\
    exp tok - iat tok = days 7 /\
    maxAge opts = days 30 * 1000.
Proof.
  eapply (proj1 (@C9_refresh_token_lifetime Sample.externals Sample.env)
            false 2000 Sample.client (Sample.credentials "tr4ckside" true)
            Sample.store).
  - apply surjective_pairing.
  - vm_compute. reflexivity.
Defined.

(* ===================================================================== *)
(** ** Password-reset tokens                                             *)
(* ===================================================================== *)

Section ResetFacts.
Context `{Externals}.
Implicit Types (db : gmap N User) (d : Doc) (u : User).

(** The outcomes of POST /reset-password/:token. *)
Lemma post_reset_password_cases now salt token b db :
  let '(db', res) := post_reset_password now salt token b db in
  (db' = db /\ statusCode res <> 200 /\
   (statusCode res = 400 \/
    resetValidation b = [] /\
    findOne (byResetToken (sha256 token) now) db <> None)) \/
  (exists d,
     resetValidation b = [] /\
     findOne (byResetToken (sha256 token) now) db = Some d /\
     valid_password (ResetBody.password b) = true /\
     db' = exec (d.1, resetUpdate salt (ResetBody.password b)) db /\
     statusCode res = 200).
Proof.
  unfold post_reset_password.
  destruct (resetValidation b) eqn:Hv.
  2:{ left. split; [reflexivity|]. split; [discriminate|]. left. reflexivity. }
  unfold serve, reset_request. cbn [query continue].
  destruct (findOne (byResetToken (sha256 token) now) db) as [d|] eqn:Hf.
  2:{ left. split; [reflexivity|]. split; [discriminate|]. left. reflexivity. }
  unfold reset_found.
  destruct (valid_password (ResetBody.password b)) eqn:Hp.
  - right. exists d. repeat (split; [reflexivity|]). reflexivity.
  - left. split; [reflexivity|]. split; [discriminate|]. right.
    split; [reflexivity|discriminate].
Qed.

Lemma byResetToken_true h now d :
  byResetToken h now d = true ->
  passwordResetToken d.2 = Some h /\
  exists t, passwordResetExpires d.2 = Some t /\ now < t.
Proof.
  unfold byResetToken. intros Hb. apply andb_prop in Hb as [Ht He].
  destruct (passwordResetToken d.2) as [h'|]; [|discriminate].
  apply String.eqb_eq in Ht. subst h'. split; [reflexivity|].
  destruct (passwordResetExpires d.2) as [t|]; [|discriminate].
  exists t. split; [reflexivity|]. apply Z.ltb_lt. exact He.
Qed.

Lemma byResetToken_other h now d :
  passwordResetToken d.2 <> Some h -> byResetToken h now d = false.
Proof.
  unfold byResetToken. intros Hne.
  destruct (passwordResetToken d.2) as [h'|]; [|reflexivity].
  destruct (String.eqb_spec h' h) as [->|]; [congruence|reflexivity].
Qed.

(** A token whose hash no document holds is refused. *)
Lemma post_reset_password_refused now salt token b db :
  (forall k v, db !! k = Some v -> passwordResetToken v <> Some (sha256 token)) ->
  (post_reset_password now salt token b db).1 = db /\
  statusCode (post_reset_password now salt token b db).2 = 400 /\
  (resetValidation b = [] ->
   post_reset_password now salt token b db = (db, invalidResetToken)).
Proof.
  intros Hnone.
  assert (Hf : findOne (byResetToken (sha256 token) now) db = None).
  { apply findOne_None. intros k v Hk. apply byResetToken_other.
    simpl. eapply Hnone. exact Hk. }
  unfold post_reset_password.
  destruct (resetValidation b); unfold serve, reset_request;
    cbn [query continue]; try rewrite Hf; repeat split; intros; try discriminate.
Qed.

End ResetFacts.

(** C7.  A reset token that has been consumed (the request was answered
    200) is refused from then on.  The consuming request sends one update
    of the document that held the hash of the token: the new password
    hash, and the removal of the stored hash and of its expiry.  Presented
    again, the same token is answered 400, with the invalid-token body when
    the new request passes the validators.  Issuing a token writes its
    hash over the one stored for the account, so that after the issue a
    token with another hash is refused.  Throughout, the hash of the token
    at hand is taken to be held by one account at most. *)
Theorem C7_reset_token_single_use `{Externals} :
  (forall now salt token b db db' res,
     post_reset_password now salt token b db = (db', res) ->
     statusCode res = 200 ->
     heldByOneAccount (sha256 token) db ->
     exists id u u',
       db !! id = Some u /\ passwordResetToken u = Some (sha256 token) /\
       db' = updateOne id (resetUpdate salt (ResetBody.password b)) db /\
       db' !! id = Some u' /\
       password u' = bcrypt_hash (ResetBody.password b) salt /\
       passwordResetToken u' = None /\ passwordResetExpires u' = None /\
       forall now2 salt2 b2,
         (post_reset_password now2 salt2 token b2 db').1 = db' /\
         statusCode (post_reset_password now2 salt2 token b2 db').2 = 400 /\
         (resetValidation b2 = [] ->
          post_reset_password now2 salt2 token b2 db' = (db', invalidResetToken))) /\
  (forall now rand email db db1 res id u,
     post_forgot_password false now rand email db = (db1, res) ->
     isEmail email = true ->
     findOne (byEmail (Str.toLowerCase (normalizeEmail email))) db = Some (id, u) ->
     (exists u1, db1 !! id = Some u1 /\
        passwordResetToken u1 = Some (sha256 rand) /\
        passwordResetExpires u1 = Some (now + 10 * 60 * 1000)) /\
     forall stale,
       sha256 stale <> sha256 rand ->
       (forall k v, db !! k = Some v ->
                    passwordResetToken v = Some (sha256 stale) -> k = id) ->
       forall now2 salt2 b2,
         (post_reset_password now2 salt2 stale b2 db1).1 = db1 /\
         statusCode (post_reset_password now2 salt2 stale b2 db1).2 = 400 /\
         (resetValidation b2 = [] ->
          post_reset_password now2 salt2 stale b2 db1 = (db1, invalidResetToken))).
Proof.
  split.
  - intros now salt token b db db' res Hr H200 Hone.
    pose proof (post_reset_password_cases now salt token b db) as Hc.
    rewrite Hr in Hc. destruct Hc as [(_ & Hne & _)|(d & _ & Hf & _ & -> & _)].
    { congruence. }
    apply findOne_Some in Hf as [Hd Hq].
    apply byResetToken_true in Hq as [Htok _].
    destruct d as [id u]. cbn [fst snd] in *.
    exists id, u, (apply_update (resetUpdate salt (ResetBody.password b)) u).
    split; [exact Hd|]. split; [exact Htok|]. split; [reflexivity|].
    split; [apply lookup_exec_eq; exact Hd|].
    split; [reflexivity|]. split; [reflexivity|]. split; [reflexivity|].
    intros now2 salt2 b2. apply post_reset_password_refused.
    intros k v Hk Hv. unfold exec in Hk. cbn [fst snd] in Hk.
    rewrite lookup_updateOne in Hk. destruct (decide (id = k)) as [<-|Hne].
    + rewrite Hd in Hk. injection Hk as <-. discriminate Hv.
    + apply Hne. symmetry. exact (Hone _ _ _ _ Hk Hd Hv Htok).
  - intros now rand email db db1 res id u Hr He Hf.
    unfold post_forgot_password in Hr. rewrite He in Hr. cbn [negb] in Hr.
    unfold serve in Hr. cbn [query continue] in Hr. rewrite Hf in Hr.
    unfold forgot_found, generatePasswordResetToken, resetTokenPaths in Hr.
    cbn [fst snd passwordResetToken passwordResetExpires
         with_passwordResetExpires with_passwordResetToken] in Hr.
    unfold exec_opt, exec in Hr. cbn [fst snd] in Hr.
    injection Hr as <- <-.
    apply findOne_Some in Hf as [Hd _]. cbn [fst snd] in Hd.
    set (upd := [Set_passwordResetToken (sha256 rand);
                 Set_passwordResetExpires (now + 10 * 60 * 1000)]).
    assert (Hu1 : updateOne id upd db !! id = Some (apply_update upd u))
      by (apply (lookup_exec_eq id upd db u Hd)).
    split.
    { exists (apply_update upd u). split; [exact Hu1|]. split; reflexivity. }
    intros stale Hstale Hothers now2 salt2 b2.
    apply post_reset_password_refused.
    intros k v Hk Hv. rewrite lookup_updateOne in Hk.
    destruct (decide (id = k)) as [<-|Hne].
    + rewrite Hd in Hk. injection Hk as <-. cbn in Hv. congruence.
    + apply Hne. symmetry. exact (Hothers _ _ Hk Hv).
Qed.

(** A store that holds one document. *)
Lemma sole_document (db : gmap N User) id u :
  map_to_list db = [(id, u)] ->
  forall k v, db !! k = Some v -> k = id /\ v = u.
Proof.
  intros Hl k v Hk. apply elem_of_map_to_list in Hk. rewrite Hl in Hk.
  apply list_elem_of_In in Hk. destruct Hk as [Heq|[]].
  injection Heq as <- <-. split; reflexivity.
Qed.

Lemma C7_reset_token_single_use_witness :
  let forgot t rand (db : gmap N User) :=
    (@post_forgot_password Sample.externals false t rand "asha@example.in" db).1 in
  let dbA := forgot 2000 "t1" Sample.store in
  let dbB := forgot 3000 "t2" dbA in
  let fresh := {| ResetBody.password := "n3wpassw0rd";
                  ResetBody.confirmPassword := "n3wpassw0rd" |} in
  let reset t token (db : gmap N User) :=
    @post_reset_password Sample.externals t "salt2" token fresh db in
  statusCode (reset 4000 "t2" dbB).2 = 200 /\
  reset 5000 "t2" (reset 4000 "t2" dbB).1
  = ((reset 4000 "t2" dbB).1, invalidResetToken) /\
  reset 3500 "t1" dbB = (dbB, invalidResetToken).
Proof.
  intros forgot dbA dbB fresh reset.
  split; [vm_compute; reflexivity|]. split.
  - destruct (proj1 (@C7_reset_token_single_use Sample.externals)
                4000 "salt2" "t2" fresh dbB (reset 4000 "t2" dbB).1
                (reset 4000 "t2" dbB).2)
      as (id & u & u' & _ & _ & _ & _ & _ & _ & _ & Hagain).
    + apply surjective_pairing.
    + vm_compute. reflexivity.
    + intros k1 k2 u1 u2 H1 H2 _ _.
      assert (Hl : exists u, map_to_list dbB = [(7%N, u)])
        by (eexists; vm_compute; reflexivity).
      destruct Hl as [u0 Hl].
      destruct (sole_document dbB 7 u0 Hl _ _ H1) as [-> _].
      destruct (sole_document dbB 7 u0 Hl _ _ H2) as [-> _]. reflexivity.
    + apply (Hagain 5000 "salt2" fresh). reflexivity.
  - edestruct (proj2 (@C7_reset_token_single_use Sample.externals)
                 3000 "t2" "asha@example.in" dbA dbB
                 (@post_forgot_password Sample.externals false 3000 "t2"
                    "asha@example.in" dbA).2 7%N) as [_ Hstale].
    + apply surjective_pairing.
    + reflexivity.
    + vm_compute. reflexivity.
    + apply (Hstale "t1"); [discriminate| |reflexivity].
      intros k v Hk _.
      assert (HA : exists u, map_to_list dbA = [(7%N, u)])
        by (eexists; vm_compute; reflexivity).
      destruct HA as [uA HA].
      apply (sole_document dbA 7 uA HA _ _ Hk).
Defined.

(* ===================================================================== *)
(** ** Which operations change the counter                               *)
(* ===================================================================== *)

Section CounterFacts.
Context `{Externals}.
Variable env : Env.
Implicit Types (db : gmap N User) (d : Doc) (u : User).

Lemma incLoginAttempts_count now d :
  count (loginAttempts (apply_update (incLoginAttempts now d).2 d.2))
  = if lockExpired now d.2 then 1 else count (loginAttempts d.2) + 1.
Proof.
  unfold incLoginAttempts. destruct (lockExpired now d.2); [reflexivity|].
  destruct (_ && _)%bool; reflexivity.
Qed.

Lemma resetLoginAttempts_count info now d :
  (resetLoginAttempts info now d).1 = d.1 /\
  count (loginAttempts (apply_update (resetLoginAttempts info now d).2 d.2)) = 0.
Proof.
  unfold resetLoginAttempts. destruct (LoginInfo.location info); split; reflexivity.
Qed.

(** A registration leaves the documents that exist as they are. *)
Lemma post_register_keeps limited now newId rand salt rb db id u :
  db !! id = Some u ->
  (post_register env limited now newId rand salt rb db).1 !! id = Some u.
Proof.
  intros Hu. unfold post_register, register_handler.
  destruct limited; [exact Hu|].
  destruct (registerValidation rb) as [errors b'].
  destruct errors; [|exact Hu].
  destruct (findOne _ db); [exact Hu|].
  unfold generateEmailVerificationToken, save_new.
  destruct (negb (validate _)); [exact Hu|].
  destruct (duplicateKey _ db) eqn:Hdup; [exact Hu|].
  apply duplicateKey_None in Hdup. cbn [fst snd] in *.
  unfold insertOne. cbn [fst snd].
  rewrite lookup_insert_ne; [exact Hu|]. intros ->. congruence.
Qed.

(** So does a request for a reset token, up to the two token paths. *)
Lemma post_forgot_password_keeps limited now rand email db id u :
  db !! id = Some u ->
  exists u', (post_forgot_password limited now rand email db).1 !! id = Some u' /\
             loginAttempts u' = loginAttempts u.
Proof.
  intros Hu. unfold post_forgot_password.
  destruct limited; [exists u; auto|].
  destruct (negb (isEmail email)); [exists u; auto|].
  unfold serve. cbn [query continue].
  destruct (findOne _ db) as [d|]; [|exists u; auto].
  unfold forgot_found, generatePasswordResetToken, resetTokenPaths.
  cbn [fst snd passwordResetToken passwordResetExpires
       with_passwordResetExpires with_passwordResetToken].
  unfold exec_opt, exec. cbn [fst snd]. rewrite lookup_updateOne.
  destruct (decide (d.1 = id)); [|exists u; auto].
  rewrite Hu. eexists. split; [reflexivity|reflexivity].
Qed.

End CounterFacts.

(** C5, as the claim states it, fails: after three refused passwords
    Asha's counter is at 3; she asks for a reset token and consumes it;
    the password reset, which is neither a login nor the roll-over of an
    expired lock, puts the counter back to 0. *)
Lemma C5_password_reset_clears_counter :
  let wrong t := (t, Sample.client, Sample.credentials "wrong" false) in
  let db3 := (@logins Sample.externals Sample.env
                [wrong 2000; wrong 3000; wrong 4000] Sample.store).1 in
  let dbF := (@post_forgot_password Sample.externals false 5000 "t1"
                "asha@example.in" db3).1 in
  let reset :=
    @post_reset_password Sample.externals 6000 "salt2" "t1"
      {| ResetBody.password := "n3wpassw0rd";
         ResetBody.confirmPassword := "n3wpassw0rd" |} dbF in
  lockout 7 dbF = Some (3, None) /\
  statusCode reset.2 = 200 /\
  lockout 7 reset.1 = Some (0, None).
Proof.
  vm_compute. repeat split; reflexivity.
Qed.

(** C5, amended.  The counter of an account changes in three ways only: a
    login request for the account whose password is refused adds 1 to it,
    or sets it to 1 when the stored lock has expired; a login that
    succeeds puts it to 0; a password reset that succeeds with the token
    stored for the account puts it to 0.  Every other operation, and each
    of these operations on another account, leaves it as it was. *)
Theorem C5_counter_changes `{Externals} (env : Env) (now : Z) (op : Operation)
    (db db' : gmap N User) (res : Response) (id : N) (u : User) :
  handle env now op db = (db', res) ->
  db !! id = Some u ->
  exists u', db' !! id = Some u' /\ counterChange now op db res id u u'.
Proof.
  unfold counterChange. intros Hh Hu. destruct op as [limited newId rand salt b|limited c b|a|r|a
                                |limited rand email|salt token b]; cbn [handle] in Hh.
  - (* Register *)
    pose proof (post_register_keeps env limited now newId rand salt b db id u Hu) as Hk.
    rewrite Hh in Hk. exists u. split; [exact Hk|]. left. reflexivity.
  - (* Login *)
    pose proof (post_login_cases env limited now c b db) as Hc. rewrite Hh in Hc.
    destruct Hc as [[-> _]|[(d & Hf & Hp & -> & H401)|(d & Hf & _ & Hp & [info ->] & ->)]].
    + exists u. split; [exact Hu|]. left. reflexivity.
    + pose proof (findByEmailOrPhone_Some _ _ _ Hf) as Hd.
      pose proof (incLoginAttempts_target now d) as Ht.
      pose proof (incLoginAttempts_count now d) as Hcnt.
      destruct (incLoginAttempts now d) as [k upd]. cbn [fst snd] in *. subst k.
      destruct (decide (d.1 = id)) as [<-|Hne].
      * rewrite Hu in Hd. injection Hd as ->.
        exists (apply_update upd d.2). split; [apply lookup_exec_eq; exact Hu|].
        right. left. exists limited, c, b. split; [reflexivity|].
        split; [exact H401|]. split; [destruct d; exact Hf|].
        split; [exact Hp|exact Hcnt].
      * exists u. split; [rewrite lookup_exec_ne; assumption|]. left. reflexivity.
    + pose proof (findByEmailOrPhone_Some _ _ _ Hf) as Hd.
      destruct (resetLoginAttempts_count info now d) as [Ht Hcnt].
      destruct (resetLoginAttempts info now d) as [k upd]. cbn [fst snd] in *. subst k.
      destruct (decide (d.1 = id)) as [<-|Hne].
      * rewrite Hu in Hd. injection Hd as ->.
        exists (apply_update upd d.2). split; [apply lookup_exec_eq; exact Hu|].
        right. right. left. exists limited, c, b. split; [reflexivity|].
        split; [reflexivity|]. split; [destruct d; exact Hf|].
        split; [exact Hp|exact Hcnt].
      * exists u. split; [rewrite lookup_exec_ne; assumption|]. left. reflexivity.
  - (* Me *)
    exists u. split; [|left; reflexivity].
    unfold get_me in Hh. destruct a; [|destruct (findById id0 db)];
      injection Hh as <- _; exact Hu.
  - (* Refresh *)
    exists u. split; [|left; reflexivity].
    unfold post_refresh in Hh.
    repeat match type of Hh with
           | context [match ?x with _ => _ end] => destruct x
           | context [if ?x then _ else _] => destruct x
           end; injection Hh as <- _; exact Hu.
  - (* Logout *)
    exists u. split; [|left; reflexivity].
    unfold post_logout in Hh. destruct a; injection Hh as <- _; exact Hu.
  - (* ForgotPassword *)
    destruct (post_forgot_password_keeps limited now rand email db id u Hu)
      as (u' & Hu' & Hla).
    rewrite Hh in Hu'. exists u'. split; [exact Hu'|]. left. rewrite Hla. reflexivity.
  - (* ResetPassword *)
    pose proof (post_reset_password_cases now salt token b db) as Hc.
    rewrite Hh in Hc. destruct Hc as [(-> & _)|(d & _ & Hf & _ & -> & H200)].
    + exists u. split; [exact Hu|]. left. reflexivity.
    + apply findOne_Some in Hf as [Hd Hq].
      apply byResetToken_true in Hq as [Htok _].
      destruct (decide (d.1 = id)) as [<-|Hne].
      * rewrite Hu in Hd. injection Hd as ->.
        eexists. split; [apply lookup_exec_eq; exact Hu|].
        right. right. right. exists salt, token, b.
        split; [reflexivity|]. split; [exact H200|]. split; [exact Htok|reflexivity].
      * exists u. split; [rewrite lookup_exec_ne; assumption|]. left. reflexivity.
Qed.

Lemma C5_counter_changes_witness :
  let wrong t := (t, Sample.client, Sample.credentials "wrong" false) in
  let db3 := (@logins Sample.externals Sample.env
                [wrong 2000; wrong 3000; wrong 4000] Sample.store).1 in
  let dbF := (@post_forgot_password Sample.externals false 5000 "t1"
                "asha@example.in" db3).1 in
  let op := ResetPassword "salt2" "t1"
              {| ResetBody.password := "n3wpassw0rd";
                 ResetBody.confirmPassword := "n3wpassw0rd" |} in
  let served := @handle Sample.externals Sample.env 6000 op dbF in
  exists u u',
    dbF !! 7%N = Some u /\ count (loginAttempts u) = 3 /\
    served.1 !! 7%N = Some u' /\
    @counterChange Sample.externals 6000 op dbF served.2 7 u u'.
Proof.
  intros wrong db3 dbF op served.
  assert (Hu : exists u, dbF !! 7%N = Some u /\ count (loginAttempts u) = 3).
  { eexists. split; vm_compute; reflexivity. }
  destruct Hu as (u & Hu & Hc).
  destruct (@C5_counter_changes Sample.externals Sample.env 6000 op dbF
              served.1 served.2 7 u) as (u' & Hu' & Hchange).
  - apply surjective_pairing.
  - exact Hu.
  - exists u, u'. auto.
Defined.

(* ===================================================================== *)
(** ** Two requests in flight                                            *)
(* ===================================================================== *)

Section Overlap.
Context `{Externals}.
Variable env : Env.
Implicit Types (db : gmap N User) (h : Handler) (u : User).

(** Requests that do not overlap are the handlers served in turn. *)
Lemma interleave_in_turn h1 h2 db :
  interleave h1 h2 [First; First; Second; Second] Started Started db =
  let '(db1, r1) := serve h1 db in
  let '(db2, r2) := serve h2 db1 in
  (Finished r1, Finished r2, db2).
Proof.
  unfold serve. cbn [interleave advance].
  destruct (continue h1 (query h1 db)) as [w1 r1]. cbn [advance].
  destruct (continue h2 (query h2 (exec_opt w1 db))) as [w2 r2]. reflexivity.
Qed.

(** The read of a login request whose password will be refused. *)
Lemma login_reads now c b db id u :
  identifies (LoginBody.identifier b) id db ->
  db !! id = Some u ->
  lockUntil (loginAttempts u) = None ->
  status u <> suspended ->
  comparePassword (LoginBody.password b) u = false ->
  advance (login_request env now c b) Started db
  = (HasRead (Some (incLoginAttempts now (id, u)))
             (invalidCredentials
                "Double-check your password or use the forgot password option"),
     db).
Proof.
  intros Hi Hu Hl Hs Hp. cbn [advance login_request query continue].
  destruct (identifies_find _ _ _ Hi) as (u0 & Hu0 & ->).
  rewrite Hu in Hu0. injection Hu0 as <-.
  unfold login_found. cbn [snd]. unfold isLocked. rewrite Hl.
  destruct (Status_eqb (status u) suspended) eqn:Hsb.
  { destruct (status u); try discriminate. congruence. }
  rewrite Hp. reflexivity.
Qed.

(** A write of [incLoginAttempts] taken from a snapshot without a stored
    lock adds 1 to whatever counter the store holds by then, and leaves
    the paths the lookup and the password check read. *)
Lemma inc_write now id u0 :
  lockUntil (loginAttempts u0) = None ->
  (incLoginAttempts now (id, u0)).1 = id /\
  forall u,
    let u' := apply_update (incLoginAttempts now (id, u0)).2 u in
    count (loginAttempts u') = count (loginAttempts u) + 1 /\
    password u' = password u /\ status u' = status u /\
    (count (loginAttempts u0) + 1 < maxAttempts ->
     lockUntil (loginAttempts u') = lockUntil (loginAttempts u)).
Proof.
  intros Hl. unfold incLoginAttempts, lockExpired. cbn [snd fst]. rewrite Hl.
  destruct (Z.leb_spec maxAttempts (count (loginAttempts u0) + 1)); cbn [andb];
    [destruct (negb (isLocked now u0))|]; (split; [reflexivity|]);
    intros u; cbn; repeat split; intros; try reflexivity; lia.
Qed.

End Overlap.

Section OverlapLogins.
Context `{Externals}.
Variable env : Env.

Lemma advance_write (h : Handler) w res (db : gmap N User) :
  advance h (HasRead w res) db = (Finished res, exec_opt w db).
Proof. reflexivity. Qed.

(** Two refused logins of one account, both reading a counter below
    [maxAttempts - 1] and no stored lock: in each of the six schedules
    both are answered 401 and the counter has grown by 2. *)
Lemma overlapping_failures_counted now1 now2 c1 c2 b1 b2
    (db : gmap N User) id u schedule :
  In schedule schedules ->
  identifies (LoginBody.identifier b1) id db ->
  identifies (LoginBody.identifier b2) id db ->
  db !! id = Some u ->
  lockUntil (loginAttempts u) = None ->
  count (loginAttempts u) + 1 < maxAttempts ->
  status u <> suspended ->
  comparePassword (LoginBody.password b1) u = false ->
  comparePassword (LoginBody.password b2) u = false ->
  let refused := invalidCredentials
    "Double-check your password or use the forgot password option" in
  exists db' u',
    interleave (login_request env now1 c1 b1) (login_request env now2 c2 b2)
               schedule Started Started db
    = (Finished refused, Finished refused, db') /\
    db' !! id = Some u' /\
    count (loginAttempts u') = count (loginAttempts u) + 2.
Proof.
  intros Hin Hi1 Hi2 Hu Hl Hc Hs Hp1 Hp2 refused.
  assert (HW : forall now, incLoginAttempts now (id, u) = (id, [Inc_count 1])).
  { intros now. apply (incLoginAttempts_below now (id, u)); assumption. }
  (* both read the store as it is *)
  pose proof (login_reads env now1 c1 b1 db id u Hi1 Hu Hl Hs Hp1) as R1.
  pose proof (login_reads env now2 c2 b2 db id u Hi2 Hu Hl Hs Hp2) as R2.
  rewrite HW in R1, R2. fold refused in R1, R2.
  (* one reads after the other has written *)
  pose proof (lookup_exec_eq id [Inc_count 1] db u Hu) as Hu1.
  pose proof (login_reads env now1 c1 b1 _ id _
                (identifies_exec _ _ (id, [Inc_count 1]) _ Hi1) Hu1 Hl Hs Hp1) as R1'.
  pose proof (login_reads env now2 c2 b2 _ id _
                (identifies_exec _ _ (id, [Inc_count 1]) _ Hi2) Hu1 Hl Hs Hp2) as R2'.
  fold refused in R1', R2'.
  destruct (inc_write now1 id (apply_update [Inc_count 1] u) Hl) as [T1 C1].
  destruct (inc_write now2 id (apply_update [Inc_count 1] u) Hl) as [T2 C2].
  destruct (incLoginAttempts now1 (id, apply_update [Inc_count 1] u)) as [k1 upd1].
  destruct (incLoginAttempts now2 (id, apply_update [Inc_count 1] u)) as [k2 upd2].
  cbn [fst snd] in T1, T2, C1, C2. subst k1 k2.
  destruct (C1 (apply_update [Inc_count 1] u)) as [C1' _].
  destruct (C2 (apply_update [Inc_count 1] u)) as [C2' _].
  assert (Hplain :
    exec (id, [Inc_count 1]) (exec (id, [Inc_count 1]) db) !! id
    = Some (apply_update [Inc_count 1] (apply_update [Inc_count 1] u))).
  { apply lookup_exec_eq. exact Hu1. }
  unfold schedules in Hin. cbn [In] in Hin.
  destruct Hin as [<-|[<-|[<-|[<-|[<-|[<-|[]]]]]]]; cbn [interleave];
    repeat (first [rewrite R1 | rewrite R2 | rewrite R1' | rewrite R2'
                  | rewrite advance_write];
            cbv beta iota zeta delta [exec_opt]);
    eexists; eexists; (split; [reflexivity|]);
    first [ split; [exact Hplain|]; cbn; lia
          | split; [apply lookup_exec_eq; exact Hu1|];
            first [rewrite C1' | rewrite C2']; cbn; lia ].
Qed.

End OverlapLogins.

(** C8, as the claim states it, fails.  Each handler reads the document
    and later sends a write derived from what it read; a second request
    may read in between.  Two consumptions of one reset token that both
    read before either writes are both answered 200.  Two refused logins
    that both read an expired lock both restart the counter at 1, where
    served in turn they leave it at 2. *)
Lemma C8_overlap_breaks_atomicity :
  let dbF := (@post_forgot_password Sample.externals false 2000 "t1"
                "asha@example.in" Sample.store).1 in
  let consume t salt pw :=
    @reset_request Sample.externals t salt "t1"
      {| ResetBody.password := pw; ResetBody.confirmPassword := pw |} in
  let expired := Sample.locked in
  let fail t :=
    @login_request Sample.externals Sample.env t Sample.client
      (Sample.credentials "wrong" false) in
  (exists r1 r2 db',
     interleave (consume 3000 "saltA" "n3wpassw0rd") (consume 3001 "saltB" "0therpassw0rd")
                [First; Second; First; Second] Started Started dbF
     = (Finished r1, Finished r2, db') /\
     statusCode r1 = 200 /\ statusCode r2 = 200) /\
  (exists r1 r2 db',
     interleave (fail 7300000) (fail 7300001)
                [First; Second; First; Second] Started Started expired
     = (Finished r1, Finished r2, db') /\
     statusCode r1 = 401 /\ statusCode r2 = 401 /\
     lockout 7 db' = Some (1, None)) /\
  (exists r1 r2 db',
     interleave (fail 7300000) (fail 7300001)
                [First; First; Second; Second] Started Started expired
     = (Finished r1, Finished r2, db') /\
     lockout 7 db' = Some (2, None)).
Proof.
  split; [|split].
  - do 3 eexists. split; [vm_compute; reflexivity|]. split; reflexivity.
  - do 3 eexists. split; [vm_compute; reflexivity|].
    split; [reflexivity|]. split; [reflexivity|]. vm_compute. reflexivity.
  - do 3 eexists. split; [vm_compute; reflexivity|]. vm_compute. reflexivity.
Qed.

(** C8, amended.  The login route and the reset route each read the
    document and later send a separate write; neither is one conditional
    update.  Two requests that do not overlap behave as the two handlers
    served one after the other.  When two refused logins of one account
    overlap and both read a counter below [maxAttempts - 1] with no stored
    lock, the increment being a [$inc] in the store, the counter grows by
    2 in every interleaving. *)
Theorem C8_reads_and_writes_are_separate `{Externals} (env : Env) :
  (forall h1 h2 db,
     interleave h1 h2 [First; First; Second; Second] Started Started db =
     let '(db1, r1) := serve h1 db in
     let '(db2, r2) := serve h2 db1 in
     (Finished r1, Finished r2, db2)) /\
  (forall now1 now2 c1 c2 b1 b2 db id u schedule,
     In schedule schedules ->
     identifies (LoginBody.identifier b1) id db ->
     identifies (LoginBody.identifier b2) id db ->
     db !! id = Some u ->
     lockUntil (loginAttempts u) = None ->
     count (loginAttempts u) + 1 < maxAttempts ->
     status u <> suspended ->
     comparePassword (LoginBody.password b1) u = false ->
     comparePassword (LoginBody.password b2) u = false ->
     let refused := invalidCredentials
       "Double-check your password or use the forgot password option" in
     exists db' u',
       interleave (login_request env now1 c1 b1) (login_request env now2 c2 b2)
                  schedule Started Started db
       = (Finished refused, Finished refused, db') /\
       db' !! id = Some u' /\
       count (loginAttempts u') = count (loginAttempts u) + 2).
Proof.
  split.
  - apply interleave_in_turn.
  - apply overlapping_failures_counted.
Qed.

Lemma C8_reads_and_writes_are_separate_witness :
  let fail t :=
    @login_request Sample.externals Sample.env t Sample.client
      (Sample.credentials "wrong" false) in
  exists db' u',
    interleave (fail 2000) (fail 2001) [First; Second; Second; First]
               Started Started Sample.store
    = (Finished (invalidCredentials
                   "Double-check your password or use the forgot password option"),
       Finished (invalidCredentials
                   "Double-check your password or use the forgot password option"),
       db') /\
    db' !! 7%N = Some u' /\
    count (loginAttempts u') = 0 + 2.
Proof.
  intros fail.
  assert (Hu : exists u, Sample.store !! 7%N = Some u /\
                         lockUntil (loginAttempts u) = None /\
                         count (loginAttempts u) = 0 /\
                         status u = pending_verification /\
                         @comparePassword Sample.externals "wrong" u = false).
  { eexists. repeat split; vm_compute; reflexivity. }
  destruct Hu as (u & Hu & Hl & Hc & Hs & Hp).
  rewrite <- Hc.
  eapply (proj2 (@C8_reads_and_writes_are_separate Sample.externals Sample.env)
            2000 2001 Sample.client Sample.client
            (Sample.credentials "wrong" false) (Sample.credentials "wrong" false)
            Sample.store 7%N u [First; Second; Second; First]).
  - unfold schedules. cbn [In]. tauto.
  - apply identifiesb_sound. vm_compute. reflexivity.
  - apply identifiesb_sound. vm_compute. reflexivity.
  - exact Hu.
  - exact Hl.
  - rewrite Hc. unfold maxAttempts. lia.
  - rewrite Hs. discriminate.
  - exact Hp.
  - exact Hp.
Defined.

(* ===================================================================== *)
(** ** Facts about the string functions                                  *)
(* ===================================================================== *)

Section StringFacts.
Import Str.

(** Case analysis on a character, bit by bit. *)
Ltac each_char c := destruct c as [[] [] [] [] [] [] [] []].

Lemma all_impl (p q : ascii -> bool) s :
  (forall c, p c = true -> q c = true) -> all p s = true -> all q s = true.
Proof.
  intros Hpq. induction s as [|c r IH]; simpl; [reflexivity|].
  intros Hs. apply andb_prop in Hs as [Hc Hr].
  rewrite (Hpq c Hc), (IH Hr). reflexivity.
Qed.

Lemma all_append p s t : all p (String.append s t) = (all p s && all p t)%bool.
Proof.
  induction s as [|c r IH]; simpl; [reflexivity|].
  rewrite IH. apply andb_assoc.
Qed.

Lemma all_rev_onto p s acc :
  all p (rev_onto s acc) = (all p s && all p acc)%bool.
Proof.
  revert acc. induction s as [|c r IH]; intros acc; simpl; [reflexivity|].
  rewrite IH. simpl. destruct (p c), (all p r); reflexivity.
Qed.

Lemma all_rev p s : all p (rev s) = all p s.
Proof. unfold rev. rewrite all_rev_onto. simpl. apply andb_true_r. Qed.

Lemma append_empty_r s : String.append s "" = s.
Proof.
  induction s as [|c r IH]; [reflexivity|].
  change (String c (String.append r "") = String c r). f_equal. exact IH.
Qed.

Lemma rev_onto_rev_onto s a b :
  rev_onto (rev_onto s a) b = rev_onto a (String.append s b).
Proof.
  revert a b. induction s as [|c r IH]; intros a b; simpl; [reflexivity|].
  rewrite IH. reflexivity.
Qed.

Lemma rev_involutive s : rev (rev s) = s.
Proof. unfold rev. rewrite rev_onto_rev_onto. simpl. apply append_empty_r. Qed.

Lemma dropWhile_none p s :
  all (fun c => negb (p c)) s = true -> dropWhile p s = s.
Proof.
  destruct s as [|c r]; simpl; [reflexivity|].
  intros Hs. apply andb_prop in Hs as [Hc _].
  destruct (p c); [discriminate|reflexivity].
Qed.

(** A string without white space is left alone by [trim]. *)
Lemma trim_no_space s :
  all (fun c => negb (isSpace c)) s = true -> trim s = s.
Proof.
  intros Hs. unfold trim. rewrite (dropWhile_none isSpace s Hs).
  rewrite dropWhile_none by (rewrite all_rev; exact Hs).
  apply rev_involutive.
Qed.

Lemma filter_all keep s : all keep s = true -> filter keep s = s.
Proof.
  induction s as [|c r IH]; simpl; [reflexivity|].
  intros Hs. apply andb_prop in Hs as [Hc Hr]. rewrite Hc, (IH Hr). reflexivity.
Qed.

Lemma all_filter keep s : all keep (filter keep s) = true.
Proof.
  induction s as [|c r IH]; simpl; [reflexivity|].
  destruct (keep c) eqn:Hc; simpl; [rewrite Hc|]; exact IH.
Qed.

Lemma map_rev_onto f s acc :
  map f (rev_onto s acc) = rev_onto (map f s) (map f acc).
Proof.
  revert acc. induction s as [|c r IH]; intros acc; simpl; [reflexivity|].
  rewrite IH. reflexivity.
Qed.

Lemma map_dropWhile f p s :
  (forall c, p (f c) = p c) -> map f (dropWhile p s) = dropWhile p (map f s).
Proof.
  intros Hpf. induction s as [|c r IH]; simpl; [reflexivity|].
  rewrite Hpf. destruct (p c); [exact IH|reflexivity].
Qed.

Lemma map_map_idem f s : (forall c, f (f c) = f c) -> map f (map f s) = map f s.
Proof.
  intros Hf. induction s as [|c r IH]; simpl; [reflexivity|].
  rewrite Hf, IH. reflexivity.
Qed.

Lemma isSpace_lowerChar c : isSpace (lowerChar c) = isSpace c.
Proof. each_char c; reflexivity. Qed.

Lemma lowerChar_idem c : lowerChar (lowerChar c) = lowerChar c.
Proof. each_char c; reflexivity. Qed.

Lemma toLowerCase_idem s : toLowerCase (toLowerCase s) = toLowerCase s.
Proof. apply map_map_idem, lowerChar_idem. Qed.

(** Lower-casing and trimming commute. *)
Lemma toLowerCase_trim s : toLowerCase (trim s) = trim (toLowerCase s).
Proof.
  unfold toLowerCase, trim, rev.
  rewrite map_rev_onto. simpl.
  rewrite (map_dropWhile lowerChar isSpace) by apply isSpace_lowerChar.
  rewrite map_rev_onto. simpl.
  rewrite (map_dropWhile lowerChar isSpace) by apply isSpace_lowerChar.
  reflexivity.
Qed.

Lemma splitFirst_all c s a b (q : ascii -> bool) :
  splitFirst c s = Some (a, b) ->
  all q s = (all q a && (q c && all q b))%bool.
Proof.
  revert a. induction s as [|d r IH]; intros a; simpl; [discriminate|].
  destruct (Ascii.eqb_spec c d) as [->|Hne].
  - intros [= <- <-]. reflexivity.
  - destruct (splitFirst c r) as [[a' b']|]; [|discriminate].
    intros [= <- <-]. simpl. rewrite (IH a' eq_refl). apply andb_assoc.
Qed.

Lemma splitLast_all c s a b (q : ascii -> bool) :
  splitLast c s = Some (a, b) ->
  all q s = (all q a && (q c && all q b))%bool.
Proof.
  unfold splitLast.
  destruct (splitFirst c (rev s)) as [[a' b']|] eqn:Hs; [|discriminate].
  intros [= <- <-]. rewrite <- (all_rev q s), (splitFirst_all _ _ _ _ q Hs).
  rewrite !all_rev. destruct (all q a'), (q c), (all q b'); reflexivity.
Qed.

Lemma splitFirst_none c s :
  all (fun d => negb (Ascii.eqb c d)) s = true -> splitFirst c s = None.
Proof.
  induction s as [|d r IH]; simpl; [reflexivity|].
  intros Hs. apply andb_prop in Hs as [Hd Hr].
  destruct (Ascii.eqb c d); [discriminate|]. rewrite (IH Hr). reflexivity.
Qed.

End StringFacts.

(* ===================================================================== *)
(** ** POST /register, in full                                           *)
(* ===================================================================== *)

Section RegisterCases.
Context `{Externals}.
Variable env : Env.
Implicit Types (db : gmap N User) (u : User) (rb : RegisterBody.t).

Lemma normalizePhone_email u : email (normalizePhone u) = email u.
Proof.
  unfold normalizePhone. destruct (Str.startsWith _ _); [reflexivity|].
  destruct (Z.eqb _ _); reflexivity.
Qed.

(** The phone [new User] receives is already free of spaces and hyphens
    and starts with [+91]; the hook leaves it as it is. *)
Lemma registered_phone now rand salt rb :
  let p := RegisterBody.phone (registerValidation rb).2 in
  phone (registeredDoc now rand salt rb)
  = if Str.startsWith "+91" p then p else String.append "+91" p.
Proof.
  intros p. unfold registeredDoc, normalizePhone, hashPassword,
    generateEmailVerificationToken.
  cbn [snd phone with_password with_emailVerification new_User].
  fold p.
  set (q := if Str.startsWith "+91" p then p else String.append "+91" p).
  assert (Hp : Str.all (fun c => negb (Str.isSpace c || Str.isOneOf "-" c)) p = true).
  { subst p. unfold registerValidation. cbn [snd RegisterBody.phone].
    unfold Str.removeSpacesAndHyphens.
    pose proof (all_filter (fun c => negb (Str.isSpace c || Str.isOneOf "-" c))
                  (RegisterBody.phone rb)) as Hf.
    revert Hf. generalize (Str.filter (fun c => negb (Str.isSpace c || Str.isOneOf "-" c))
                             (RegisterBody.phone rb)).
    intros s Hs. unfold Str.removeLeadingPlus91.
    repeat match goal with
           | |- context [match ?x with _ => _ end] =>
               match type of x with
               | string => destruct x as [|? ?]
               | ascii => destruct x as [? ? ? ? ? ? ? ?]
               | bool => destruct x
               end; try exact Hs
           end. }
  assert (Hq : Str.all (fun c => negb (Str.isSpace c || Str.isOneOf "-" c)) q = true).
  { subst q. destruct (Str.startsWith "+91" p); [exact Hp|].
    simpl. exact Hp. }
  assert (Hs : Str.startsWith "+91" q = true).
  { subst q. destruct (Str.startsWith "+91" p) eqn:Hsp; [exact Hsp|].
    unfold Str.startsWith. simpl. destruct p; reflexivity. }
  unfold Str.removeSpacesAndHyphens. rewrite (filter_all _ q Hq), Hs.
  reflexivity.
Qed.

End RegisterCases.

Section RegisterOutcome.
Context `{Externals}.
Variable env : Env.
Implicit Types (db : gmap N User) (u : User) (rb : RegisterBody.t).

Lemma exists_doc_false q db :
  exists_doc q db = false -> forall k v, db !! k = Some v -> q (k, v) = false.
Proof.
  unfold exists_doc. destruct (findOne q db) eqn:Hf; [discriminate|].
  intros _. apply findOne_None. exact Hf.
Qed.

Lemma duplicateKey_free d db :
  duplicateKey d db = None ->
  db !! d.1 = None /\
  forall k v, db !! k = Some v -> email v <> email d.2 /\ phone v <> phone d.2.
Proof.
  unfold duplicateKey. destruct (db !! d.1); [discriminate|].
  destruct (exists_doc _ db) eqn:He; [discriminate|].
  destruct (exists_doc (fun e => String.eqb (phone e.2) (phone d.2)) db) eqn:Hp;
    [discriminate|].
  intros _. split; [reflexivity|]. intros k v Hk. split.
  - pose proof (exists_doc_false _ _ He k v Hk) as Hq. cbn [snd] in Hq.
    apply String.eqb_neq. exact Hq.
  - pose proof (exists_doc_false _ _ Hp k v Hk) as Hq. cbn [snd] in Hq.
    apply String.eqb_neq. exact Hq.
Qed.

(** The outcomes of POST /register: a reply other than 201, which leaves
    the store alone, or 201 and the insertion of [registeredDoc] under an
    [_id] that was free, with an e-mail and a phone no document held. *)
Lemma post_register_cases limited now newId rand salt rb db :
  let '(db', res) := post_register env limited now newId rand salt rb db in
  (db' = db /\ statusCode res <> 201) \/
  (let doc := registeredDoc now rand salt rb in
   limited = false /\
   (registerValidation rb).1 = [] /\
   findOne (fun d =>
              byEmail (Str.toLowerCase (RegisterBody.email (registerValidation rb).2)) d
              || byPhoneIn [RegisterBody.phone (registerValidation rb).2;
                            String.append "+91"
                              (RegisterBody.phone (registerValidation rb).2)] d) db
   = None /\
   db !! newId = None /\
   (forall k v, db !! k = Some v ->
                email v <> email doc /\ phone v <> phone doc) /\
   valid_email (email doc) = true /\
   valid_password (RegisterBody.password rb) = true /\
   password doc = bcrypt_hash (RegisterBody.password rb) salt /\
   db' = <[newId := doc]> db /\
   res = registered env now (newId, doc)).
Proof.
  unfold post_register, register_handler, registeredDoc.
  destruct limited.
  { left. split; [reflexivity|discriminate]. }
  assert (Hpw : RegisterBody.password (registerValidation rb).2
                = RegisterBody.password rb) by reflexivity.
  destruct (registerValidation rb) as [errors b']. cbn [fst snd] in *.
  destruct errors.
  2:{ left. split; [reflexivity|discriminate]. }
  destruct (findOne _ db) eqn:Hex.
  { left. split; [reflexivity|discriminate]. }
  unfold save_new, generateEmailVerificationToken. cbn [fst snd].
  destruct (validate _) eqn:Hval; cbn [negb].
  2:{ left. split; [reflexivity|discriminate]. }
  destruct (duplicateKey _ db) eqn:Hdup.
  { left. split; [reflexivity|discriminate]. }
  right. apply duplicateKey_free in Hdup as [Hfree Hothers]. cbn [fst snd] in *.
  split; [reflexivity|]. split; [reflexivity|]. split; [reflexivity|].
  split; [exact Hfree|]. split; [exact Hothers|].
  unfold validate in Hval.
  apply andb_prop in Hval as [Hval Hvpw].
  apply andb_prop in Hval as [Hval _].
  apply andb_prop in Hval as [_ Hvem].
  split.
  { rewrite normalizePhone_email. exact Hvem. }
  split.
  { rewrite <- Hpw. exact Hvpw. }
  split.
  { match goal with |- context [normalizePhone ?x] =>
      destruct (normalizePhone_rest x) as (_ & _ & ->) end.
    rewrite <- Hpw. reflexivity. }
  split; reflexivity.
Qed.

End RegisterOutcome.

Section EmailFacts.
Import Str.

Ltac each_char c := destruct c as [[] [] [] [] [] [] [] []].

Lemma emailLocalChar_no_space c :
  Regex.emailLocalChar c = true -> negb (isSpace c) = true.
Proof. each_char c; intros Hc; try reflexivity; discriminate Hc. Qed.

Lemma emailDomainChar_no_space c :
  Regex.emailDomainChar c = true -> negb (isSpace c) = true.
Proof. each_char c; intros Hc; try reflexivity; discriminate Hc. Qed.

Lemma isLetter_no_space c : isLetter c = true -> negb (isSpace c) = true.
Proof. each_char c; intros Hc; try reflexivity; discriminate Hc. Qed.

(** An address the pattern accepts holds no white space. *)
Lemma Regex_email_no_space s :
  Regex.email s = true -> all (fun c => negb (isSpace c)) s = true.
Proof.
  unfold Regex.email.
  destruct (splitFirst "@" s) as [[loc rest]|] eqn:Hat; [|discriminate].
  intros Hm. apply andb_prop in Hm as [Hm Hrest].
  apply andb_prop in Hm as [_ Hloc].
  destruct (splitLast "." rest) as [[dom tld]|] eqn:Hdot; [|discriminate].
  apply andb_prop in Hrest as [Hrest _].
  apply andb_prop in Hrest as [Hrest Htld].
  apply andb_prop in Hrest as [_ Hdom].
  rewrite (splitFirst_all _ _ _ _ _ Hat), (splitLast_all _ _ _ _ _ Hdot).
  rewrite (all_impl _ _ _ emailLocalChar_no_space Hloc).
  rewrite (all_impl _ _ _ emailDomainChar_no_space Hdom).
  rewrite (all_impl _ _ _ isLetter_no_space Htld).
  reflexivity.
Qed.

Lemma Regex_email_trim s : Regex.email s = true -> trim s = s.
Proof. intros Hs. apply trim_no_space, Regex_email_no_space, Hs. Qed.

(** What the setters of the schema make of an e-mail is in lower case. *)
Lemma stored_email_lower s :
  toLowerCase (trim (toLowerCase s)) = trim (toLowerCase s).
Proof. rewrite toLowerCase_trim, toLowerCase_idem. reflexivity. Qed.

End EmailFacts.

Section EmailCase.
Import Str.

Ltac each_char c := destruct c as [[] [] [] [] [] [] [] []].

Lemma at_lowerChar d : Ascii.eqb "@" (lowerChar d) = Ascii.eqb "@" d.
Proof. each_char d; reflexivity. Qed.

Lemma dot_lowerChar d : Ascii.eqb "." (lowerChar d) = Ascii.eqb "." d.
Proof. each_char d; reflexivity. Qed.

Lemma emailLocalChar_lowerChar d :
  Regex.emailLocalChar (lowerChar d) = Regex.emailLocalChar d.
Proof. each_char d; reflexivity. Qed.

Lemma emailDomainChar_lowerChar d :
  Regex.emailDomainChar (lowerChar d) = Regex.emailDomainChar d.
Proof. each_char d; reflexivity. Qed.

Lemma isLetter_lowerChar d : isLetter (lowerChar d) = isLetter d.
Proof. each_char d; reflexivity. Qed.

Lemma all_map p f s : (forall d, p (f d) = p d) -> all p (map f s) = all p s.
Proof.
  intros Hp. induction s as [|d r IH]; simpl; [reflexivity|].
  rewrite Hp, IH. reflexivity.
Qed.

Lemma len_map f s : len (map f s) = len s.
Proof.
  unfold len. f_equal. induction s as [|d r IH]; simpl; [reflexivity|].
  rewrite IH. reflexivity.
Qed.

Lemma nonEmpty_map f s : nonEmpty (map f s) = nonEmpty s.
Proof. destruct s; reflexivity. Qed.

Lemma splitFirst_map c f s :
  (forall d, Ascii.eqb c (f d) = Ascii.eqb c d) ->
  splitFirst c (map f s)
  = match splitFirst c s with
    | Some (a, b) => Some (map f a, map f b)
    | None => None
    end.
Proof.
  intros Hc. induction s as [|d r IH]; simpl; [reflexivity|].
  rewrite Hc. destruct (Ascii.eqb c d); [reflexivity|].
  rewrite IH. destruct (splitFirst c r) as [[a b]|]; reflexivity.
Qed.

Lemma splitLast_map c f s :
  (forall d, Ascii.eqb c (f d) = Ascii.eqb c d) ->
  splitLast c (map f s)
  = match splitLast c s with
    | Some (a, b) => Some (map f a, map f b)
    | None => None
    end.
Proof.
  intros Hc. unfold splitLast, rev.
  change EmptyString with (map f EmptyString) at 1.
  rewrite <- map_rev_onto, (splitFirst_map c f _ Hc).
  destruct (splitFirst c (rev_onto s "")) as [[a b]|]; [|reflexivity].
  rewrite !map_rev_onto. reflexivity.
Qed.

(** The e-mail pattern does not look at the case of letters. *)
Lemma Regex_email_toLowerCase s : Regex.email (toLowerCase s) = Regex.email s.
Proof.
  unfold Regex.email, toLowerCase.
  rewrite (splitFirst_map "@" lowerChar s at_lowerChar).
  destruct (splitFirst "@" s) as [[loc rest]|]; [|reflexivity].
  rewrite nonEmpty_map, (all_map _ _ _ emailLocalChar_lowerChar).
  rewrite (splitLast_map "." lowerChar rest dot_lowerChar).
  destruct (splitLast "." rest) as [[dom tld]|]; [|reflexivity].
  rewrite nonEmpty_map, (all_map _ _ _ emailDomainChar_lowerChar).
  rewrite (all_map _ _ _ isLetter_lowerChar), len_map. reflexivity.
Qed.

Lemma trim_nonEmpty s : nonEmpty (trim s) = true -> nonEmpty s = true.
Proof. destruct s; [discriminate|reflexivity]. Qed.

End EmailCase.

Section RoundTrips.
Context `{Externals}.
Variable env : Env.
Implicit Types (db : gmap N User) (u : User) (rb : RegisterBody.t).

Lemma registeredDoc_email now rand salt rb :
  email (registeredDoc now rand salt rb)
  = Str.trim (Str.toLowerCase
                (Str.toLowerCase (RegisterBody.email (registerValidation rb).2))).
Proof. unfold registeredDoc. rewrite normalizePhone_email. reflexivity. Qed.

Lemma registeredDoc_fresh now rand salt rb :
  let doc := registeredDoc now rand salt rb in
  status doc = pending_verification /\ role doc = passenger /\
  isEmailVerified doc = false /\ isPhoneVerified doc = false /\
  loginAttempts doc = {| count := 0; lockUntil := None; resetAt := None |} /\
  emailVerificationToken doc = Some (sha256 rand) /\
  emailVerificationExpires doc = Some (now + 24 * 60 * 60 * 1000) /\
  passwordResetToken doc = None.
Proof.
  unfold registeredDoc, normalizePhone.
  destruct (Str.startsWith "+91" _); [repeat split|].
  destruct (Z.eqb _ _); repeat split.
Qed.

(** After a registration, the e-mail as stored finds the new account. *)
Lemma registered_found_by_email limited now newId rand salt rb db db1 res :
  post_register env limited now newId rand salt rb db = (db1, res) ->
  statusCode res = 201 ->
  let doc := registeredDoc now rand salt rb in
  findByEmailOrPhone (Str.trim (email doc)) db1 = Some (newId, doc) /\
  Str.trim (email doc) = email doc /\ Str.nonEmpty (email doc) = true.
Proof.
  intros Hr H201 doc.
  pose proof (post_register_cases env limited now newId rand salt rb db) as Hc.
  rewrite Hr in Hc. destruct Hc as [[_ Hne]|Hc]; [congruence|].
  destruct Hc as (_ & _ & _ & Hfree & Hothers & Hve & _ & _ & -> & _).
  fold doc in Hothers, Hve.
  unfold valid_email in Hve. apply andb_prop in Hve as [Hne Hre].
  rewrite (Regex_email_trim _ Hre).
  split; [|split; [reflexivity|exact Hne]].
  unfold findByEmailOrPhone. rewrite Hre.
  assert (Hlow : Str.toLowerCase (email doc) = email doc).
  { subst doc. rewrite registeredDoc_email. apply stored_email_lower. }
  rewrite Hlow. apply findOne_unique.
  - apply lookup_insert_eq.
  - unfold byEmail. cbn [snd]. apply String.eqb_refl.
  - intros k v Hk Hq. destruct (decide (newId = k)) as [->|Hnk]; [reflexivity|].
    rewrite lookup_insert_ne in Hk by exact Hnk.
    destruct (Hothers k v Hk) as [Hem _].
    unfold byEmail in Hq. cbn [snd] in Hq. apply String.eqb_eq in Hq. congruence.
Qed.

(** So does the address in any letter case, with white space around it
    or not. *)
Lemma registered_found_by_address limited now newId rand salt rb db db1 res ident :
  post_register env limited now newId rand salt rb db = (db1, res) ->
  statusCode res = 201 ->
  let doc := registeredDoc now rand salt rb in
  Str.toLowerCase (Str.trim ident) = email doc ->
  findByEmailOrPhone (Str.trim ident) db1 = Some (newId, doc) /\
  Str.nonEmpty ident = true.
Proof.
  intros Hr H201 doc Hid.
  destruct (registered_found_by_email limited now newId rand salt rb db db1 res
              Hr H201) as (Hfind & Htrim & Hne).
  fold doc in Hfind, Htrim, Hne.
  pose proof (post_register_cases env limited now newId rand salt rb db) as Hc.
  rewrite Hr in Hc. destruct Hc as [[_ Hx]|Hc]; [congruence|].
  destruct Hc as (_ & _ & _ & _ & _ & Hve & _).
  fold doc in Hve. unfold valid_email in Hve. apply andb_prop in Hve as [_ Hre].
  assert (Hri : Regex.email (Str.trim ident) = true).
  { rewrite <- Regex_email_toLowerCase, Hid. exact Hre. }
  split.
  - rewrite Htrim in Hfind. unfold findByEmailOrPhone in *.
    rewrite Hre in Hfind. rewrite Hri, Hid.
    assert (Hlow : Str.toLowerCase (email doc) = email doc).
    { subst doc. rewrite registeredDoc_email. apply stored_email_lower. }
    rewrite Hlow in Hfind. exact Hfind.
  - apply trim_nonEmpty. destruct (Str.trim ident); [discriminate Hri|reflexivity].
Qed.

End RoundTrips.

(** X1.  Register, then log in.  After a registration answered 201, a
    login that gives the address the response returns, in any letter
    case and with or without white space around it, and the password
    that was registered is answered 200, at any instant, and leaves the
    counter at 0 with no lock; bcrypt is taken to accept the password a
    hash was made from. *)
Theorem X1_register_then_login `{Externals} (env : Env) (now0 : Z) (newId : N)
    (rand salt : string) (rb : RegisterBody.t) (db0 db1 : gmap N User)
    (res1 : Response) (now : Z) (c : Client) (ident : string) (remember : bool) :
  post_register env false now0 newId rand salt rb db0 = (db1, res1) ->
  statusCode res1 = 201 ->
  bcryptAccepts (RegisterBody.password rb) salt ->
  let doc := registeredDoc now0 rand salt rb in
  Str.toLowerCase (Str.trim ident) = email doc ->
  let b := {| LoginBody.identifier := ident;
              LoginBody.password := RegisterBody.password rb;
              LoginBody.rememberMe := remember |} in
  path ["data"; "user"; "email"] (body res1) = Some (JStr (email doc)) /\
  exists db2,
    post_login env false now c b db1
    = (db2, loginSucceeded env now remember (newId, doc)) /\
    statusCode (loginSucceeded env now remember (newId, doc)) = 200 /\
    lockout newId db2 = Some (0, None).
Proof.
  intros Hr H201 [Hacc Hne] doc Hid b.
  destruct (registered_found_by_address env false now0 newId rand salt rb db0 db1
              res1 ident Hr H201 Hid) as (Hfind & Hnonempty).
  fold doc in Hfind.
  pose proof (post_register_cases env false now0 newId rand salt rb db0) as Hc.
  rewrite Hr in Hc. destruct Hc as [[_ Hx]|Hc]; [congruence|].
  destruct Hc as (_ & _ & _ & _ & _ & _ & Hvpw & Hpw & Hdb1 & ->).
  fold doc in Hpw, Hdb1.
  destruct (registeredDoc_fresh now0 rand salt rb) as (Hst & _ & _ & _ & Hla & _).
  fold doc in Hst, Hla.
  split; [reflexivity|].
  assert (Hv : (loginValidation b).1 = []).
  { unfold loginValidation, check. cbn [fst LoginBody.identifier LoginBody.password b].
    rewrite Hnonempty.
    unfold valid_password in Hvpw. apply andb_prop in Hvpw as [Hvpw _].
    apply andb_prop in Hvpw as [Hvpw _]. rewrite Hvpw. reflexivity. }
  assert (Hf : findByEmailOrPhone (LoginBody.identifier (loginValidation b).2) db1
               = Some (newId, doc)) by exact Hfind.
  assert (Hnl : isLocked now (newId, doc).2 = false).
  { unfold isLocked. cbn [snd]. rewrite Hla. reflexivity. }
  assert (Hns : status (newId, doc).2 <> suspended).
  { cbn [snd]. rewrite Hst. discriminate. }
  assert (Hcp : comparePassword (LoginBody.password b) (newId, doc).2 = true).
  { unfold comparePassword. cbn [snd LoginBody.password b]. rewrite Hpw, Hne.
    exact Hacc. }
  rewrite (post_login_right env now c b db1 (newId, doc) Hv Hf Hnl Hns Hcp).
  eexists. split; [reflexivity|]. split; [reflexivity|].
  unfold lockout, resetLoginAttempts. cbn [LoginInfo.location fst].
  rewrite (lookup_exec_eq newId _ db1 doc).
  - reflexivity.
  - rewrite Hdb1. apply lookup_insert_eq.
Qed.

Lemma X1_register_then_login_witness :
  let doc := @registeredDoc Sample.externals 1000 "c0ffee" "salt" Sample.asha in
  let b := {| LoginBody.identifier := " Asha@EXAMPLE.in ";
              LoginBody.password := "tr4ckside";
              LoginBody.rememberMe := false |} in
  email doc = "asha@example.in" /\
  exists db2,
    @post_login Sample.externals Sample.env false 9000 Sample.client b Sample.store
    = (db2, loginSucceeded Sample.env 9000 false (7%N, doc)) /\
    statusCode (loginSucceeded Sample.env 9000 false (7%N, doc)) = 200 /\
    lockout 7 db2 = Some (0, None).
Proof.
  intros doc b. split; [vm_compute; reflexivity|].
  refine (proj2 (@X1_register_then_login Sample.externals Sample.env 1000 7
                   "c0ffee" "salt" Sample.asha ∅ Sample.store _ 9000
                   Sample.client " Asha@EXAMPLE.in " false _ _ _ _)).
  - apply surjective_pairing.
  - vm_compute. reflexivity.
  - split; vm_compute; reflexivity.
  - vm_compute. reflexivity.
Defined.

(** X2.  A taken phone or e-mail is refused.  After a registration
    answered 201, a further registration whose phone, once cleaned by the
    validators, is the same national number, or whose normalised e-mail is
    the address that was stored, never inserts a document: the store stays
    as it is, and a request that passes the limiter and the validators is
    answered 400 with the account-exists body. *)
Theorem X2_duplicate_registration_refused `{Externals} (env : Env)
    (now0 : Z) (newId : N) (rand salt : string) (rb : RegisterBody.t)
    (db0 db1 : gmap N User) (res1 : Response)
    (limited' : bool) (now' : Z) (newId' : N) (rand' salt' : string)
    (rb' : RegisterBody.t) :
  post_register env false now0 newId rand salt rb db0 = (db1, res1) ->
  statusCode res1 = 201 ->
  Str.removeLeadingPlus91 (Str.removeSpacesAndHyphens (RegisterBody.phone rb'))
  = Str.removeLeadingPlus91 (Str.removeSpacesAndHyphens (RegisterBody.phone rb))
  \/ Str.toLowerCase (normalizeEmail (RegisterBody.email rb'))
     = email (registeredDoc now0 rand salt rb) ->
  let second := post_register env limited' now' newId' rand' salt' rb' db1 in
  second.1 = db1 /\ statusCode second.2 <> 201 /\
  (limited' = false -> (registerValidation rb').1 = [] ->
   second.2 = accountExists).
Proof.
  intros Hr H201 Hsame second.
  pose proof (post_register_cases env false now0 newId rand salt rb db0) as Hc.
  rewrite Hr in Hc. destruct Hc as [[_ Hx]|Hc]; [congruence|].
  destruct Hc as (_ & _ & _ & _ & _ & _ & _ & _ & Hdb1 & _).
  set (doc := registeredDoc now0 rand salt rb) in *.
  assert (Hdoc : db1 !! newId = Some doc) by (rewrite Hdb1; apply lookup_insert_eq).
  pose proof (registered_phone now0 rand salt rb) as Hph. cbv zeta in Hph.
  fold doc in Hph.
  subst second. unfold post_register, register_handler.
  destruct limited'.
  { split; [reflexivity|]. split; [discriminate|]. discriminate. }
  assert (Hp' : RegisterBody.phone (registerValidation rb').2
                = Str.removeLeadingPlus91
                    (Str.removeSpacesAndHyphens (RegisterBody.phone rb')))
    by reflexivity.
  assert (He' : RegisterBody.email (registerValidation rb').2
                = normalizeEmail (RegisterBody.email rb')) by reflexivity.
  assert (Hp : RegisterBody.phone (registerValidation rb).2
               = Str.removeLeadingPlus91
                   (Str.removeSpacesAndHyphens (RegisterBody.phone rb)))
    by reflexivity.
  destruct (registerValidation rb') as [errors b']. cbn [fst snd] in *.
  destruct errors.
  2:{ split; [reflexivity|]. split; [discriminate|]. intros _ Hv. discriminate Hv. }
  destruct (findOne _ db1) as [d|] eqn:Hex.
  { split; [reflexivity|]. split; [discriminate|]. reflexivity. }
  exfalso. rewrite findOne_None in Hex. specialize (Hex newId doc Hdoc).
  apply orb_false_elim in Hex as [Hem Hpq].
  destruct Hsame as [Hsame|Hsame].
  - unfold byPhoneIn in Hpq. cbn [snd existsb] in Hpq.
    rewrite Hph, Hp, <- Hsame, <- Hp' in Hpq.
    destruct (Str.startsWith "+91" (RegisterBody.phone b'));
      rewrite String.eqb_refl in Hpq; [discriminate|].
    rewrite orb_true_r in Hpq. discriminate.
  - unfold byEmail in Hem. cbn [snd] in Hem. rewrite He', Hsame in Hem.
    rewrite String.eqb_refl in Hem. discriminate.
Qed.

Lemma X2_duplicate_registration_refused_witness :
  let again :=
    {| RegisterBody.name := "Asha R";
       RegisterBody.email := "other@example.in";
       RegisterBody.phone := "9876543210";
       RegisterBody.password := "s1gnalbox";
       RegisterBody.confirmPassword := "s1gnalbox" |} in
  let second := @post_register Sample.externals Sample.env false 5000 8
                  "beef" "pepper" again Sample.store in
  second.1 = Sample.store /\ statusCode second.2 <> 201 /\
  (false = false -> (@registerValidation Sample.externals again).1 = [] ->
   second.2 = accountExists).
Proof.
  intros again.
  eapply (@X2_duplicate_registration_refused Sample.externals Sample.env 1000 7
            "c0ffee" "salt" Sample.asha ∅ Sample.store _ false 5000 8
            "beef" "pepper" again).
  - apply surjective_pairing.
  - vm_compute. reflexivity.
  - left. vm_compute. reflexivity.
Defined.

(* ===================================================================== *)
(** ** What one operation does to the store                              *)
(* ===================================================================== *)

Section Steps.
Context `{Externals}.
Variable env : Env.
Implicit Types (db : gmap N User) (d : Doc) (u : User).

(** An operation leaves the store alone, inserts the document of a
    registration under a fresh [_id] and answers 201, or sends one of the
    four writes to a document it has loaded. *)
Lemma handle_step now op db :
  ((handle env now op db).1 = db /\ created op (handle env now op db).2 = false) \/
  (exists newId rand salt rb,
     created op (handle env now op db).2 = true /\
     (registerValidation rb).1 = [] /\
     db !! newId = None /\
     (handle env now op db).1 = <[newId := registeredDoc now rand salt rb]> db) \/
  (exists d w,
     created op (handle env now op db).2 = false /\
     db !! d.1 = Some d.2 /\ routeWrite now d w /\
     (handle env now op db).1 = exec w db).
Proof.
  destruct op as [limited newId rand salt b|limited c b|a|r|a|limited rand em
                  |salt token b]; cbn [handle created].
  - pose proof (post_register_cases env limited now newId rand salt b db) as Hc.
    destruct (post_register env limited now newId rand salt b db) as [db' res].
    cbn [fst snd]. destruct Hc as [[-> Hne]|Hc].
    { left. split; [reflexivity|]. apply Z.eqb_neq. exact Hne. }
    destruct Hc as (_ & Hv & _ & Hfree & _ & _ & _ & _ & -> & ->).
    right. left. exists newId, rand, salt, b.
    split; [reflexivity|]. split; [exact Hv|]. split; [exact Hfree|reflexivity].
  - pose proof (post_login_cases env limited now c b db) as Hc.
    destruct (post_login env limited now c b db) as [db' res]. cbn [fst snd].
    destruct Hc as [[-> _]|[(d & Hf & _ & -> & _)|(d & Hf & _ & _ & [info ->] & _)]].
    + left. split; reflexivity.
    + right. right. exists d, (incLoginAttempts now d). split; [reflexivity|].
      split; [eapply findByEmailOrPhone_Some; exact Hf|].
      split; [left; reflexivity|reflexivity].
    + right. right. exists d, (resetLoginAttempts info now d).
      split; [reflexivity|].
      split; [eapply findByEmailOrPhone_Some; exact Hf|].
      split; [right; left; exists info; reflexivity|reflexivity].
  - left. split; [|reflexivity]. unfold get_me. destruct a; [reflexivity|].
    destruct (findById id db); reflexivity.
  - left. split; [|reflexivity]. unfold post_refresh.
    destruct (RefreshRequest.cookies r) as [[t|]|]; try reflexivity.
    + destruct (jwt_verify t _ now); [|reflexivity].
      destruct (findById _ db); [|reflexivity].
      destruct (negb _); reflexivity.
    + destruct (RefreshRequest.body_refreshToken r) as [t|]; [|reflexivity].
      destruct (jwt_verify t _ now); [|reflexivity].
      destruct (findById _ db); [|reflexivity].
      destruct (negb _); reflexivity.
  - left. split; [|reflexivity]. unfold post_logout. destruct a; reflexivity.
  - unfold post_forgot_password. destruct limited; [left; split; reflexivity|].
    destruct (negb (isEmail em)); [left; split; reflexivity|].
    unfold serve. cbn [query continue].
    destruct (findOne _ db) as [d|] eqn:Hf; [|left; split; reflexivity].
    right. right. apply findOne_Some in Hf as [Hd _].
    exists d, (d.1, resetTokenPaths (generatePasswordResetToken now rand d.2).2).
    split; [reflexivity|]. split; [exact Hd|]. split; [|reflexivity].
    right. right. left. exists rand. reflexivity.
  - pose proof (post_reset_password_cases now salt token b db) as Hc.
    destruct (post_reset_password now salt token b db) as [db' res]. cbn [fst].
    destruct Hc as [(-> & _)|(d & _ & Hf & _ & -> & _)];
      [left; split; reflexivity|].
    right. right. apply findOne_Some in Hf as [Hd _].
    exists d, (d.1, resetUpdate salt (ResetBody.password b)).
    split; [reflexivity|]. split; [exact Hd|]. split; [|reflexivity].
    right. right. right. exists salt, (ResetBody.password b). reflexivity.
Qed.

Lemma apply_update_identity upd u : identity (apply_update upd u) = identity u.
Proof.
  revert u. induction upd as [|o upd IH]; intros u; [reflexivity|].
  simpl. unfold apply_update in IH. rewrite IH. destruct o; reflexivity.
Qed.

(** A property of documents that registration establishes and the four
    writes keep holds of every document after an operation. *)
Lemma handle_keeps (P : User -> Prop) now op db :
  (forall rand salt rb, (registerValidation rb).1 = [] ->
                        P (registeredDoc now rand salt rb)) ->
  (forall d w, P d.2 -> routeWrite now d w -> P (apply_update w.2 d.2)) ->
  (forall id u, db !! id = Some u -> P u) ->
  forall id u, (handle env now op db).1 !! id = Some u -> P u.
Proof.
  intros Hreg Hw Hdb id u.
  destruct (handle_step now op db) as [[-> _]|[Hs|Hs]].
  - apply Hdb.
  - destruct Hs as (newId & rand & salt & rb & _ & Hv & _ & ->).
    destruct (decide (newId = id)) as [->|Hne].
    + rewrite lookup_insert_eq. intros [= <-]. apply Hreg. exact Hv.
    + rewrite lookup_insert_ne by exact Hne. apply Hdb.
  - destruct Hs as (d & w & _ & Hd & Hrw & ->).
    assert (Hw1 : w.1 = d.1).
    { destruct Hrw as [->|[[info ->]|[[rand ->]|(salt & pw & ->)]]];
        try reflexivity.
      - unfold incLoginAttempts. destruct (lockExpired now d.2); [reflexivity|].
        destruct (_ && _)%bool; reflexivity.
      - unfold resetLoginAttempts. destruct (LoginInfo.location info); reflexivity. }
    unfold exec. rewrite lookup_updateOne, Hw1.
    destruct (decide (d.1 = id)) as [<-|Hne]; [|apply Hdb].
    rewrite Hd. intros [= <-]. apply Hw; [|exact Hrw].
    eapply Hdb. exact Hd.
Qed.

Lemma run_keeps (P : User -> Prop) ops db :
  (forall now rand salt rb, (registerValidation rb).1 = [] ->
                            P (registeredDoc now rand salt rb)) ->
  (forall now d w, P d.2 -> routeWrite now d w -> P (apply_update w.2 d.2)) ->
  (forall id u, db !! id = Some u -> P u) ->
  forall id u, (run env ops db).1 !! id = Some u -> P u.
Proof.
  intros Hreg Hw. revert db.
  induction ops as [|[now op] ops IH]; intros db Hdb; [exact Hdb|].
  cbn [run].
  pose proof (handle_keeps P now op db (Hreg now) (Hw now) Hdb) as Hstep.
  destruct (handle env now op db) as [db1 res]. cbn [fst] in Hstep.
  specialize (IH db1 Hstep).
  destruct (run env ops db1) as [db2 rs]. exact IH.
Qed.

(** A document that exists is still there after an operation, with the
    same identity. *)
Lemma handle_identity now op db id u :
  db !! id = Some u ->
  exists u', (handle env now op db).1 !! id = Some u' /\ identity u' = identity u.
Proof.
  intros Hu. destruct (handle_step now op db) as [[-> _]|[Hs|Hs]].
  - exists u. split; [exact Hu|reflexivity].
  - destruct Hs as (newId & rand & salt & rb & _ & _ & Hfree & ->).
    exists u. split; [|reflexivity].
    rewrite lookup_insert_ne; [exact Hu|]. intros ->. congruence.
  - destruct Hs as (d & [k upd] & _ & _ & _ & ->).
    unfold exec. cbn [fst snd]. rewrite lookup_updateOne.
    destruct (decide (k = id)) as [_|_].
    + rewrite Hu. eexists. split; [reflexivity|]. apply apply_update_identity.
    + exists u. split; [exact Hu|reflexivity].
Qed.

Lemma run_identity ops db id u :
  db !! id = Some u ->
  exists u', (run env ops db).1 !! id = Some u' /\ identity u' = identity u.
Proof.
  revert db u. induction ops as [|[now op] ops IH]; intros db u Hu.
  { exists u. split; [exact Hu|reflexivity]. }
  cbn [run].
  destruct (handle_identity now op db id u Hu) as (u1 & Hu1 & Hid1).
  destruct (handle env now op db) as [db1 res]. cbn [fst] in Hu1.
  destruct (IH db1 u1 Hu1) as (u2 & Hu2 & Hid2).
  destruct (run env ops db1) as [db2 rs]. cbn [fst] in *.
  exists u2. split; [exact Hu2|]. congruence.
Qed.

End Steps.

(** X3.  The routes keep an account and its identity.  Whatever
    operations are served, in whatever order, an account that exists is
    still there afterwards, with the name, e-mail, phone, role, status and
    verification flags it had: no route of the core deletes an account or
    rewrites one of these paths. *)
Theorem X3_routes_keep_identity `{Externals} (env : Env)
    (ops : list (Z * Operation)) (db : gmap N User) (id : N) (u : User) :
  db !! id = Some u ->
  exists u', (run env ops db).1 !! id = Some u' /\ identity u' = identity u.
Proof. apply run_identity. Qed.

Lemma X3_routes_keep_identity_witness :
  let ops :=
    [(2000, Login false Sample.client (Sample.credentials "wrong" false));
     (3000, ForgotPassword false "feed" "asha@example.in");
     (4000, ResetPassword "pepper" "feed"
              {| ResetBody.password := "n3wsignal";
                 ResetBody.confirmPassword := "n3wsignal" |});
     (5000, Login false Sample.client (Sample.credentials "n3wsignal" true))] in
  exists u', (@run Sample.externals Sample.env ops Sample.store).1 !! 7%N = Some u' /\
             identity u'
             = identity (@registeredDoc Sample.externals 1000 "c0ffee" "salt"
                           Sample.asha).
Proof.
  intros ops.
  apply (@X3_routes_keep_identity Sample.externals Sample.env ops Sample.store 7).
  vm_compute. reflexivity.
Defined.

Section Invariants.
Context `{Externals}.
Variable env : Env.
Implicit Types (db : gmap N User) (d : Doc) (u : User).

Lemma run_noneActive ops db : noneActive db -> noneActive (run env ops db).1.
Proof.
  intros Hdb. unfold noneActive.
  apply (run_keeps env (fun u => status u <> active)).
  - intros now rand salt rb _.
    destruct (registeredDoc_fresh now rand salt rb) as (-> & _). discriminate.
  - intros now d w Hd _.
    pose proof (apply_update_identity w.2 d.2) as Hid.
    unfold identity in Hid. injection Hid as _ _ _ _ Hs _ _. rewrite Hs. exact Hd.
  - exact Hdb.
Qed.

Lemma post_refresh_noneActive now r db :
  noneActive db ->
  (post_refresh env now r db).1 = db /\
  statusCode (post_refresh env now r db).2 = 401.
Proof.
  intros Hdb. unfold post_refresh.
  destruct (RefreshRequest.cookies r) as [[t|]|]; [| |split; reflexivity].
  2: destruct (RefreshRequest.body_refreshToken r) as [t|]; [|split; reflexivity].
  all: destruct (jwt_verify t _ now) as [decoded|]; [|split; reflexivity].
  all: destruct (findById _ db) as [user|] eqn:Hf; [|split; reflexivity].
  all: apply findById_Some in Hf as [_ Hu]; apply Hdb in Hu.
  all: destruct (status user.2); try (split; reflexivity); congruence.
Qed.

Lemma routeWrite_lockoutSound now d w :
  lockoutSound d.2 -> routeWrite now d w -> lockoutSound (apply_update w.2 d.2).
Proof.
  unfold lockoutSound, maxAttempts.
  intros [H0 H5] [->|[[info ->]|[[rand ->]|(salt & pw & ->)]]].
  - unfold incLoginAttempts, lockExpired, isLocked, maxAttempts.
    destruct (lockUntil (loginAttempts d.2)) as [t|] eqn:Hl.
    + assert (5 <= count (loginAttempts d.2)) by (apply H5; discriminate).
      destruct (Z.ltb t now).
      * cbn. split; [lia|congruence].
      * destruct (_ && _)%bool; cbn; rewrite ?Hl; split; intros; lia.
    + destruct (Z.leb 5 (count (loginAttempts d.2) + 1)) eqn:Hc; cbn.
      * apply Z.leb_le in Hc. split; intros; lia.
      * rewrite Hl. split; [lia|congruence].
  - unfold resetLoginAttempts. destruct (LoginInfo.location info); cbn;
      (split; [lia|congruence]).
  - cbn. split; [exact H0|exact H5].
  - cbn. split; [lia|congruence].
Qed.

End Invariants.

(** X4.  No route activates an account.  If no account of the store is
    active, none is after any operations of the core, and POST /refresh
    then answers 401 to every request, at every instant, whatever token it
    carries: registration creates accounts with status pending_verification
    and no route of the core changes a status. *)
Theorem X4_refresh_never_succeeds `{Externals} (env : Env)
    (ops : list (Z * Operation)) (db : gmap N User) :
  noneActive db ->
  let db' := (run env ops db).1 in
  noneActive db' /\
  forall now r,
    (post_refresh env now r db').1 = db' /\
    statusCode (post_refresh env now r db').2 = 401.
Proof.
  intros Hdb db'.
  assert (Hn : noneActive db') by (apply run_noneActive; exact Hdb).
  split; [exact Hn|]. intros now r. apply post_refresh_noneActive. exact Hn.
Qed.

(** X5.  A lock stands on five counted failures.  If in every account
    the counter is not negative and a lock comes with a counter of 5 or
    more, the same holds after any operations of the core; it holds of
    the empty store and of every new registration. *)
Theorem X5_lock_needs_five_failures `{Externals} (env : Env)
    (ops : list (Z * Operation)) (db : gmap N User) :
  (forall id u, db !! id = Some u -> lockoutSound u) ->
  forall id u, (run env ops db).1 !! id = Some u -> lockoutSound u.
Proof.
  apply (run_keeps env lockoutSound).
  - intros now rand salt rb _.
    destruct (registeredDoc_fresh now rand salt rb) as (_ & _ & _ & _ & Hla & _).
    unfold lockoutSound. rewrite Hla. cbn. split; [lia|congruence].
  - intros now d w. apply routeWrite_lockoutSound.
Qed.

Lemma X4_refresh_never_succeeds_witness :
  let ops :=
    [(1000, Register false 7 "c0ffee" "salt" Sample.asha);
     (2000, Login false Sample.client (Sample.credentials "tr4ckside" false))] in
  let db' := (@run Sample.externals Sample.env ops ∅).1 in
  noneActive db' /\
  forall now r,
    (post_refresh Sample.env now r db').1 = db' /\
    statusCode (post_refresh Sample.env now r db').2 = 401.
Proof.
  intros ops.
  apply (@X4_refresh_never_succeeds Sample.externals Sample.env ops ∅).
  intros id u Hu. rewrite lookup_empty in Hu. discriminate.
Defined.

Lemma X5_lock_needs_five_failures_witness :
  exists u, Sample.locked !! 7%N = Some u /\ lockoutSound u /\
            lockUntil (loginAttempts u) = Some 7206000.
Proof.
  eexists. split; [vm_compute; reflexivity|]. split; [|reflexivity].
  apply (@X5_lock_needs_five_failures Sample.externals Sample.env
           [(1000, Register false 7 "c0ffee" "salt" Sample.asha);
            (2000, Login false Sample.client (Sample.credentials "wrong" false));
            (3000, Login false Sample.client (Sample.credentials "wrong" false));
            (4000, Login false Sample.client (Sample.credentials "wrong" false));
            (5000, Login false Sample.client (Sample.credentials "wrong" false));
            (6000, Login false Sample.client (Sample.credentials "wrong" false))]
           ∅) with (id := 7%N).
  - intros id u Hu. rewrite lookup_empty in Hu. discriminate.
  - vm_compute. reflexivity.
Defined.

(* ===================================================================== *)
(** ** Forgotten password, then reset                                    *)
(* ===================================================================== *)

Section ForgotReset.
Context `{Externals}.
Implicit Types (db : gmap N User) (d : Doc) (u : User).

(** The store after POST /forgot-password has found the account [id]. *)
Lemma post_forgot_password_found now rand em db id u :
  isEmail em = true ->
  findOne (byEmail (Str.toLowerCase (normalizeEmail em))) db = Some (id, u) ->
  post_forgot_password false now rand em db
  = (exec (id, [Set_passwordResetToken (sha256 rand);
                Set_passwordResetExpires (now + 10 * 60 * 1000)]) db,
     (forgot_found now rand None).2).
Proof.
  intros He Hf. unfold post_forgot_password. rewrite He. cbn [negb].
  unfold serve. cbn [query continue]. rewrite Hf. reflexivity.
Qed.

(** What the filter of POST /reset-password finds afterwards, when no
    other account holds the hash of [rand]: the account, before the
    expiry of the token, and nothing from the expiry on. *)
Lemma reset_token_lookup now rand db id u now2 :
  db !! id = Some u ->
  (forall k v, db !! k = Some v -> k <> id ->
               passwordResetToken v <> Some (sha256 rand)) ->
  let upd := [Set_passwordResetToken (sha256 rand);
              Set_passwordResetExpires (now + 10 * 60 * 1000)] in
  findOne (byResetToken (sha256 rand) now2) (exec (id, upd) db)
  = if Z.ltb now2 (now + 10 * 60 * 1000)
    then Some (id, apply_update upd u) else None.
Proof.
  intros Hu Hothers upd.
  assert (Hid : exec (id, upd) db !! id = Some (apply_update upd u))
    by (apply lookup_exec_eq; exact Hu).
  assert (Hq : byResetToken (sha256 rand) now2 (id, apply_update upd u)
               = Z.ltb now2 (now + 10 * 60 * 1000)).
  { unfold byResetToken. cbn. rewrite String.eqb_refl. reflexivity. }
  assert (Hrest : forall k v, exec (id, upd) db !! k = Some v -> k <> id ->
                              byResetToken (sha256 rand) now2 (k, v) = false).
  { intros k v Hk Hne. rewrite lookup_exec_ne in Hk by congruence.
    apply byResetToken_other. cbn [snd]. eapply Hothers; eassumption. }
  destruct (Z.ltb now2 (now + 10 * 60 * 1000)) eqn:Hlt.
  - apply findOne_unique; [exact Hid|exact Hq|].
    intros k v Hk Hqk. destruct (decide (k = id)) as [->|Hne]; [reflexivity|].
    rewrite (Hrest k v Hk Hne) in Hqk. discriminate.
  - apply findOne_None. intros k v Hk.
    destruct (decide (k = id)) as [->|Hne]; [|apply Hrest; assumption].
    rewrite Hid in Hk. injection Hk as <-. exact Hq.
Qed.

End ForgotReset.

(** X6.  A reset link works until it expires.  After POST
    /forgot-password has found an account, POST /reset-password with the
    token that was generated, a password both validators accept, and an
    instant less than ten minutes later is answered 200: the account
    holds the hash of the new password, its counter is 0 and its lock is
    gone, the token is cleared, its identity and every other account are
    as before, and the new password is the one [comparePassword]
    accepts.  No other account is taken to hold the same token hash. *)
Theorem X6_forgot_then_reset `{Externals} (now : Z) (rand em : string)
    (db : gmap N User) (id : N) (u : User)
    (now2 : Z) (salt : string) (b : ResetBody.t) :
  isEmail em = true ->
  findOne (byEmail (Str.toLowerCase (normalizeEmail em))) db = Some (id, u) ->
  (forall k v, db !! k = Some v -> k <> id ->
               passwordResetToken v <> Some (sha256 rand)) ->
  resetValidation b = [] ->
  valid_password (ResetBody.password b) = true ->
  now2 < now + 10 * 60 * 1000 ->
  let db1 := (post_forgot_password false now rand em db).1 in
  let db2 := (post_reset_password now2 salt rand b db1).1 in
  statusCode (post_reset_password now2 salt rand b db1).2 = 200 /\
  exists u2,
    db2 !! id = Some u2 /\
    password u2 = bcrypt_hash (ResetBody.password b) salt /\
    lockout id db2 = Some (0, None) /\
    passwordResetToken u2 = None /\ passwordResetExpires u2 = None /\
    identity u2 = identity u /\
    (forall k, k <> id -> db2 !! k = db !! k) /\
    (bcryptAccepts (ResetBody.password b) salt ->
     comparePassword (ResetBody.password b) u2 = true).
Proof.
  intros He Hf Hothers Hv Hvp Hlt db1 db2.
  pose proof (findOne_Some _ _ _ Hf) as [Hu _]. cbn [fst snd] in Hu.
  subst db2 db1. rewrite (post_forgot_password_found now rand em db id u He Hf).
  cbn [fst]. unfold post_reset_password. rewrite Hv.
  unfold serve, reset_request. cbn [query continue].
  rewrite (reset_token_lookup now rand db id u now2 Hu Hothers).
  apply Z.ltb_lt in Hlt. rewrite Hlt.
  unfold reset_found. rewrite Hvp. cbn [fst snd exec_opt].
  split; [reflexivity|].
  set (db1 := exec (id, [Set_passwordResetToken (sha256 rand);
                         Set_passwordResetExpires (now + 10 * 60 * 1000)]) db).
  assert (H1 : db1 !! id = Some (apply_update
                 [Set_passwordResetToken (sha256 rand);
                  Set_passwordResetExpires (now + 10 * 60 * 1000)] u))
    by (apply lookup_exec_eq; exact Hu).
  eexists. split; [apply lookup_exec_eq; exact H1|].
  split; [reflexivity|]. split.
  { unfold lockout. erewrite lookup_exec_eq by exact H1. reflexivity. }
  split; [reflexivity|]. split; [reflexivity|].
  split; [rewrite !apply_update_identity; reflexivity|].
  split.
  { intros k Hne. rewrite lookup_exec_ne by congruence.
    subst db1. rewrite lookup_exec_ne by congruence. reflexivity. }
  intros [Hacc Hne]. unfold comparePassword. cbn. rewrite Hne. exact Hacc.
Qed.

Lemma X6_forgot_then_reset_witness :
  let b := {| ResetBody.password := "n3wsignal";
              ResetBody.confirmPassword := "n3wsignal" |} in
  let db1 := (@post_forgot_password Sample.externals false 8000 "feed"
                "Asha@Example.in" Sample.locked).1 in
  let db2 := (@post_reset_password Sample.externals 607999 "pepper" "feed" b db1).1 in
  lockout 7 Sample.locked = Some (5, Some 7206000) /\
  statusCode (@post_reset_password Sample.externals 607999 "pepper" "feed" b db1).2
  = 200 /\
  lockout 7 db2 = Some (0, None).
Proof.
  intros b db1 db2. split; [vm_compute; reflexivity|].
  evar (u0 : User).
  assert (Hl : map_to_list Sample.locked = [(7%N, u0)])
    by (subst u0; vm_compute; reflexivity).
  edestruct (@X6_forgot_then_reset Sample.externals 8000 "feed" "Asha@Example.in"
               Sample.locked 7 u0 607999 "pepper" b)
    as (H200 & u2 & _ & _ & Hlock & _).
  - reflexivity.
  - unfold findOne. rewrite Hl. subst u0. vm_compute. reflexivity.
  - intros k v Hk Hne. destruct (sole_document _ 7 u0 Hl _ _ Hk). contradiction.
  - reflexivity.
  - reflexivity.
  - lia.
  - split; [exact H200|exact Hlock].
Defined.

(** X7.  A reset link is dead from its expiry on.  After POST
    /forgot-password has found an account at [now], POST /reset-password
    with the generated token at [now + 10 min] or later changes nothing
    and is answered 400, with the invalid-token body when the new
    password passes the validators; the instant of expiry itself is
    refused.  No other account is taken to hold the same token hash. *)
Theorem X7_reset_token_expires `{Externals} (now : Z) (rand em : string)
    (db : gmap N User) (id : N) (u : User)
    (now2 : Z) (salt : string) (b : ResetBody.t) :
  isEmail em = true ->
  findOne (byEmail (Str.toLowerCase (normalizeEmail em))) db = Some (id, u) ->
  (forall k v, db !! k = Some v -> k <> id ->
               passwordResetToken v <> Some (sha256 rand)) ->
  now + 10 * 60 * 1000 <= now2 ->
  let db1 := (post_forgot_password false now rand em db).1 in
  (post_reset_password now2 salt rand b db1).1 = db1 /\
  statusCode (post_reset_password now2 salt rand b db1).2 = 400 /\
  (resetValidation b = [] ->
   post_reset_password now2 salt rand b db1 = (db1, invalidResetToken)).
Proof.
  intros He Hf Hothers Hge db1.
  pose proof (findOne_Some _ _ _ Hf) as [Hu _]. cbn [fst snd] in Hu.
  subst db1. rewrite (post_forgot_password_found now rand em db id u He Hf).
  cbn [fst]. unfold post_reset_password.
  destruct (resetValidation b).
  2:{ split; [reflexivity|]. split; [reflexivity|]. discriminate. }
  unfold serve, reset_request. cbn [query continue].
  rewrite (reset_token_lookup now rand db id u now2 Hu Hothers).
  apply Z.ltb_ge in Hge. rewrite Hge.
  split; [reflexivity|]. split; reflexivity.
Qed.

Lemma X7_reset_token_expires_witness :
  let b := {| ResetBody.password := "n3wsignal";
              ResetBody.confirmPassword := "n3wsignal" |} in
  let db1 := (@post_forgot_password Sample.externals false 8000 "feed"
                "asha@example.in" Sample.store).1 in
  @post_reset_password Sample.externals 608000 "pepper" "feed" b db1
  = (db1, invalidResetToken).
Proof.
  intros b db1.
  evar (u0 : User).
  assert (Hl : map_to_list Sample.store = [(7%N, u0)])
    by (subst u0; vm_compute; reflexivity).
  apply (@X7_reset_token_expires Sample.externals 8000 "feed" "asha@example.in"
           Sample.store 7 u0 608000 "pepper" b).
  - reflexivity.
  - unfold findOne. rewrite Hl. subst u0. vm_compute. reflexivity.
  - intros k v Hk Hne. destruct (sole_document _ 7 u0 Hl _ _ Hk). contradiction.
  - lia.
  - reflexivity.
Defined.

(** X8.  POST /forgot-password does not tell whether an account
    exists.  The reply to a request depends on the limiter and on the
    address that was sent, and on nothing else: it is the same for every
    store, instant and generated token; for an address [isEmail] accepts
    it is the 200 reply, and a store without the address is left as it
    is. *)
Theorem X8_forgot_password_reveals_nothing `{Externals} (limited : bool)
    (em : string) (now now' : Z) (rand rand' : string) (db db' : gmap N User) :
  (post_forgot_password limited now rand em db).2
  = (post_forgot_password limited now' rand' em db').2 /\
  (limited = false -> isEmail em = true ->
   statusCode (post_forgot_password limited now rand em db).2 = 200 /\
   (findOne (byEmail (Str.toLowerCase (normalizeEmail em))) db = None ->
    (post_forgot_password limited now rand em db).1 = db)).
Proof.
  unfold post_forgot_password. destruct limited.
  { split; [reflexivity|discriminate]. }
  destruct (isEmail em); cbn [negb].
  2:{ split; [reflexivity|]. intros _ He. discriminate He. }
  unfold serve. cbn [query continue].
  destruct (findOne _ db) as [d|], (findOne _ db') as [d'|];
    (split; [reflexivity|]); intros _ _;
    (split; [reflexivity|]); intros Hn; try discriminate Hn; reflexivity.
Qed.

Lemma X8_forgot_password_reveals_nothing_witness :
  let known := @post_forgot_password Sample.externals false 8000 "feed"
                 "asha@example.in" Sample.store in
  let unknown := @post_forgot_password Sample.externals false 8500 "beef"
                   "asha@example.in" ∅ in
  known.2 = unknown.2 /\ statusCode known.2 = 200 /\
  known.1 <> Sample.store /\ unknown.1 = ∅.
Proof.
  intros known unknown.
  destruct (@X8_forgot_password_reveals_nothing Sample.externals false
              "asha@example.in" 8000 8500 "feed" "beef" Sample.store ∅)
    as [Hsame _].
  destruct (@X8_forgot_password_reveals_nothing Sample.externals false
              "asha@example.in" 8500 8000 "beef" "feed" ∅ Sample.store)
    as [_ Hunknown].
  destruct (Hunknown eq_refl eq_refl) as [_ Hkeep].
  split; [exact Hsame|]. split; [reflexivity|].
  split; [|apply Hkeep; reflexivity].
  intros Heq. assert (Hl : (passwordResetToken <$> known.1 !! 7%N)
                           = (passwordResetToken <$> Sample.store !! 7%N))
    by (rewrite Heq; reflexivity).
  vm_compute in Hl. discriminate Hl.
Defined.

Section SchemaPassword.
Context `{Externals}.
Variable env : Env.
Implicit Types (db : gmap N User).

Lemma valid_password_chars pw :
  Str.all (fun c => Str.isLetter c || Str.isDigit c || Str.isOneOf "@$!%*#?&" c) pw
  = false ->
  valid_password pw = false.
Proof.
  intros Hc. unfold valid_password, Regex.strongPassword. rewrite Hc.
  destruct (Str.nonEmpty pw), (Z.leb 8 (Str.len pw)), (Str.any Str.isLetter pw),
    (Str.any Str.isDigit pw); reflexivity.
Qed.

End SchemaPassword.

(** X9.  A password the route accepts and the schema refuses.  The
    validators of the two routes ask for eight characters with a letter
    and a digit; the schema also restricts the characters to letters,
    digits and [@$!%*#?&].  A password that passes the first and holds
    another character (a space, an underscore) makes [save] throw: the
    registration is answered 500 and nothing is stored, the reset is
    answered 500 and the account keeps its old password and its token. *)
Theorem X9_password_outside_schema `{Externals} (env : Env) (pw : string) :
  Str.all (fun c => Str.isLetter c || Str.isDigit c || Str.isOneOf "@$!%*#?&" c) pw
  = false ->
  (forall now newId rand salt rb db,
     RegisterBody.password rb = pw ->
     (registerValidation rb).1 = [] ->
     statusCode (post_register env false now newId rand salt rb db).2 <> 201 /\
     (post_register env false now newId rand salt rb db).1 = db /\
     (statusCode (post_register env false now newId rand salt rb db).2 = 500 \/
      (post_register env false now newId rand salt rb db).2 = accountExists)) /\
  (forall now salt token b db d,
     ResetBody.password b = pw ->
     resetValidation b = [] ->
     findOne (byResetToken (sha256 token) now) db = Some d ->
     post_reset_password now salt token b db
     = (db, json 500 (JObj [("success", JBool false);
                            ("error", JStr "Failed to reset password")]))).
Proof.
  intros Hc. apply valid_password_chars in Hc. split.
  - intros now newId rand salt rb db Hpw Hv.
    unfold post_register, register_handler.
    assert (Hpw' : RegisterBody.password (registerValidation rb).2 = pw)
      by exact Hpw.
    destruct (registerValidation rb) as [errors b']. cbn [fst snd] in *.
    subst errors.
    destruct (findOne _ db).
    { split; [discriminate|]. split; [reflexivity|]. right. reflexivity. }
    unfold save_new, generateEmailVerificationToken. cbn [fst snd].
    assert (Hval : validate
              (with_emailVerification (Some (sha256 rand))
                 (Some (now + 24 * 60 * 60 * 1000))
                 (new_User (Str.trim (RegisterBody.name b'))
                    (Str.toLowerCase (RegisterBody.email b'))
                    (if Str.startsWith "+91" (RegisterBody.phone b')
                     then RegisterBody.phone b'
                     else String.append "+91" (RegisterBody.phone b'))
                    (RegisterBody.password b'))) = false).
    { unfold validate. cbn [password with_emailVerification new_User].
      rewrite Hpw', Hc. apply andb_false_r. }
    rewrite Hval. cbn [negb].
    split; [discriminate|]. split; [reflexivity|]. left. reflexivity.
  - intros now salt token b db d Hpw Hv Hf.
    unfold post_reset_password. rewrite Hv.
    unfold serve, reset_request. cbn [query continue]. rewrite Hf.
    unfold reset_found. rewrite Hpw, Hc. reflexivity.
Qed.

Lemma X9_password_outside_schema_witness :
  let rb := {| RegisterBody.name := "Ravi Iyer";
               RegisterBody.email := "ravi@example.in";
               RegisterBody.phone := "9123456780";
               RegisterBody.password := "pass word1";
               RegisterBody.confirmPassword := "pass word1" |} in
  let r := @post_register Sample.externals Sample.env false 5000 8 "beef" "pepper"
             rb Sample.store in
  (statusCode r.2 <> 201 /\ r.1 = Sample.store /\
   (statusCode r.2 = 500 \/ r.2 = accountExists)) /\
  statusCode r.2 = 500.
Proof.
  intros rb. split; [|vm_compute; reflexivity].
  apply (proj1 (@X9_password_outside_schema Sample.externals Sample.env
                  "pass word1" eq_refl)); reflexivity.
Defined.



(* ===================================================================== *)
(** ** Statistics                                                        *)
(* ===================================================================== *)

Section Statistics.
Context `{Externals}.
Variable env : Env.
Implicit Types (db : gmap N User) (c : User -> bool).

Lemma stats_counts db :
  stats db
  = (Some (JNum (Z.of_nat (size db))),
     Some (JNum (sumWhere (fun u => Status_eqb (status u) active) db)),
     Some (JNum (sumWhere (fun u => isEmailVerified u && isPhoneVerified u) db))).
Proof.
  unfold stats, getUserStats, aggregateStats.
  destruct (map_to_list db) as [|d l] eqn:Hl; [|reflexivity].
  apply map_to_list_empty_iff in Hl. subst db.
  unfold sumWhere. rewrite !map_filter_empty, map_size_empty. reflexivity.
Qed.

Lemma sumWhere_bounds c db : 0 <= sumWhere c db <= Z.of_nat (size db).
Proof.
  unfold sumWhere. split; [lia|].
  apply Nat2Z.inj_le, map_subseteq_size, map_filter_subseteq.
Qed.

Lemma size_updateOne id upd db : size (updateOne id upd db) = size db.
Proof.
  unfold updateOne. destruct (db !! id) as [u|] eqn:Hu.
  - assert (Ha : alter (apply_update upd) id db = <[id := apply_update upd u]> db).
    { apply map_eq. intros k. destruct (decide (id = k)) as [->|Hne].
      - rewrite lookup_alter_eq, lookup_insert_eq, Hu. reflexivity.
      - rewrite lookup_alter_ne, lookup_insert_ne by exact Hne. reflexivity. }
    rewrite Ha. apply map_size_insert_Some. exists u. exact Hu.
  - rewrite alter_id'; [reflexivity|exact Hu].
Qed.

Lemma sumWhere_updateOne c id upd db :
  (forall u, c (apply_update upd u) = c u) ->
  sumWhere c (updateOne id upd db) = sumWhere c db.
Proof.
  intros Hc. unfold sumWhere. f_equal.
  assert (Hf : filter (fun d : N * User => c d.2 = true) (updateOne id upd db)
               = updateOne id upd (filter (fun d : N * User => c d.2 = true) db)).
  { apply map_eq. intros k. unfold updateOne.
    rewrite map_lookup_filter, !lookup_alter, !map_lookup_filter.
    destruct (decide (id = k)) as [->|_]; [|reflexivity].
    destruct (db !! k) as [u|]; [|reflexivity]. cbn.
    destruct (c u) eqn:Hu.
    - rewrite !option_guard_True by (cbn; rewrite ?Hc; exact Hu). reflexivity.
    - rewrite !option_guard_False by (cbn; rewrite ?Hc, Hu; discriminate).
      reflexivity. }
  rewrite Hf. apply size_updateOne.
Qed.

Lemma sumWhere_insert_false c k u db :
  db !! k = None -> c u = false ->
  sumWhere c (<[k := u]> db) = sumWhere c db.
Proof.
  intros Hk Hu. unfold sumWhere. f_equal.
  rewrite map_filter_insert_False by (cbn; rewrite Hu; discriminate).
  rewrite delete_id by exact Hk. reflexivity.
Qed.

End Statistics.

(** X11.  The statistics and the routes.  [getUserStats] reports the
    number of accounts, and counts of active and of verified accounts
    that lie between 0 and that number; on an empty collection all three
    are 0.  A registration answered 201 raises the total by one; apart
    from that no operation of the core changes any of the three
    numbers. *)
Theorem X11_user_stats `{Externals} (env : Env) (now : Z) (op : Operation)
    (db : gmap N User) :
  stats ∅ = (Some (JNum 0), Some (JNum 0), Some (JNum 0)) /\
  exists total act ver,
    stats db = (Some (JNum total), Some (JNum act), Some (JNum ver)) /\
    total = Z.of_nat (size db) /\
    0 <= act <= total /\ 0 <= ver <= total /\
    stats (handle env now op db).1
    = (Some (JNum (if created op (handle env now op db).2
                   then total + 1 else total)),
       Some (JNum act), Some (JNum ver)).
Proof.
  split; [reflexivity|].
  exists (Z.of_nat (size db)),
         (sumWhere (fun u => Status_eqb (status u) active) db),
         (sumWhere (fun u => isEmailVerified u && isPhoneVerified u) db).
  split; [apply stats_counts|]. split; [reflexivity|].
  split; [apply sumWhere_bounds|]. split; [apply sumWhere_bounds|].
  rewrite stats_counts.
  destruct (handle_step env now op db)
    as [[-> ->]|[(newId & rand & salt & rb & -> & _ & Hfree & ->)
                |(d & [k upd] & -> & _ & _ & ->)]].
  - reflexivity.
  - destruct (registeredDoc_fresh now rand salt rb)
      as (Hst & _ & Hev & _).
    rewrite !sumWhere_insert_false;
      [|exact Hfree|rewrite Hev; reflexivity|exact Hfree|rewrite Hst; reflexivity].
    rewrite map_size_insert_None by exact Hfree.
    rewrite Nat2Z.inj_succ. reflexivity.
  - unfold exec. cbn [fst snd].
    rewrite size_updateOne, !sumWhere_updateOne; [reflexivity| |].
    + intros u. pose proof (apply_update_identity upd u) as Hid.
      unfold identity in Hid. injection Hid as _ _ _ _ _ -> ->. reflexivity.
    + intros u. pose proof (apply_update_identity upd u) as Hid.
      unfold identity in Hid. injection Hid as _ _ _ _ -> _ _. reflexivity.
Qed.

(* ===================================================================== *)
(** ** Phone numbers                                                     *)
(* ===================================================================== *)

Section PhoneFacts.
Import Str.

Ltac each_char c := destruct c as [[] [] [] [] [] [] [] []].

Lemma firstDigit_isDigit c : between 54 57 c = true -> isDigit c = true.
Proof. each_char c; intros Hc; try reflexivity; discriminate Hc. Qed.

Lemma isDigit_kept c :
  isDigit c = true -> negb (isSpace c || isOneOf "-" c) = true.
Proof. each_char c; intros Hc; try reflexivity; discriminate Hc. Qed.

Lemma isDigit_not_at c : isDigit c = true -> negb (Ascii.eqb "@" c) = true.
Proof. each_char c; intros Hc; try reflexivity; discriminate Hc. Qed.

Lemma separator_not_at c :
  (isSpace c || isOneOf "-" c)%bool = true -> negb (Ascii.eqb "@" c) = true.
Proof. each_char c; intros Hc; try reflexivity; discriminate Hc. Qed.

Lemma tenDigits_digits s : Regex.tenDigits s = true -> all isDigit s = true.
Proof.
  destruct s as [|c r]; [discriminate|]. simpl. intros Hs.
  apply andb_prop in Hs as [Hs _]. apply andb_prop in Hs as [Hc Hr].
  rewrite (firstDigit_isDigit c Hc), Hr. reflexivity.
Qed.

Lemma tenDigits_clean s :
  Regex.tenDigits s = true -> removeSpacesAndHyphens s = s.
Proof.
  intros Hs. apply filter_all.
  exact (all_impl _ _ _ isDigit_kept (tenDigits_digits s Hs)).
Qed.

(** A national number does not start with [+91]. *)
Lemma tenDigits_no_prefix s :
  Regex.tenDigits s = true ->
  removeLeadingPlus91 s = s /\ startsWith "+91" s = false.
Proof.
  destruct s as [|c r]; [discriminate|]. simpl. intros Hs.
  apply andb_prop in Hs as [Hs _]. apply andb_prop in Hs as [Hc _].
  revert Hc. each_char c; intros Hc; try discriminate Hc; split; reflexivity.
Qed.

(** The three shapes the phone pattern accepts. *)
Lemma Regex_phone_cases s :
  Regex.phone s = true ->
  Regex.tenDigits s = true \/
  (exists r, s = String.append "+91" r /\ Regex.tenDigits r = true) \/
  (exists c r, s = String.append "+91" (String c r) /\
               (isSpace c || isOneOf "-" c)%bool = true /\
               Regex.tenDigits r = true).
Proof.
  unfold Regex.phone. destruct (Regex.tenDigits s) eqn:Ht; [left; reflexivity|].
  cbn [orb]. intros Hp. right.
  destruct s as [|c1 s]; [discriminate Hp|].
  each_char c1; try discriminate Hp.
  destruct s as [|c2 s]; [discriminate Hp|].
  each_char c2; try discriminate Hp.
  destruct s as [|c3 s]; [discriminate Hp|].
  each_char c3; try discriminate Hp.
  apply orb_prop in Hp as [Hp|Hp].
  - left. exists s. split; [reflexivity|exact Hp].
  - right. destruct s as [|c r]; [discriminate Hp|].
    apply andb_prop in Hp as [Hc Hr].
    exists c, r. split; [reflexivity|]. split; [exact Hc|exact Hr].
Qed.

(** What the sanitizers of the registration make of an accepted phone:
    the national number; and what [findByEmailOrPhone] makes of it: the
    national number, with [+91] in front when the input had it. *)
Lemma Regex_phone_national s :
  Regex.phone s = true ->
  let national := removeLeadingPlus91 (removeSpacesAndHyphens s) in
  Regex.tenDigits national = true /\
  (removeSpacesAndHyphens s = national \/
   removeSpacesAndHyphens s = String.append "+91" national).
Proof.
  intros Hp. destruct (Regex_phone_cases s Hp)
    as [Ht|[(r & -> & Ht)|(c & r & -> & Hc & Ht)]]; cbv zeta.
  - rewrite (tenDigits_clean s Ht).
    destruct (tenDigits_no_prefix s Ht) as [-> _]. split; [exact Ht|].
    left. reflexivity.
  - assert (Hf : removeSpacesAndHyphens (String.append "+91" r)
                 = String.append "+91" r).
    { change (String.append "+91" (removeSpacesAndHyphens r)
              = String.append "+91" r).
      rewrite (tenDigits_clean r Ht). reflexivity. }
    rewrite Hf. split; [exact Ht|]. right. reflexivity.
  - assert (Hf : removeSpacesAndHyphens (String.append "+91" (String c r))
                 = String.append "+91" r).
    { change (String.append "+91"
                (if negb (isSpace c || isOneOf "-" c)
                 then String c (removeSpacesAndHyphens r)
                 else removeSpacesAndHyphens r)
              = String.append "+91" r).
      rewrite Hc. cbn [negb]. rewrite (tenDigits_clean r Ht). reflexivity. }
    rewrite Hf. split; [exact Ht|]. right. reflexivity.
Qed.

(** A phone in one of the accepted shapes is not an e-mail address. *)
Lemma Regex_phone_not_email s : Regex.phone s = true -> Regex.email s = false.
Proof.
  intros Hp. unfold Regex.email. rewrite splitFirst_none; [reflexivity|].
  destruct (Regex_phone_cases s Hp)
    as [Ht|[(r & -> & Ht)|(c & r & -> & Hc & Ht)]].
  - exact (all_impl _ _ _ isDigit_not_at (tenDigits_digits s Ht)).
  - rewrite all_append. apply andb_true_intro. split; [reflexivity|].
    exact (all_impl _ _ _ isDigit_not_at (tenDigits_digits r Ht)).
  - rewrite all_append. apply andb_true_intro. split; [reflexivity|].
    cbn [all]. apply andb_true_intro. split; [exact (separator_not_at c Hc)|].
    exact (all_impl _ _ _ isDigit_not_at (tenDigits_digits r Ht)).
Qed.

Lemma tenDigits_nonEmpty s : Regex.tenDigits s = true -> nonEmpty s = true.
Proof. destruct s; [discriminate|reflexivity]. Qed.

Lemma append_inj_l p s t : String.append p s = String.append p t -> s = t.
Proof.
  induction p as [|c p IH]; simpl; [auto|]. intros [= Hst]. apply IH, Hst.
Qed.

End PhoneFacts.

Section PhoneRoundTrip.
Context `{Externals}.
Variable env : Env.
Implicit Types (db : gmap N User) (u : User) (rb : RegisterBody.t).

Lemma registerValidation_phone rb :
  (registerValidation rb).1 = [] -> Regex.phone (RegisterBody.phone rb) = true.
Proof.
  unfold registerValidation, check. cbn [fst].
  destruct (Regex.phone (RegisterBody.phone rb)); [reflexivity|].
  intros Hv. exfalso. revert Hv.
  repeat match goal with
         | |- context [if ?c then [] else _] => destruct c
         end; discriminate.
Qed.

(** The phone a registration stores for a body the validators accept. *)
Lemma registeredDoc_phone now rand salt rb :
  (registerValidation rb).1 = [] ->
  let national :=
    Str.removeLeadingPlus91 (Str.removeSpacesAndHyphens (RegisterBody.phone rb)) in
  Regex.tenDigits national = true /\
  phone (registeredDoc now rand salt rb) = String.append "+91" national.
Proof.
  intros Hv national.
  destruct (Regex_phone_national _ (registerValidation_phone rb Hv)) as [Ht _].
  fold national in Ht. split; [exact Ht|].
  pose proof (registered_phone now rand salt rb) as Hp. cbv zeta in Hp.
  change (RegisterBody.phone (registerValidation rb).2) with national in Hp.
  destruct (tenDigits_no_prefix national Ht) as [_ Hs].
  rewrite Hs in Hp. exact Hp.
Qed.

Lemma apply_update_canonical upd u :
  canonicalPhone (phone u) -> canonicalPhone (phone (apply_update upd u)).
Proof. rewrite apply_update_phone. auto. Qed.

End PhoneRoundTrip.

Lemma canonical_sample : canonical Sample.store.
Proof.
  intros id u Hu. evar (u0 : User).
  assert (Hl : map_to_list Sample.store = [(7%N, u0)])
    by (subst u0; vm_compute; reflexivity).
  destruct (sole_document _ _ _ Hl _ _ Hu) as [_ ->].
  exists "9876543210". split; reflexivity.
Qed.

(** X12.  Stored phones are canonical.  If every stored phone is [+91]
    followed by ten digits of which the first is 6 to 9, this is still so
    after any operations of the core: whichever accepted format a
    registration submits (with or without [+91], with a space or a hyphen
    after it), the sanitizers and the save hook store the same form, and
    no other route writes a phone. *)
Theorem X12_phones_stay_canonical `{Externals} (env : Env)
    (ops : list (Z * Operation)) (db : gmap N User) :
  canonical db -> canonical (run env ops db).1.
Proof.
  unfold canonical. apply (run_keeps env (fun u => canonicalPhone (phone u))).
  - intros now rand salt rb Hv.
    destruct (registeredDoc_phone now rand salt rb Hv) as [Ht Hp].
    eexists. split; [exact Ht|exact Hp].
  - intros now d w Hd _. apply apply_update_canonical. exact Hd.
Qed.

Lemma X12_phones_stay_canonical_witness :
  let spaced :=
    {| RegisterBody.name := "Ravi Iyer";
       RegisterBody.email := "ravi@example.in";
       RegisterBody.phone := "+91-9123456780";
       RegisterBody.password := "p0intsman";
       RegisterBody.confirmPassword := "p0intsman" |} in
  let db := (@run Sample.externals Sample.env
               [(1000, Register false 7 "c0ffee" "salt" Sample.asha);
                (2000, Register false 8 "beef" "pepper" spaced)] ∅).1 in
  canonical db /\
  (phone <$> db !! 7%N) = Some "+919876543210" /\
  (phone <$> db !! 8%N) = Some "+919123456780".
Proof.
  intros spaced db. split; [|split; vm_compute; reflexivity].
  apply (@X12_phones_stay_canonical Sample.externals Sample.env).
  intros id u Hu. rewrite lookup_empty in Hu. discriminate.
Defined.

(** X13.  Register, then log in by phone.  After a registration
    answered 201 on a store of canonical phones, a login whose
    identifier, once trimmed, is the registered number in any format the
    phone pattern accepts (ten digits, or [+91] in front, or [+91] and a
    space or hyphen in front) finds the new account and, with the
    registered password, is answered 200 and leaves the counter at 0
    with no lock; bcrypt is taken to accept the password a hash was made
    from. *)
Theorem X13_login_by_phone `{Externals} (env : Env) (now0 : Z) (newId : N)
    (rand salt : string) (rb : RegisterBody.t) (db0 db1 : gmap N User)
    (res1 : Response) (now : Z) (c : Client) (ident : string) (remember : bool) :
  post_register env false now0 newId rand salt rb db0 = (db1, res1) ->
  statusCode res1 = 201 ->
  canonical db0 ->
  bcryptAccepts (RegisterBody.password rb) salt ->
  Regex.phone (Str.trim ident) = true ->
  Str.removeLeadingPlus91 (Str.removeSpacesAndHyphens (Str.trim ident))
  = Str.removeLeadingPlus91 (Str.removeSpacesAndHyphens (RegisterBody.phone rb)) ->
  let doc := registeredDoc now0 rand salt rb in
  let b := {| LoginBody.identifier := ident;
              LoginBody.password := RegisterBody.password rb;
              LoginBody.rememberMe := remember |} in
  exists db2,
    post_login env false now c b db1
    = (db2, loginSucceeded env now remember (newId, doc)) /\
    statusCode (loginSucceeded env now remember (newId, doc)) = 200 /\
    lockout newId db2 = Some (0, None).
Proof.
  intros Hr H201 Hcan [Hacc Hne] Hph Hsame doc b.
  pose proof (post_register_cases env false now0 newId rand salt rb db0) as Hc.
  rewrite Hr in Hc. destruct Hc as [[_ Hx]|Hc]; [congruence|].
  destruct Hc as (_ & Hval & _ & Hfree & Hothers & _ & Hvpw & Hpw & Hdb1 & _).
  fold doc in Hothers, Hpw, Hdb1.
  destruct (registeredDoc_fresh now0 rand salt rb) as (Hst & _ & _ & _ & Hla & _).
  fold doc in Hst, Hla.
  destruct (registeredDoc_phone now0 rand salt rb Hval) as [Hten Hdocp].
  fold doc in Hdocp.
  destruct (Regex_phone_national _ Hph) as [_ Hnp]. rewrite Hsame in Hnp.
  set (national := Str.removeLeadingPlus91
                     (Str.removeSpacesAndHyphens (RegisterBody.phone rb))) in *.
  assert (Hdoc : db1 !! newId = Some doc) by (rewrite Hdb1; apply lookup_insert_eq).
  assert (Hv : (loginValidation b).1 = []).
  { unfold loginValidation, check. cbn [fst LoginBody.identifier LoginBody.password b].
    rewrite (trim_nonEmpty ident)
      by (destruct (Str.trim ident); [discriminate Hph|reflexivity]).
    unfold valid_password in Hvpw. apply andb_prop in Hvpw as [Hvpw _].
    apply andb_prop in Hvpw as [Hvpw _]. rewrite Hvpw. reflexivity. }
  assert (Hf : findByEmailOrPhone (LoginBody.identifier (loginValidation b).2) db1
               = Some (newId, doc)).
  { cbn [loginValidation snd LoginBody.identifier b].
    unfold findByEmailOrPhone. rewrite (Regex_phone_not_email _ Hph).
    apply findOne_unique; [exact Hdoc| |].
    - unfold byPhoneIn. cbn [snd existsb]. rewrite Hdocp.
      destruct Hnp as [->| ->]; rewrite String.eqb_refl, ?orb_true_r; reflexivity.
    - intros k v Hk Hq. destruct (decide (newId = k)) as [->|Hnk]; [reflexivity|].
      exfalso. rewrite Hdb1, lookup_insert_ne in Hk by exact Hnk.
      destruct (Hothers k v Hk) as [_ Hpne]. rewrite Hdocp in Hpne.
      destruct (Hcan k v Hk) as (n & Hn & Hpv).
      unfold byPhoneIn in Hq. cbn [snd existsb] in Hq. rewrite orb_false_r in Hq.
      apply orb_prop in Hq as [Hq|Hq]; apply String.eqb_eq in Hq;
        destruct Hnp as [Hnp|Hnp]; rewrite Hnp in Hq.
      + rewrite Hpv in Hq. rewrite <- Hq in Hten. discriminate Hten.
      + contradiction.
      + contradiction.
      + rewrite Hpv in Hq. apply append_inj_l in Hq. rewrite Hq in Hn.
        discriminate Hn. }
  assert (Hnl : isLocked now (newId, doc).2 = false).
  { unfold isLocked. cbn [snd]. rewrite Hla. reflexivity. }
  assert (Hns : status (newId, doc).2 <> suspended).
  { cbn [snd]. rewrite Hst. discriminate. }
  assert (Hcp : comparePassword (LoginBody.password b) (newId, doc).2 = true).
  { unfold comparePassword. cbn [snd LoginBody.password b]. rewrite Hpw, Hne.
    exact Hacc. }
  rewrite (post_login_right env now c b db1 (newId, doc) Hv Hf Hnl Hns Hcp).
  eexists. split; [reflexivity|]. split; [reflexivity|].
  unfold lockout, resetLoginAttempts. cbn [LoginInfo.location fst].
  rewrite (lookup_exec_eq newId _ db1 doc); [reflexivity|exact Hdoc].
Qed.

Lemma X13_login_by_phone_witness :
  let doc := @registeredDoc Sample.externals 1000 "c0ffee" "salt" Sample.asha in
  let b ident := {| LoginBody.identifier := ident;
                    LoginBody.password := "tr4ckside";
                    LoginBody.rememberMe := false |} in
  (exists db2,
     @post_login Sample.externals Sample.env false 9000 Sample.client
       (b " 9876543210 ") Sample.store
     = (db2, loginSucceeded Sample.env 9000 false (7%N, doc)) /\
     statusCode (loginSucceeded Sample.env 9000 false (7%N, doc)) = 200 /\
     lockout 7 db2 = Some (0, None)) /\
  (exists db2,
     @post_login Sample.externals Sample.env false 9000 Sample.client
       (b "+91-9876543210") Sample.store
     = (db2, loginSucceeded Sample.env 9000 false (7%N, doc)) /\
     statusCode (loginSucceeded Sample.env 9000 false (7%N, doc)) = 200 /\
     lockout 7 db2 = Some (0, None)).
Proof.
  intros doc b.
  assert (Hcan : canonical ∅).
  { intros id u Hu. rewrite lookup_empty in Hu. discriminate. }
  split.
  - apply (@X13_login_by_phone Sample.externals Sample.env 1000 7
             "c0ffee" "salt" Sample.asha ∅ Sample.store
             (@post_register Sample.externals Sample.env false 1000 7 "c0ffee"
                "salt" Sample.asha ∅).2 9000 Sample.client " 9876543210 " false);
      [apply surjective_pairing|vm_compute; reflexivity|exact Hcan
      |split; vm_compute; reflexivity|vm_compute; reflexivity
      |vm_compute; reflexivity].
  - apply (@X13_login_by_phone Sample.externals Sample.env 1000 7
             "c0ffee" "salt" Sample.asha ∅ Sample.store
             (@post_register Sample.externals Sample.env false 1000 7 "c0ffee"
                "salt" Sample.asha ∅).2 9000 Sample.client "+91-9876543210" false);
      [apply surjective_pairing|vm_compute; reflexivity|exact Hcan
      |split; vm_compute; reflexivity|vm_compute; reflexivity
      |vm_compute; reflexivity].
Defined.

Section BlankLogin.
Context `{Externals}.
Variable env : Env.
Implicit Types (db : gmap N User).

Lemma dropWhile_all p s : Str.all p s = true -> Str.dropWhile p s = "".
Proof.
  induction s as [|c r IH]; simpl; [reflexivity|].
  intros Hs. apply andb_prop in Hs as [Hc Hr]. rewrite Hc. exact (IH Hr).
Qed.

Lemma trim_blank s : Str.all Str.isSpace s = true -> Str.trim s = "".
Proof. intros Hs. unfold Str.trim. rewrite (dropWhile_all _ _ Hs). reflexivity. Qed.

(** No canonical phone is matched by the empty identifier. *)
Lemma findByEmailOrPhone_blank db :
  canonical db -> findByEmailOrPhone "" db = None.
Proof.
  intros Hcan. unfold findByEmailOrPhone. cbn.
  apply findOne_None. intros k u Hk.
  destruct (Hcan k u Hk) as (n & Hn & Hp).
  unfold byPhoneIn. cbn [snd existsb]. rewrite Hp.
  destruct n as [|c r]; [discriminate Hn|]. reflexivity.
Qed.

End BlankLogin.

(** X14.  Blank credentials.  A login whose identifier or password is the
    empty string is answered 400 before any account is looked up: the
    store is untouched, so it never counts as a failed attempt, and no
    cookie is set.  An identifier made of white space only passes the
    validator, which tests it before trimming; trimmed, it is the empty
    string, which names no account of a store of canonical phones: the
    reply is the 401 for an unknown user. *)
Theorem X14_blank_login `{Externals} (env : Env) (now : Z) (c : Client)
    (b : LoginBody.t) (db : gmap N User) :
  (LoginBody.identifier b = "" \/ LoginBody.password b = "" ->
   (post_login env false now c b db).1 = db /\
   statusCode (post_login env false now c b db).2 = 400 /\
   setCookies (post_login env false now c b db).2 = []) /\
  (Str.nonEmpty (LoginBody.identifier b) = true ->
   Str.all Str.isSpace (LoginBody.identifier b) = true ->
   Str.nonEmpty (LoginBody.password b) = true ->
   canonical db ->
   post_login env false now c b db
   = (db, invalidCredentials
            "Make sure you entered the correct credentials, or create a new account")).
Proof.
  unfold post_login, login_handler, loginValidation, check. split.
  - intros [He|He]; rewrite He; cbn [Str.nonEmpty app].
    + split; [reflexivity|]. split; reflexivity.
    + destruct (Str.nonEmpty (LoginBody.identifier b));
        (split; [reflexivity|]); split; reflexivity.
  - intros Hne Hsp Hpw Hcan. rewrite Hne, Hpw. cbn [app].
    unfold serve, login_request. cbn [query continue LoginBody.identifier].
    rewrite (trim_blank _ Hsp), (findByEmailOrPhone_blank db Hcan). reflexivity.
Qed.

Lemma X14_blank_login_witness :
  let post ident pw :=
    @post_login Sample.externals Sample.env false 9000 Sample.client
      {| LoginBody.identifier := ident; LoginBody.password := pw;
         LoginBody.rememberMe := false |} Sample.store in
  ((post "asha@example.in" "").1 = Sample.store /\
   statusCode (post "asha@example.in" "").2 = 400 /\
   setCookies (post "asha@example.in" "").2 = []) /\
  post "   " "tr4ckside"
  = (Sample.store,
     invalidCredentials
       "Make sure you entered the correct credentials, or create a new account").
Proof.
  intros post. split.
  - apply (proj1 (@X14_blank_login Sample.externals Sample.env 9000 Sample.client
                    {| LoginBody.identifier := "asha@example.in";
                       LoginBody.password := "";
                       LoginBody.rememberMe := false |} Sample.store)).
    right. reflexivity.
  - apply (proj2 (@X14_blank_login Sample.externals Sample.env 9000 Sample.client
                    {| LoginBody.identifier := "   ";
                       LoginBody.password := "tr4ckside";
                       LoginBody.rememberMe := false |} Sample.store));
      [reflexivity|reflexivity|reflexivity|].
    exact canonical_sample.
Defined.

Section Profile.
Context `{Externals}.
Variable env : Env.
Implicit Types (db : gmap N User) (u : User).

Lemma run_noneVerified ops db : noneVerified db -> noneVerified (run env ops db).1.
Proof.
  unfold noneVerified.
  apply (run_keeps env
           (fun u => (isEmailVerified u && isPhoneVerified u)%bool = false)).
  - intros now rand salt rb _.
    destruct (registeredDoc_fresh now rand salt rb) as (_ & _ & -> & _).
    reflexivity.
  - intros now d w Hd _.
    pose proof (apply_update_identity w.2 d.2) as Hid.
    unfold identity in Hid. injection Hid as _ _ _ _ _ -> ->. exact Hd.
Qed.

Lemma isProfileComplete_unverified u :
  (isEmailVerified u && isPhoneVerified u)%bool = false ->
  isProfileComplete u = false.
Proof.
  unfold isProfileComplete. intros Hv.
  rewrite <- andb_assoc, Hv. apply andb_false_r.
Qed.

End Profile.

(** X15.  A profile is never complete.  If no account has both its
    e-mail and its phone verified, as is the case after a registration,
    this is still so after any operations of the core, none of which
    sets a verification flag.  GET /me, for an authenticated id, then
    answers 404 when the account does not exist and otherwise 200 with
    the document, in which [isProfileComplete] is false and [isLocked]
    tells whether [lockUntil] lies after the clock; the store is
    untouched. *)
Theorem X15_profile_never_complete `{Externals} (env : Env)
    (ops : list (Z * Operation)) (db : gmap N User) (now : Z) (id : N) :
  noneVerified db ->
  let db' := (run env ops db).1 in
  let r := get_me (Authenticated id) now db' in
  r.1 = db' /\
  match db' !! id with
  | None => statusCode r.2 = 404
  | Some u =>
      statusCode r.2 = 200 /\
      path ["data"; "user"] (body r.2) = Some (toJSON now (id, u)) /\
      path ["data"; "user"; "isProfileComplete"] (body r.2) = Some (JBool false) /\
      path ["data"; "user"; "isLocked"] (body r.2)
      = Some (JBool (match lockUntil (loginAttempts u) with
                     | Some t => Z.ltb now t
                     | None => false
                     end)) /\
      path ["data"; "user"; "password"] (body r.2) = None
  end.
Proof.
  intros Hdb db' r. pose proof (run_noneVerified env ops db Hdb) as Hn.
  fold db' in Hn. subst r. unfold get_me, findById.
  destruct (db' !! id) as [u|] eqn:Hu; [|split; reflexivity].
  split; [reflexivity|]. split; [reflexivity|]. split; [reflexivity|].
  split; [|split; reflexivity].
  cbn. rewrite (isProfileComplete_unverified u (Hn id u Hu)). reflexivity.
Qed.

Lemma X15_profile_never_complete_witness :
  let ops :=
    [(1000, Register false 7 "c0ffee" "salt" Sample.asha);
     (2000, Login false Sample.client (Sample.credentials "tr4ckside" false))] in
  let db' := (@run Sample.externals Sample.env ops ∅).1 in
  let r := get_me (Authenticated 7) 3000 db' in
  statusCode r.2 = 200 /\
  path ["data"; "user"; "isProfileComplete"] (body r.2) = Some (JBool false) /\
  path ["data"; "user"; "lastLogin"; "timestamp"] (body r.2) = Some (JDate 2000).
Proof.
  intros ops db' r.
  pose proof (@X15_profile_never_complete Sample.externals Sample.env ops ∅ 3000 7)
    as Hx.
  cbv zeta in Hx. fold db' in Hx. fold r in Hx.
  destruct Hx as [_ Hx].
  - intros id u Hu. rewrite lookup_empty in Hu. discriminate.
  - destruct (db' !! 7%N) as [u|] eqn:Hu; [|vm_compute in Hu; discriminate Hu].
    destruct Hx as (H200 & _ & Hpc & _). split; [exact H200|].
    split; [exact Hpc|]. vm_compute. reflexivity.
Defined.

Section LoginOutcome.
Context `{Externals}.
Variable env : Env.
Implicit Types (db : gmap N User) (d : Doc).

(** What a 200 from POST /login says of the request. *)
Lemma post_login_200 limited now c b db :
  statusCode (post_login env limited now c b db).2 = 200 ->
  exists d,
    limited = false /\ (loginValidation b).1 = [] /\
    findByEmailOrPhone (LoginBody.identifier (loginValidation b).2) db = Some d /\
    isLocked now d.2 = false /\ status d.2 <> suspended /\
    comparePassword (LoginBody.password b) d.2 = true.
Proof.
  unfold post_login. destruct limited; [discriminate|].
  unfold login_handler.
  assert (Hpw : LoginBody.password (loginValidation b).2 = LoginBody.password b)
    by reflexivity.
  destruct (loginValidation b) as [errors b']. cbn [fst snd] in *.
  destruct errors; [|discriminate].
  unfold serve, login_request. cbn [query continue].
  destruct (findByEmailOrPhone (LoginBody.identifier b') db) as [d|] eqn:Hf;
    [|discriminate].
  unfold login_found.
  destruct (isLocked now d.2) eqn:Hl; [discriminate|].
  destruct (Status_eqb (status d.2) suspended) eqn:Hs; [discriminate|].
  rewrite Hpw.
  destruct (comparePassword (LoginBody.password b) d.2) eqn:Hp; [|discriminate].
  intros _. exists d. repeat (split; [reflexivity|]).
  split; [exact Hl|]. split; [|exact Hp].
  intros Hx. rewrite Hx in Hs. discriminate.
Qed.

End LoginOutcome.

(** X17.  What a successful login records.  A login answered 200 at
    [now] writes to the account it found, and to no other: the record of
    the login (instant, address, user agent, the location Unknown,
    India), a counter of 0 and no lock.  The password, a pending reset
    token and the identity of the account stay as they are.  The reply,
    built from the document as it was loaded, shows under [lastLogin] the
    login before this one. *)
Theorem X17_login_is_recorded `{Externals} (env : Env) (limited : bool)
    (now : Z) (c : Client) (b : LoginBody.t) (db db' : gmap N User)
    (res : Response) :
  post_login env limited now c b db = (db', res) ->
  statusCode res = 200 ->
  exists d u',
    db !! d.1 = Some d.2 /\ db' !! d.1 = Some u' /\
    lastLogin u'
    = {| timestamp := Some now; ipAddress := Some (ip c); userAgent := agent c;
         location := Some {| city := "Unknown"; country := "India" |} |} /\
    count (loginAttempts u') = 0 /\ lockUntil (loginAttempts u') = None /\
    password u' = password d.2 /\
    passwordResetToken u' = passwordResetToken d.2 /\
    passwordResetExpires u' = passwordResetExpires d.2 /\
    identity u' = identity d.2 /\
    path ["data"; "user"; "lastLogin"] (body res)
    = Some (LastLogin_json (lastLogin d.2)) /\
    (forall k, k <> d.1 -> db' !! k = db !! k).
Proof.
  intros Hl H200.
  destruct (post_login_200 env limited now c b db) as
    (d & -> & Hv & Hf & Hnl & Hns & Hp); [rewrite Hl; exact H200|].
  rewrite (post_login_right env now c b db d Hv Hf Hnl Hns Hp) in Hl.
  injection Hl as <- <-.
  pose proof (findByEmailOrPhone_Some _ _ _ Hf) as Hd.
  unfold resetLoginAttempts. cbn [LoginInfo.location LoginInfo.ipAddress
                                  LoginInfo.userAgent].
  exists d. eexists. split; [exact Hd|].
  split; [apply lookup_exec_eq; exact Hd|].
  repeat (split; [reflexivity|]).
  intros k Hne. apply lookup_exec_ne. congruence.
Qed.

Lemma X17_login_is_recorded_witness :
  let first :=
    @post_login Sample.externals Sample.env false 9000 Sample.client
      (Sample.credentials "tr4ckside" false) Sample.store in
  let second :=
    @post_login Sample.externals Sample.env false 12000 Sample.client
      (Sample.credentials "tr4ckside" false) first.1 in
  (exists d : Doc, path ["data"; "user"; "lastLogin"] (body second.2)
                   = Some (LastLogin_json (lastLogin d.2))) /\
  path ["data"; "user"; "lastLogin"; "timestamp"] (body first.2) = None /\
  path ["data"; "user"; "lastLogin"; "timestamp"] (body second.2)
  = Some (JDate 9000) /\
  (timestamp <$> (lastLogin <$> second.1 !! 7%N)) = Some (Some 12000).
Proof.
  intros first second. split; [|repeat split; vm_compute; reflexivity].
  destruct (@X17_login_is_recorded Sample.externals Sample.env false 12000
              Sample.client (Sample.credentials "tr4ckside" false)
              first.1 second.1 second.2)
    as (d & u' & _ & _ & _ & _ & _ & _ & _ & _ & _ & Hpath & _).
  - apply surjective_pairing.
  - vm_compute. reflexivity.
  - exists d. exact Hpath.
Defined.

Section PasswordRules.
Import Str.

Ltac each_char c := destruct c as [[] [] [] [] [] [] [] []].

Lemma takeWhile_all p s : all p s = true -> takeWhile p s = s.
Proof.
  induction s as [|c r IH]; simpl; [reflexivity|].
  intros Hs. apply andb_prop in Hs as [Hc Hr]. rewrite Hc, (IH Hr). reflexivity.
Qed.

Lemma passwordChar_same_line c :
  (isLetter c || isDigit c || isOneOf "@$!%*#?&" c)%bool = true ->
  negb (isLineTerminator c) = true.
Proof. each_char c; intros Hc; try reflexivity; discriminate Hc. Qed.

End PasswordRules.

(** X18.  The schema's password rule implies the routes'.  A password
    the validator of the schema accepts is at least eight characters
    long and has a letter and a digit on its first line, which is what
    the validators of POST /register and POST /reset-password ask for:
    sent with a matching confirmation, it passes [resetValidation].  With
    X9 the schema's rule is strictly the stronger of the two. *)
Theorem X18_schema_password_passes_route (pw : string) :
  valid_password pw = true ->
  Z.leb 8 (Str.len pw) = true /\
  Regex.letterAndDigit pw = true /\
  resetValidation {| ResetBody.password := pw; ResetBody.confirmPassword := pw |}
  = [].
Proof.
  unfold valid_password, Regex.strongPassword. intros Hv.
  apply andb_prop in Hv as [Hv Hs]. apply andb_prop in Hv as [_ H8].
  apply andb_prop in Hs as [Hs _]. apply andb_prop in Hs as [Hs Hall].
  apply andb_prop in Hs as [Hl Hd].
  assert (Hld : Regex.letterAndDigit pw = true).
  { unfold Regex.letterAndDigit.
    rewrite (takeWhile_all _ pw (all_impl _ _ _ passwordChar_same_line Hall)).
    rewrite Hl, Hd. reflexivity. }
  split; [exact H8|]. split; [exact Hld|].
  unfold resetValidation, check. cbn [ResetBody.password ResetBody.confirmPassword].
  rewrite H8, Hld, String.eqb_refl. reflexivity.
Qed.

Lemma X18_schema_password_passes_route_witness :
  Z.leb 8 (Str.len "tr4ckside") = true /\
  Regex.letterAndDigit "tr4ckside" = true /\
  resetValidation {| ResetBody.password := "tr4ckside";
                     ResetBody.confirmPassword := "tr4ckside" |} = [].
Proof. apply X18_schema_password_passes_route. reflexivity. Defined.
